(** * Misner Splunk Tool: the session, polling and ad-hoc REST engine

    A shallow embedding of the handlers of [MainWindow] in
    [misnersplunktool.py] that own the connection to splunkd:
    [connect], [disconnect], [poll], [table_builder],
    [comboConfig_activated], [actionRestartSplunkd_clicked],
    [actionChangeDeploymentServer_clicked] and [buttonRestSend_clicked].

    The window is a state ([Window]); a handler is a function from the
    window to the window after the handler together with its outcome: a
    normal return or the exception that left the handler.  The wrapper
    module [misnersplunkdwrapper] and splunkd itself are a parameter
    ([Remote]) that answers every request the handlers send. *)

From Stdlib Require Import ZArith Lia Ascii String List.
From stdpp Require Import gmap strings list fin_maps pretty.

Local Open Scope Z_scope.

(** ** Python string operations used by the handlers

    The texts of the Qt widgets are [unicode] objects; [string] stands for
    them, an [ascii] being a code point below 256. *)

Module PyStr.

(** [unicode.isspace] on the code points below 256: TAB..CR, FS..US, space,
    NEL and the no-break space. *)
Definition isspace (c : ascii) : bool :=
  let n := nat_of_ascii c in
  ((9 <=? n) && (n <=? 13) || (28 <=? n) && (n <=? 32)
   || (n =? 133) || (n =? 160))%nat.

(** [s.lstrip()], [s.rstrip()] and [s.strip()]. *)
Fixpoint lstrip (s : string) : string :=
  match s with
  | EmptyString => EmptyString
  | String c s' => if isspace c then lstrip s' else s
  end.

Fixpoint rstrip (s : string) : string :=
  match s with
  | EmptyString => EmptyString
  | String c s' =>
      match rstrip s' with
      | EmptyString => if isspace c then EmptyString else String c EmptyString
      | r => String c r
      end
  end.

Definition strip (s : string) : string := rstrip (lstrip s).

(** [c in s] for a one-character [c]. *)
Fixpoint contains (c : ascii) (s : string) : bool :=
  match s with
  | EmptyString => false
  | String d s' => Ascii.eqb d c || contains c s'
  end.

(** Number of occurrences of the character [c] in [s] ([s.count(c)]). *)
Fixpoint count (c : ascii) (s : string) : nat :=
  match s with
  | EmptyString => O
  | String d s' => if Ascii.eqb d c then S (count c s') else count c s'
  end.

(** [s.split(c)] for a one-character separator: one more piece than there
    are separators, empty pieces kept. *)
Fixpoint split (c : ascii) (s : string) : list string :=
  match s with
  | EmptyString => [EmptyString]
  | String d s' =>
      if Ascii.eqb d c then EmptyString :: split c s'
      else match split c s' with
           | [] => [String d EmptyString]
           | p :: ps => String d p :: ps
           end
  end.

(** [c.join(l)]. *)
Fixpoint join (c : ascii) (l : list string) : string :=
  match l with
  | [] => EmptyString
  | [p] => p
  | p :: ps => p +:+ String c (join c ps)
  end.

(** [sub in s] for strings: [sub] is a prefix of some suffix of [s]. *)
Fixpoint find_sub (sub s : string) : bool :=
  String.prefix sub s
  || match s with
     | EmptyString => false
     | String _ s' => find_sub sub s'
     end.

(** [int(s)] of CPython 2.7 on a text: blanks around the literal and
    between the sign and the digits are skipped, the sign is optional, at
    least one decimal digit is required.  [None] stands for [ValueError]. *)
Definition digit (c : ascii) : option Z :=
  let n := nat_of_ascii c in
  if ((48 <=? n) && (n <=? 57))%nat then Some (Z.of_nat n - 48) else None.

Fixpoint digits (acc : Z) (s : string) : option Z :=
  match s with
  | EmptyString => Some acc
  | String c s' =>
      match digit c with
      | Some d => digits (10 * acc + d) s'
      | None => None
      end
  end.

Definition unsigned (s : string) : option Z :=
  match lstrip s with
  | EmptyString => None
  | ds => digits 0 ds
  end.

Definition int (s : string) : option Z :=
  match strip s with
  | String "+" s' => unsigned s'
  | String "-" s' => Z.opp <$> unsigned s'
  | s' => unsigned s'
  end.

End PyStr.

(** ** Exceptions and outcomes *)

(** The exception classes the handlers tell apart.  [socket.gaierror] is a
    subclass of [socket.error]; both carry the text that [str(e)] prints. *)
Inductive Exc :=
| AuthenticationError
| socket_gaierror (msg : string)
| socket_error (msg : string)
| ValueError
| AttributeError
| KeyError (key : string)
| TypeError
| OtherException (name : string).

(** [except socket.error as e]: the text of [e] when the clause matches. *)
Definition as_socket_error (e : Exc) : option string :=
  match e with
  | socket_gaierror msg | socket_error msg => Some msg
  | _ => None
  end.

Inductive Outcome (A : Type) :=
| Return (a : A)
| Raise (e : Exc).
Arguments Return {A} a.
Arguments Raise {A} e.

(** ** The wrapper object [self.splunkd]

    The attributes of [misnersplunkdwrapper.Splunkd] that the window reads.
    A collection is a list of references to dict objects; the dicts live in
    [heap], so that an assignment to a key of one of them is seen through
    every reference to it. *)
Module Splunkd.

Record attrs := {
  host : string;
  server_name : string;
  roles : list string;
  mode : string;
  type : string;
  guid : string;
  os : string;
  cores : Z;
  ram : Z;
  deployment_server : string;
  cluster_mode : string;
  cluster_master_uri : string;
  shcluster_deployer : string;
  messages : list nat;
  configuration_files : list string;
  fileinput_status : list nat;
  rawtcp_status : list nat;
  cookedtcp_status : list nat;
  udphosts_status : list nat;
  modularinput_status : list nat;
  execinput_status : list nat;
  apps : list nat;
  cluster_alldatasearchable : bool;
  cluster_searchfactormet : bool;
  cluster_replicationfactormet : bool;
  cluster_maintenance : bool;
  cluster_rollingrestart : bool;
  cluster_initialized : bool;
  cluster_serviceready : bool;
  cluster_indexingready : bool;
  cluster_peers : list nat;
  cluster_peers_searchable : Z;
  cluster_peers_up : Z;
  cluster_indexes : list nat;
  cluster_indexes_searchable : Z;
  cluster_searchheads : list nat;
  cluster_searchheads_connected : Z;
  shcluster_initialized : bool;
  shcluster_serviceready : bool;
  shcluster_minpeersjoined : bool;
  shcluster_dynamiccaptain : bool;
  shcluster_rollingrestart : bool;
  shcluster_captainlabel : string;
  shcluster_electedcaptain : string;
  shcluster_members : list nat;
  cpu_usage : Z;
  mem_usage : Z;
  swap_usage : Z;
  splunk_processes : list nat;
  disk_partitions : list nat
}.

Record t := {
  fields : attrs;
  heap : gmap nat (gmap string string)
}.

(** [d[key] = v] on the dict object behind the reference [l]. *)
Definition setitem (l : nat) (key v : string) (s : t) : t :=
  {| fields := fields s; heap := alter (insert key v) l (heap s) |}.

(** The dict object behind a reference. *)
Definition deref (s : t) (l : nat) : gmap string string :=
  default ∅ (heap s !! l).

End Splunkd.

(** ** Requests to splunkd and its answers *)

(** The sub-polls of [poll], in the order of the source. *)
Inductive PollStep :=
| poll_service_info
| poll_service_settings
| poll_service_messages
| get_service_confs
| get_services_admin_inputstatus
| poll_service_apps
| get_services_cluster_master
| get_services_shcluster
| get_services_server_status.

(** The arguments of one [rest_call]; [output_format] is [None] where the
    caller leaves it to the wrapper's default. *)
Record RestRequest := {
  rest_uri : string;
  rest_method : string;
  rest_output_format : option string;
  rest_body_input : string;
  rest_parameters : gmap string string
}.

(** What [rest_call] returns: a text, or the parsed document, of which the
    window reads [result['response']['messages']['msg']] (its ['type'] and
    ['$text']), when it is there. *)
Inductive RestResult :=
| PlainText (body : string)
| Structured (msg : option (string * string)).

Inductive Request :=
| ReqLogin (host : string) (port : Z) (username password : string)
| ReqSettings
| ReqPoll (step : PollStep)
| ReqRestartRequired
| ReqKvpairs (filename : string)
| ReqRest (r : RestRequest)
| ReqRestart.

(** The wrapper module is not part of the modelled file: what its calls
    answer is a parameter.  Every answer may depend on the number of
    requests sent before it and on the wrapper object; a sub-poll returns
    the wrapper object as it leaves it, whether it raises or not. *)
Record Remote := {
  answer_login : nat → string → Z → string → string → Exc + Splunkd.t;
  answer_settings : nat → Splunkd.t → option Exc;
  answer_poll : nat → PollStep → Splunkd.t → Splunkd.t * option Exc;
  answer_restart_required : nat → Splunkd.t → Exc + bool;
  answer_kvpairs : nat → string → Splunkd.t → Exc + string;
  answer_rest : nat → RestRequest → Splunkd.t → Exc + RestResult;
  answer_restart : nat → Splunkd.t → option Exc
}.

(** ** The widgets

    The properties of the widgets that the handlers set, each keyed by the
    name of the widget in [self.ui].  The status bar is the widget
    ["statusbar"], its text the message shown.  [None] passed as a text is
    the empty text.  Column widths, sort order, the sorting switch of a
    table and [resizeRowsToContents] are left out: no handler reads them. *)

Record Table := {
  rowCount : nat;
  cells : gmap (nat * nat) string
}.

Definition empty_table : Table := {| rowCount := 0; cells := ∅ |}.

Record Ui := {
  windowTitle : string;
  enabled : gmap string bool;
  text : gmap string string;
  toolTip : gmap string string;
  pixmap : gmap string string;
  checked : gmap string bool;
  value : gmap string Z;
  tables : gmap string Table;
  items : gmap string (list string)
}.

Inductive UiOp :=
| setWindowTitle (t : string)
| setEnabled (w : string) (b : bool)
| setText (w : string) (t : string)
| setToolTip (w : string) (t : string)
| setPixmap (w : string) (p : string)
| setChecked (w : string) (b : bool)
| setValue (w : string) (v : Z)
| setRowCount (w : string) (n : nat)
| setItem (w : string) (row col : nat)
| setItemText (w : string) (row col : nat) (t : string)
| clear (w : string)
| addItems (w : string) (l : list string).

(** [table.setRowCount(n)]: the cells of the rows from [n] on are dropped. *)
Definition resize (n : nat) (t : Table) : Table :=
  {| rowCount := n;
     cells := filter (λ kv : (nat * nat) * string, (kv.1.1 < n)%nat) (cells t) |}.

Definition set_cell (row col : nat) (v : string) (t : Table) : Table :=
  {| rowCount := rowCount t; cells := <[(row, col) := v]> (cells t) |}.

Definition table_of (u : Ui) (w : string) : Table :=
  default empty_table (tables u !! w).

Definition with_tables (f : gmap string Table → gmap string Table) (u : Ui) : Ui :=
  {| windowTitle := windowTitle u; enabled := enabled u; text := text u;
     toolTip := toolTip u; pixmap := pixmap u; checked := checked u;
     value := value u; tables := f (tables u); items := items u |}.

Definition with_text (f : gmap string string → gmap string string) (u : Ui) : Ui :=
  {| windowTitle := windowTitle u; enabled := enabled u; text := f (text u);
     toolTip := toolTip u; pixmap := pixmap u; checked := checked u;
     value := value u; tables := tables u; items := items u |}.

Definition with_items (f : gmap string (list string) → gmap string (list string))
    (u : Ui) : Ui :=
  {| windowTitle := windowTitle u; enabled := enabled u; text := text u;
     toolTip := toolTip u; pixmap := pixmap u; checked := checked u;
     value := value u; tables := tables u; items := f (items u) |}.

(** The text a widget shows ([text()], [currentText()]). *)
Definition text_of (u : Ui) (w : string) : string := default "" (text u !! w).

Definition items_of (u : Ui) (w : string) : list string :=
  default [] (items u !! w).

Definition apply_op (op : UiOp) (u : Ui) : Ui :=
  match op with
  | setWindowTitle t =>
      {| windowTitle := t; enabled := enabled u; text := text u;
         toolTip := toolTip u; pixmap := pixmap u; checked := checked u;
         value := value u; tables := tables u; items := items u |}
  | setEnabled w b =>
      {| windowTitle := windowTitle u; enabled := <[w := b]> (enabled u);
         text := text u; toolTip := toolTip u; pixmap := pixmap u;
         checked := checked u; value := value u; tables := tables u;
         items := items u |}
  | setText w t => with_text (insert w t) u
  | setToolTip w t =>
      {| windowTitle := windowTitle u; enabled := enabled u; text := text u;
         toolTip := <[w := t]> (toolTip u); pixmap := pixmap u;
         checked := checked u; value := value u; tables := tables u;
         items := items u |}
  | setPixmap w p =>
      {| windowTitle := windowTitle u; enabled := enabled u; text := text u;
         toolTip := toolTip u; pixmap := <[w := p]> (pixmap u);
         checked := checked u; value := value u; tables := tables u;
         items := items u |}
  | setChecked w b =>
      {| windowTitle := windowTitle u; enabled := enabled u; text := text u;
         toolTip := toolTip u; pixmap := pixmap u;
         checked := <[w := b]> (checked u); value := value u;
         tables := tables u; items := items u |}
  | setValue w v =>
      {| windowTitle := windowTitle u; enabled := enabled u; text := text u;
         toolTip := toolTip u; pixmap := pixmap u; checked := checked u;
         value := <[w := v]> (value u); tables := tables u; items := items u |}
  | setRowCount w n =>
      with_tables (insert w (match n with
                             | O => empty_table
                             | _ => resize n (table_of u w)
                             end)) u
  | setItem w row col =>
      with_tables (insert w (set_cell row col "" (table_of u w))) u
  | setItemText w row col t =>
      with_tables (insert w (set_cell row col t (table_of u w))) u
  | clear w =>
      with_items (insert w []) (with_text (insert w "") u)
  | addItems w l =>
      (* the first entry of a combo box that was empty becomes current *)
      let u' := with_items (insert w (items_of u w ++ l)) u in
      match items_of u w, l with
      | [], x :: _ => with_text (insert w x) u'
      | _, _ => u'
      end
  end.

Definition apply_ops (ops : list UiOp) (u : Ui) : Ui :=
  foldl (λ u op, apply_op op u) u ops.

(** ** The window and its handlers' monad *)

Inductive Dialog := Information | Warning | Critical | Question | Input.

(** [splunkd] is the attribute [self.splunkd], absent when [None];
    [dialogs] are the message boxes shown and [net] the requests sent, both
    oldest first. *)
Record Window := {
  splunkd : option Splunkd.t;
  ui : Ui;
  dialogs : list (Dialog * string);
  net : list Request
}.

Definition M (A : Type) : Type := Window → Window * Outcome A.

Definition ret {A} (a : A) : M A := λ w, (w, Return a).

Definition raise {A} (e : Exc) : M A := λ w, (w, Raise e).

Definition bind {A B} (m : M A) (k : A → M B) : M B :=
  λ w, match m w with
       | (w', Return a) => k a w'
       | (w', Raise e) => (w', Raise e)
       end.

Declare Scope handler_scope.
Delimit Scope handler_scope with handler.
Bind Scope handler_scope with M.
Notation "x ← y ; z" := (bind y (λ x, z))
  (at level 20, y at level 100, z at level 200, only parsing) : handler_scope.
Notation "x ;; z" := (bind x (λ _, z))
  (at level 100, z at level 200, only parsing, right associativity)
  : handler_scope.
Local Open Scope handler_scope.

(** [try: m / except ...: h; return / (rest) k]: an exception of [m] for
    which [h] has a clause runs the clause and ends the handler; one
    without clause leaves the handler; without exception the handler goes
    on with [k]. *)
Definition try_or_return {A B} (m : M A) (h : Exc → option (M B)) (k : A → M B)
    : M B :=
  λ w, match m w with
       | (w', Return a) => k a w'
       | (w', Raise e) =>
           match h e with
           | Some clause => clause w'
           | None => (w', Raise e)
           end
       end.

Definition gui (ops : list UiOp) : M unit :=
  λ w, ({| splunkd := splunkd w; ui := apply_ops ops (ui w);
           dialogs := dialogs w; net := net w |}, Return ()).

Definition show_dialog (kind : Dialog) (msg : string) : M unit :=
  λ w, ({| splunkd := splunkd w; ui := ui w;
           dialogs := dialogs w ++ [(kind, msg)]; net := net w |}, Return ()).

Definition set_splunkd (o : option Splunkd.t) : M unit :=
  λ w, ({| splunkd := o; ui := ui w; dialogs := dialogs w; net := net w |},
        Return ()).

Definition send (r : Request) : M nat :=
  λ w, ({| splunkd := splunkd w; ui := ui w; dialogs := dialogs w;
           net := net w ++ [r] |}, Return (length (net w))).

(** Reading [self.splunkd]. *)
Definition get_splunkd : M Splunkd.t :=
  λ w, match splunkd w with
       | Some s => (w, Return s)
       | None => (w, Raise AttributeError)
       end.

Definition widget_text (name : string) : M string :=
  λ w, (w, Return (text_of (ui w) name)).

Definition widget_items (name : string) : M (list string) :=
  λ w, (w, Return (items_of (ui w) name)).

Definition of_option {A} (o : option Exc) (a : A) : M A :=
  match o with
  | Some e => raise e
  | None => ret a
  end.

Definition of_sum {A} (r : Exc + A) : M A :=
  match r with
  | inl e => raise e
  | inr a => ret a
  end.

Definition statusbar_msg (msg : string) : M unit := gui [setText "statusbar" msg].
Definition information_msg (msg : string) : M unit := show_dialog Information msg.
Definition warning_msg (msg : string) : M unit := show_dialog Warning msg.
Definition critical_msg (msg : string) : M unit := show_dialog Critical msg.

(** [question_msg_yesno]: the box is shown, [answer] is what the user
    clicks. *)
Definition question_msg_yesno (msg : string) (answer : bool) : M bool :=
  show_dialog Question msg ;; ret answer.

(** ** The handlers of [MainWindow] *)

(** The widget settings of [disconnect], in the order of the source. *)
Definition disconnect_reset : list UiOp :=
  [ setWindowTitle "Misner Splunk Tool";
    setEnabled "comboAddress" true;
    setEnabled "editUsername" true;
    setEnabled "editPassword" true;
    setEnabled "tabWidgetMain" false;
    setEnabled "buttonPoll" false;
    setText "buttonToggle" "Connect";
    setPixmap "labelRole" ":/blank.png";
    setToolTip "labelRole" "";
    setText "labelHost" "(none)";
    setText "labelType" "(none)";
    setText "labelGUID" "(none)";
    setText "labelOS" "(none)";
    setToolTip "labelOS" "(none)";
    setText "labelSystem" "(none)";
    setText "labelUptime" "(none)";
    setToolTip "labelUptime" "";
    setRowCount "tableMessages" 0;
    setText "labelRestartRequired" "?";
    setText "labelDeploymentServer" "(none)";
    setToolTip "labelDeploymentServer" "";
    setText "labelClusterMasterHeader" "Cluster Master:";
    setText "labelClusterMaster" "(none)";
    setToolTip "labelClusterMaster" "";
    setText "labelSHCDeployer" "(none)";
    setToolTip "labelSHCDeployer" "";
    setText "editConfig" "";
    setRowCount "tableFileStatus" 0;
    setRowCount "tableTCP" 0;
    setRowCount "tableUDP" 0;
    setRowCount "tableModular" 0;
    setRowCount "tableExec" 0;
    setRowCount "tableApps" 0;
    setChecked "checkClusterDataSearchable" false;
    setChecked "checkClusterSearchFactorMet" false;
    setChecked "checkClusterReplicationFactorMet" false;
    setText "labelClusterPeersSearchable" "? searchable";
    setText "labelClusterPeersNotSearchable" "? not searchable";
    setText "labelClusterIndexesSearchable" "? searchable";
    setText "labelClusterIndexesNotSearchable" "? not searchable";
    setText "labelClusterPeersUp" "?/? Peers Up";
    setText "labelClusterSearchHeadsUp" "?/? Search Heads Up";
    setChecked "checkClusterMaintenanceMode" false;
    setChecked "checkClusterRollingRestartFlag" false;
    setChecked "checkClusterInitializedFlag" false;
    setChecked "checkClusterServiceReadyFlag" false;
    setChecked "checkClusterIndexingReadyFlag" false;
    setRowCount "tableClusterPeers" 0;
    setRowCount "tableClusterIndexes" 0;
    setRowCount "tableClusterSearchHeads" 0;
    setChecked "checkSHClusterInitializedFlag" false;
    setChecked "checkSHClusterServiceReadyFlag" false;
    setChecked "checkSHClusterMinimumPeersJoinedFlag" false;
    setChecked "checkSHClusterDynamicCaptain" false;
    setChecked "checkSHClusterRollingRestartFlag" false;
    setText "labelSHClusterCaptain" "(none)";
    setText "labelSHClusterCaptainElected" "(none)";
    setRowCount "tableSHClusterMembers" 0;
    setValue "progressResourceUsageCPU" 0;
    setValue "progressResourceUsageMemory" 0;
    setText "labelResourceUsageMemory" "(none)";
    setText "labelResourceUsageSwapHeader" "Swap:";
    setValue "progressResourceUsageSwap" 0;
    setText "labelResourceUsageSwap" "(none)";
    setRowCount "tableResourceUsageProcesses" 0;
    setRowCount "tableResourceUsageDisks" 0;
    setText "editRestResult" "" ].

(** [disconnect]: the wrapper object is dropped, whether there was one or
    not, and every widget is put back to its start value. *)
Definition disconnect : M unit :=
  (* try: del self.splunkd / except AttributeError: pass *)
  set_splunkd None ;;
  gui disconnect_reset ;;
  statusbar_msg "Disconnected".

(** [table_builder(table, collection, fields)], the collection given as the
    dict objects its references denote.  An item is put into the cell
    before the field is read from the entry, so a missing field leaves an
    empty cell behind and raises [KeyError]. *)
Fixpoint table_row (table : string) (entry : gmap string string)
    (row column : nat) (fields : list string) : M unit :=
  match fields with
  | [] => ret ()
  | field :: fields' =>
      gui [setItem table row column] ;;
      match entry !! field with
      | None => raise (KeyError field)
      | Some v =>
          gui [setItemText table row column v] ;;
          table_row table entry row (S column) fields'
      end
  end.

Fixpoint table_rows (table : string) (collection : list (gmap string string))
    (row : nat) (fields : list string) : M unit :=
  match collection with
  | [] => ret ()
  | entry :: collection' =>
      table_row table entry row 0 fields ;;
      table_rows table collection' (S row) fields
  end.

Definition table_builder (table : string)
    (collection : list (gmap string string)) (fields : list string) : M unit :=
  gui [setRowCount table 0; setRowCount table (length collection)] ;;
  table_rows table collection 0 fields.

(** [table_builder] on a collection attribute of the wrapper object. *)
Definition table_of_attr (table : string)
    (collection : Splunkd.attrs → list nat) (fields : list string) : M unit :=
  s ← get_splunkd ;
  table_builder table (Splunkd.deref s <$> collection (Splunkd.fields s)) fields.

(** The TCP block of [poll]: every raw monitor gets ['tcptype'] = ['Raw'],
    every cooked one ['Cooked'], by assignment into the dict objects
    themselves; the merged list holds the references, raw ones first. *)
Definition tag_monitors (tcptype : string) (monitors : list nat)
    (s : Splunkd.t) : Splunkd.t :=
  foldl (λ s monitor, Splunkd.setitem monitor "tcptype" tcptype s) s monitors.

Definition merge_tcpmonitors (s : Splunkd.t) : Splunkd.t * list nat :=
  let s1 := tag_monitors "Raw" (Splunkd.rawtcp_status (Splunkd.fields s)) s in
  let s2 :=
    tag_monitors "Cooked" (Splunkd.cookedtcp_status (Splunkd.fields s1)) s1 in
  (s2, Splunkd.rawtcp_status (Splunkd.fields s)
       ++ Splunkd.cookedtcp_status (Splunkd.fields s1)).

(** The counts of the Indexer Cluster tab. *)
Definition peers_unsearchable (a : Splunkd.attrs) : Z :=
  Z.of_nat (length (Splunkd.cluster_peers a)) - Splunkd.cluster_peers_searchable a.

Definition indexes_unsearchable (a : Splunkd.attrs) : Z :=
  Z.of_nat (length (Splunkd.cluster_indexes a))
  - Splunkd.cluster_indexes_searchable a.

Definition cluster_labels (a : Splunkd.attrs) : list UiOp :=
  [ setText "labelClusterPeersSearchable"
      (pretty (Splunkd.cluster_peers_searchable a) +:+ " searchable");
    setText "labelClusterPeersNotSearchable"
      (pretty (peers_unsearchable a) +:+ " not searchable");
    setText "labelClusterIndexesSearchable"
      (pretty (Splunkd.cluster_indexes_searchable a) +:+ " searchable");
    setText "labelClusterIndexesNotSearchable"
      (pretty (indexes_unsearchable a) +:+ " not searchable");
    setText "labelClusterPeersUp"
      (pretty (Splunkd.cluster_peers_up a) +:+ "/"
       +:+ pretty (length (Splunkd.cluster_peers a)) +:+ " Peers Up");
    setText "labelClusterSearchHeadsUp"
      (pretty (Splunkd.cluster_searchheads_connected a) +:+ "/"
       +:+ pretty (length (Splunkd.cluster_searchheads a))
       +:+ " Search Heads Up") ].

(** [x in self.splunkd.roles]. *)
Definition has_role (role : string) (a : Splunkd.attrs) : bool :=
  bool_decide (role ∈ Splunkd.roles a).

(** The icon of the role label: the first role of the chain that the
    instance has. *)
Definition role_pixmap (a : Splunkd.attrs) : string :=
  if has_role "universal_forwarder" a then ":/forwarder.png"
  else if has_role "management_console" a then ":/managementconsole.png"
  else if has_role "indexer" a then ":/indexer.png"
  else if has_role "deployment_server" a then ":/deploymentserver.png"
  else if has_role "heavyweight_forwarder" a then ":/heavyforwarder.png"
  else if has_role "cluster_master" a then ":/masternode.png"
  else if has_role "license_master" a then ":/licenseserver.png"
  else if has_role "search_head" a then ":/searchhead.png"
  else if bool_decide (Splunkd.mode a = "dedicated forwarder")
       then ":/forwarder.png"
  else ":/heavyforwarder.png".

Definition newline : string := String (ascii_of_nat 10) EmptyString.

Definition checkCluster_clicked : M unit :=
  s ← get_splunkd ;
  let a := Splunkd.fields s in
  gui [ setChecked "checkClusterDataSearchable" (Splunkd.cluster_alldatasearchable a);
        setChecked "checkClusterSearchFactorMet" (Splunkd.cluster_searchfactormet a);
        setChecked "checkClusterReplicationFactorMet"
          (Splunkd.cluster_replicationfactormet a);
        setChecked "checkClusterMaintenanceMode" (Splunkd.cluster_maintenance a);
        setChecked "checkClusterRollingRestartFlag" (Splunkd.cluster_rollingrestart a);
        setChecked "checkClusterInitializedFlag" (Splunkd.cluster_initialized a);
        setChecked "checkClusterServiceReadyFlag" (Splunkd.cluster_serviceready a);
        setChecked "checkClusterIndexingReadyFlag" (Splunkd.cluster_indexingready a) ].

Definition checkSHCluster_clicked : M unit :=
  s ← get_splunkd ;
  let a := Splunkd.fields s in
  gui [ setChecked "checkSHClusterInitializedFlag" (Splunkd.shcluster_initialized a);
        setChecked "checkSHClusterServiceReadyFlag" (Splunkd.shcluster_serviceready a);
        setChecked "checkSHClusterMinimumPeersJoinedFlag"
          (Splunkd.shcluster_minpeersjoined a);
        setChecked "checkSHClusterDynamicCaptain" (Splunkd.shcluster_dynamiccaptain a);
        setChecked "checkSHClusterRollingRestartFlag"
          (Splunkd.shcluster_rollingrestart a) ].

Section Handlers.

Context (R : Remote).

(** [self.splunkd.service.settings], the probe that opens most handlers. *)
Definition service_settings : M unit :=
  s ← get_splunkd ;
  t ← send ReqSettings ;
  of_option (answer_settings R t s) ().

(** [self.splunkd.service.restart_required], itself a request. *)
Definition service_restart_required : M bool :=
  s ← get_splunkd ;
  t ← send ReqRestartRequired ;
  of_sum (answer_restart_required R t s).

(** [self.splunkd.service.restart()]. *)
Definition service_restart : M unit :=
  s ← get_splunkd ;
  t ← send ReqRestart ;
  of_option (answer_restart R t s) ().

(** [self.splunkd.rest_call(...)]. *)
Definition rest_call (r : RestRequest) : M RestResult :=
  s ← get_splunkd ;
  t ← send (ReqRest r) ;
  of_sum (answer_rest R t r s).

(** One sub-poll of the wrapper: it updates the wrapper object in place. *)
Definition sub_poll (step : PollStep) : M unit :=
  s ← get_splunkd ;
  t ← send (ReqPoll step) ;
  set_splunkd (Some (answer_poll R t step s).1) ;;
  of_option (answer_poll R t step s).2 ().

(** The check that opens every handler but [poll]: only an
    [AuthenticationError] of the probe is caught. *)
Definition connection_checked (k : M unit) : M unit :=
  try_or_return service_settings
    (λ e, match e with
          | AuthenticationError =>
              Some (disconnect ;; critical_msg "Splunk connection reset")
          | _ => None
          end)
    (λ _, k).

Definition comboConfig_activated : M unit :=
  connection_checked (
    filename ← widget_text "comboConfig" ;
    statusbar_msg ("Polling configuration values for '" +:+ filename +:+ "'...") ;;
    s ← get_splunkd ;
    t ← send (ReqKvpairs filename) ;
    data ← of_sum (answer_kvpairs R t filename s) ;
    gui [setText "editConfig" data] ;;
    statusbar_msg ("Poll for '" +:+ filename +:+ "' configuration values complete")).

(** The part of [poll] after the sub-polls.  Left out: the up-time label
    (it reads the clock), the two memory texts (formatted floats) and the
    time in the last status message. *)
Definition populate_gui : M unit :=
  statusbar_msg "Populating GUI..." ;;
  s ← get_splunkd ;
  let a := Splunkd.fields s in
  gui [ setToolTip "labelRole"
          (PyStr.join (ascii_of_nat 10) ("Server Roles:" :: Splunkd.roles a));
        setPixmap "labelRole" (role_pixmap a);
        setText "labelHost" (Splunkd.host a);
        setText "labelType" (Splunkd.type a);
        setText "labelGUID" (Splunkd.guid a);
        setText "labelOS" (Splunkd.os a);
        setToolTip "labelOS" (Splunkd.os a);
        setText "labelSystem"
          ((if 0 <? Splunkd.cores a then pretty (Splunkd.cores a) else "?")
           +:+ " core" +:+ (if Splunkd.cores a =? 1 then "" else "s") +:+ ", "
           +:+ (if 0 <? Splunkd.ram a then pretty (Splunkd.ram a) else "?")
           +:+ " MB RAM") ] ;;
  restart_required ← service_restart_required ;
  gui [ setText "labelRestartRequired" (if restart_required then "Yes" else "No");
        setEnabled "buttonRefreshConfigurations"
          (PyStr.find_sub "Enterprise" (Splunkd.type a));
        setText "labelDeploymentServer" (Splunkd.deployment_server a);
        setToolTip "labelDeploymentServer" (Splunkd.deployment_server a) ] ;;
  gui (if bool_decide (Splunkd.cluster_mode a = "master") then
         [ setText "labelClusterMasterHeader" "Cluster Master:";
           setText "labelClusterMaster" "(self)" ]
       else if bool_decide (Splunkd.cluster_mode a = "slave") then
         [ setText "labelClusterMasterHeader" "Peer of Cluster Master:";
           setText "labelClusterMaster" (Splunkd.cluster_master_uri a);
           setToolTip "labelClusterMaster" (Splunkd.cluster_master_uri a) ]
       else if bool_decide (Splunkd.cluster_mode a = "searchhead") then
         [ setText "labelClusterMasterHeader" "Search Head of Cluster Master(s):";
           setText "labelClusterMaster" (Splunkd.cluster_master_uri a);
           setToolTip "labelClusterMaster" (Splunkd.cluster_master_uri a) ]
       else
         [ setText "labelClusterMasterHeader" "Cluster Master:";
           setText "labelClusterMaster" "(none)" ]) ;;
  gui (if bool_decide (Splunkd.shcluster_deployer a = "") then
         [ setText "labelSHCDeployer" "(none)" ]
       else
         [ setText "labelSHCDeployer" (Splunkd.shcluster_deployer a);
           setToolTip "labelSHCDeployer" (Splunkd.shcluster_deployer a) ]) ;;
  table_of_attr "tableMessages" Splunkd.messages
    ["time_created"; "severity"; "title"; "description"] ;;
  gui [ clear "comboConfig";
        addItems "comboConfig" (Splunkd.configuration_files a);
        setText "editConfig" "" ] ;;
  comboConfig_activated ;;
  table_of_attr "tableFileStatus" Splunkd.fileinput_status
    ["location"; "type"; "percent"; "position"; "size"; "parent"] ;;
  s ← get_splunkd ;
  set_splunkd (Some (merge_tcpmonitors s).1) ;;
  table_builder "tableTCP"
    (Splunkd.deref (merge_tcpmonitors s).1 <$> (merge_tcpmonitors s).2)
    ["tcptype"; "port"; "source"; "opened"] ;;
  table_of_attr "tableUDP" Splunkd.udphosts_status ["source"] ;;
  table_of_attr "tableModular" Splunkd.modularinput_status
    ["location"; "exit_desc"; "opened"; "closed"; "bytes"] ;;
  table_of_attr "tableExec" Splunkd.execinput_status
    ["location"; "exit_desc"; "opened"; "closed"; "bytes"] ;;
  table_of_attr "tableApps" Splunkd.apps
    ["disabled"; "title"; "version"; "label"; "description"] ;;
  checkCluster_clicked ;;
  s ← get_splunkd ;
  let a := Splunkd.fields s in
  (if has_role "cluster_master" a then
     gui (cluster_labels a) ;;
     table_of_attr "tableClusterPeers" Splunkd.cluster_peers
       ["name"; "site"; "is_searchable"; "status"; "buckets"; "location";
        "last_heartbeat"; "replication_port"; "base_gen_id"; "guid"] ;;
     table_of_attr "tableClusterIndexes" Splunkd.cluster_indexes
       ["name"; "is_searchable"; "searchable_data_copies";
        "replicated_data_copies"; "buckets"; "cumulative_data_size"] ;;
     table_of_attr "tableClusterSearchHeads" Splunkd.cluster_searchheads
       ["name"; "site"; "status"; "location"; "guid"]
   else ret ()) ;;
  checkSHCluster_clicked ;;
  (if has_role "shc_member" a then
     gui [ setText "labelSHClusterCaptain" (Splunkd.shcluster_captainlabel a);
           setText "labelSHClusterCaptainElected"
             (Splunkd.shcluster_electedcaptain a) ] ;;
     table_of_attr "tableSHClusterMembers" Splunkd.shcluster_members
       ["label"; "site"; "status"; "artifacts"; "host_port_pair";
        "last_heartbeat"; "replication_port"; "restart_required"; "guid"]
   else ret ()) ;;
  gui ((if Splunkd.cpu_usage a =? 0 then []
        else [setValue "progressResourceUsageCPU" (Splunkd.cpu_usage a)])
       ++ (if Splunkd.mem_usage a =? 0 then []
           else [setValue "progressResourceUsageMemory" (Splunkd.mem_usage a)])
       ++ (if Splunkd.swap_usage a =? 0 then []
           else [ setText "labelResourceUsageSwapHeader"
                    (if PyStr.find_sub "Windows" (Splunkd.os a)
                     then "Commit:" else "Swap:");
                  setValue "progressResourceUsageSwap" (Splunkd.swap_usage a) ])) ;;
  (match Splunkd.splunk_processes a with
   | [] => ret ()
   | _ => table_of_attr "tableResourceUsageProcesses" Splunkd.splunk_processes
            ["name"; "pid"; "parent_pid"; "cpu"; "mem"; "args"]
   end) ;;
  (match Splunkd.disk_partitions a with
   | [] => ret ()
   | _ => table_of_attr "tableResourceUsageDisks" Splunkd.disk_partitions
            ["name"; "type"; "used"; "total"]
   end) ;;
  statusbar_msg "Last poll completed".

(** The second [try] block of [poll]: a status message, then the sub-poll,
    nine times. *)
Definition poll_sequence : list (string * PollStep) :=
  [ ("Polling service info...", poll_service_info);
    ("Polling settings...", poll_service_settings);
    ("Polling messages...", poll_service_messages);
    ("Polling configurations...", get_service_confs);
    ("Polling input status...", get_services_admin_inputstatus);
    ("Polling apps...", poll_service_apps);
    ("Polling cluster master info...", get_services_cluster_master);
    ("Polling search head cluster info...", get_services_shcluster);
    ("Polling introspection...", get_services_server_status) ].

Fixpoint sub_polls (steps : list (string * PollStep)) : M unit :=
  match steps with
  | [] => ret ()
  | (msg, step) :: steps' =>
      statusbar_msg msg ;; sub_poll step ;; sub_polls steps'
  end.

Definition socket_error_clause (e : Exc) : option (M unit) :=
  match as_socket_error e with
  | Some msg =>
      Some (disconnect ;;
            critical_msg ("Socket error while attempting to poll splunkd:"
                          +:+ newline +:+ msg))
  | None => None
  end.

(** [poll]. *)
Definition poll : M unit :=
  try_or_return service_settings
    (λ e, match e with
          | AuthenticationError =>
              Some (disconnect ;; critical_msg "Splunk connection reset")
          | _ =>
              match socket_error_clause e with
              | Some clause => Some clause
              | None =>
                  Some (disconnect ;;
                        critical_msg "Unknown error while attempting to poll splunkd")
              end
          end)
    (λ _,
       try_or_return (sub_polls poll_sequence)
         socket_error_clause
         (λ _, populate_gui)).

(** The address of [connect]: [':' in splunk_host] is asked of the trimmed
    text, the split is done on the text as typed.  [inl] is the exception
    of the unpacking or of [int]. *)
Definition host_and_port (address : string) : Exc + (string * Z) :=
  let splunk_host := PyStr.strip address in
  if PyStr.contains ":" splunk_host then
    match PyStr.split ":" address with
    | [splunk_host; splunk_port] =>
        match PyStr.int splunk_port with
        | Some port => inr (splunk_host, port)
        | None => inl ValueError
        end
    | _ => inl ValueError
    end
  else inr (splunk_host, 8089).

(** [Splunkd(host, port, user, pass)]. *)
Definition login (splunk_host : string) (splunk_port : Z)
    (splunk_user splunk_pass : string) : M Splunkd.t :=
  t ← send (ReqLogin splunk_host splunk_port splunk_user splunk_pass) ;
  of_sum (answer_login R t splunk_host splunk_port splunk_user splunk_pass).

(** The part of [connect] from "Create Splunk instance" on. *)
Definition connect_to (splunk_host : string) (splunk_port : Z)
    (splunk_user splunk_pass : string) : M unit :=
  let host := "'" +:+ splunk_host +:+ ":" +:+ pretty splunk_port +:+ "'" in
  statusbar_msg ("Connecting to host " +:+ host +:+ "...") ;;
  (* try / except / finally: the [finally] message follows the clause that
     caught the exception, precedes an exception that no clause catches,
     and follows the assignment when there is none *)
  try_or_return (login splunk_host splunk_port splunk_user splunk_pass)
    (λ e, match e with
          | AuthenticationError =>
              Some (warning_msg ("Authentication error connecting to host " +:+ host) ;;
                    statusbar_msg "Connection failed")
          | socket_gaierror _ =>
              Some (warning_msg ("Unable to connect to host " +:+ host) ;;
                    statusbar_msg "Connection failed")
          | socket_error error =>
              Some (warning_msg ("Unable to connect to host " +:+ host +:+ ":"
                                 +:+ newline +:+ error) ;;
                    statusbar_msg "Connection failed")
          | _ => Some (statusbar_msg "Connection failed" ;; raise e)
          end)
    (λ s,
       set_splunkd (Some s) ;;
       statusbar_msg "Connection failed" ;;
       statusbar_msg "Connected" ;;
       gui [ setEnabled "comboAddress" false;
             setEnabled "editUsername" false;
             setEnabled "editPassword" false;
             setEnabled "tabWidgetMain" true;
             setEnabled "buttonPoll" true;
             setText "buttonToggle" "Disconnect" ] ;;
       poll ;;
       s ← get_splunkd ;
       gui [ setWindowTitle
               (Splunkd.server_name (Splunkd.fields s) +:+ " - Misner Splunk Tool");
             setEnabled "tabCluster" (has_role "cluster_master" (Splunkd.fields s));
             setEnabled "tabSHCluster" (has_role "shc_member" (Splunkd.fields s)) ]).

(** [connect]. *)
Definition connect : M unit :=
  address ← widget_text "comboAddress" ;
  username ← widget_text "editUsername" ;
  password ← widget_text "editPassword" ;
  let splunk_user := PyStr.strip username in
  let splunk_pass := PyStr.strip password in
  if bool_decide (PyStr.strip address = "") then
    warning_msg "Missing Splunk address"
  else if bool_decide (splunk_user = "") then
    warning_msg "Missing Splunk username"
  else if bool_decide (splunk_pass = "") then
    warning_msg "Missing Splunk password"
  else
    match host_and_port address with
    | inl e => raise e
    | inr (splunk_host, splunk_port) =>
        if negb ((0 <? splunk_port) && (splunk_port <? 65536)) then
          warning_msg "Invalid port specified"
        else connect_to splunk_host splunk_port splunk_user splunk_pass
    end.

(** [actionRestartSplunkd_clicked]; [answer] is the user's click on the
    question. *)
Definition actionRestartSplunkd_clicked (answer : bool) : M unit :=
  connection_checked (
    try_or_return
      (s ← get_splunkd ;
       yes ← question_msg_yesno
               ("Are you sure you want to restart splunkd on '"
                +:+ Splunkd.host (Splunkd.fields s) +:+ "'?") answer ;
       if yes then service_restart ;; disconnect else ret ())
      (λ _, Some (critical_msg "Error while attempting to restart splunkd"))
      ret).

(** [actionChangeDeploymentServer_clicked]; [new_deployment_server] and
    [dialog_not_cancelled] are what the input dialog returns, [answer] the
    user's click on the question that follows. *)
Definition actionChangeDeploymentServer_clicked
    (new_deployment_server : string) (dialog_not_cancelled answer : bool)
    : M unit :=
  connection_checked (
    show_dialog Input "Enter new Deployment Server URI (i.e. 1.2.3.4:8089)" ;;
    if dialog_not_cancelled then
      s ← get_splunkd ;
      let host := Splunkd.host (Splunkd.fields s) in
      let '(disabled, targeturi, message) :=
        if bool_decide (new_deployment_server = "") then
          ("1", "",
           "Perform the following actions?" +:+ newline +:+ newline
           +:+ "- Disable deployment client." +:+ newline
           +:+ "- Set deployment server URI to blank." +:+ newline
           +:+ "- Restart splunkd on '" +:+ host +:+ "'")
        else
          ("0", new_deployment_server,
           "Perform the following actions?" +:+ newline +:+ newline
           +:+ "- Enable deployment client." +:+ newline
           +:+ "- Set deployment server URI to '" +:+ new_deployment_server
           +:+ "'." +:+ newline
           +:+ "- Restart splunkd on '" +:+ host +:+ "'") in
      yes ← question_msg_yesno message answer ;
      if yes then
        try_or_return
          (result ← rest_call
             {| rest_uri :=
                  "/services/properties/deploymentclient/target-broker:deploymentServer";
                rest_method := "POST";
                rest_output_format := None;
                rest_body_input :=
                  "disabled=" +:+ disabled +:+ "&targetUri=" +:+ targeturi;
                rest_parameters := ∅ |} ;
           match result with
           | PlainText _ => raise TypeError
           | Structured None => raise (KeyError "msg")
           | Structured (Some (result_type, result_msg)) =>
               if negb (bool_decide (result_type = "INFO")) then
                 critical_msg
                   ("Error while attempting to modify deployment server URI:"
                    +:+ newline +:+ result_msg)
               else if PyStr.find_sub "modified 0 key" result_msg then
                 critical_msg
                   ("Splunkd reports no changes made to deployment server URI:"
                    +:+ newline +:+ result_msg)
               else
                 service_restart ;;
                 disconnect ;;
                 statusbar_msg
                   "Disconnected while splunkd is restarting, try reconnecting in a few moments"
           end)
          (λ _, Some (critical_msg "Error while attempting to restart splunkd"))
          ret
      else poll
    else ret ()).

(** The parsing block of [buttonRestSend_clicked]: the text before the
    ['?'] and the parameters after it, later assignments to a key replacing
    earlier ones.  [inl ValueError] is a failed unpacking. *)
Fixpoint parse_parameters (pairs : list string) (parameters : gmap string string)
    : Exc + gmap string string :=
  match pairs with
  | [] => inr parameters
  | parameter :: pairs' =>
      match PyStr.split "=" parameter with
      | [key; value] => parse_parameters pairs' (<[key := value]> parameters)
      | _ => inl ValueError
      end
  end.

Definition parse_uri (uri : string) : Exc + (string * gmap string string) :=
  if PyStr.contains "?" uri then
    match PyStr.split "?" uri with
    | [uri; parameter_string] =>
        match parse_parameters (PyStr.split "&" parameter_string) ∅ with
        | inr parameters => inr (uri, parameters)
        | inl e => inl e
        end
    | _ => inl ValueError
    end
  else inr (uri, ∅).

(** [buttonRestSend_clicked].  The call is
    [rest_call(uri, method, output_format='plaintext', body_input=..., **parameters)];
    whatever it raises, also while binding the arguments, ends the handler
    silently. *)
Definition buttonRestSend_clicked : M unit :=
  connection_checked (
    method ← widget_text "comboRestMethod" ;
    combobox_text ← widget_text "comboRestURI" ;
    body_input ← widget_text "editRestBodyInput" ;
    try_or_return (of_sum (parse_uri combobox_text))
      (λ e, match e with
            | ValueError =>
                Some (warning_msg
                        "Unable to parse parameters in URI, check formatting")
            | _ => None
            end)
      (λ '(uri, parameters),
         try_or_return
           (result ← rest_call
              {| rest_uri := uri;
                 rest_method := method;
                 rest_output_format := Some "plaintext";
                 rest_body_input := body_input;
                 rest_parameters := parameters |} ;
            match result with
            | PlainText body => gui [setText "editRestResult" body]
            | Structured _ => raise TypeError
            end)
           (λ _, Some (ret ()))
           (λ _,
              history ← widget_items "comboRestURI" ;
              if bool_decide (combobox_text ∈ history) then ret ()
              else gui [addItems "comboRestURI" [combobox_text]]))).

(** [buttonToggle_clicked]. *)
Definition buttonToggle_clicked : M unit :=
  try_or_return get_splunkd
    (λ e, match e with
          | AttributeError => Some connect
          | _ => None
          end)
    (λ _, disconnect).

End Handlers.

(** ** Concrete instances, used to run the handlers *)

Module Sample.

Definition blank_ui : Ui :=
  {| windowTitle := ""; enabled := ∅; text := ∅; toolTip := ∅; pixmap := ∅;
     checked := ∅; value := ∅; tables := ∅; items := ∅ |}.

(** The attributes of an instance with the given roles, TCP monitors and
    indexer-cluster facts; everything else is empty, zero or false. *)
Definition attrs_of (roles : list string) (rawtcp cookedtcp : list nat)
    (peers : list nat) (peers_searchable : Z)
    (indexes : list nat) (indexes_searchable : Z) : Splunkd.attrs :=
  {| Splunkd.host := "idx1.example.com";
     Splunkd.server_name := "idx1";
     Splunkd.roles := roles;
     Splunkd.mode := "normal";
     Splunkd.type := "Splunk Enterprise";
     Splunkd.guid := "0A1B";
     Splunkd.os := "Linux";
     Splunkd.cores := 4;
     Splunkd.ram := 8192;
     Splunkd.deployment_server := "";
     Splunkd.cluster_mode := "disabled";
     Splunkd.cluster_master_uri := "";
     Splunkd.shcluster_deployer := "";
     Splunkd.messages := [];
     Splunkd.configuration_files := [];
     Splunkd.fileinput_status := [];
     Splunkd.rawtcp_status := rawtcp;
     Splunkd.cookedtcp_status := cookedtcp;
     Splunkd.udphosts_status := [];
     Splunkd.modularinput_status := [];
     Splunkd.execinput_status := [];
     Splunkd.apps := [];
     Splunkd.cluster_alldatasearchable := false;
     Splunkd.cluster_searchfactormet := false;
     Splunkd.cluster_replicationfactormet := false;
     Splunkd.cluster_maintenance := false;
     Splunkd.cluster_rollingrestart := false;
     Splunkd.cluster_initialized := false;
     Splunkd.cluster_serviceready := false;
     Splunkd.cluster_indexingready := false;
     Splunkd.cluster_peers := peers;
     Splunkd.cluster_peers_searchable := peers_searchable;
     Splunkd.cluster_peers_up := 0;
     Splunkd.cluster_indexes := indexes;
     Splunkd.cluster_indexes_searchable := indexes_searchable;
     Splunkd.cluster_searchheads := [];
     Splunkd.cluster_searchheads_connected := 0;
     Splunkd.shcluster_initialized := false;
     Splunkd.shcluster_serviceready := false;
     Splunkd.shcluster_minpeersjoined := false;
     Splunkd.shcluster_dynamiccaptain := false;
     Splunkd.shcluster_rollingrestart := false;
     Splunkd.shcluster_captainlabel := "";
     Splunkd.shcluster_electedcaptain := "";
     Splunkd.shcluster_members := [];
     Splunkd.cpu_usage := 0;
     Splunkd.mem_usage := 0;
     Splunkd.swap_usage := 0;
     Splunkd.splunk_processes := [];
     Splunkd.disk_partitions := [] |}.

(** An indexer without cluster role and without inputs. *)
Definition indexer : Splunkd.t :=
  {| Splunkd.fields := attrs_of ["indexer"] [] [] [] 0 [] 0;
     Splunkd.heap := ∅ |}.

(** A cluster master with three peers, two of them searchable, and two
    indexes, one of them searchable. *)
Definition master : Splunkd.t :=
  {| Splunkd.fields := attrs_of ["cluster_master"] [] [] [0; 1; 2]%nat 2 [3; 4]%nat 1;
     Splunkd.heap := ∅ |}.

(** An instance with one raw and one cooked TCP monitor, two dict
    objects. *)
Definition raw_monitor : gmap string string :=
  {[ "port" := "514"; "source" := "10.0.0.7"; "opened" := "Mon" ]}.

Definition cooked_monitor : gmap string string :=
  {[ "port" := "9997"; "source" := "10.0.0.8"; "opened" := "Tue" ]}.

Definition listener : Splunkd.t :=
  {| Splunkd.fields := attrs_of ["indexer"] [7%nat] [8%nat] [] 0 [] 0;
     Splunkd.heap := {[ 7%nat := raw_monitor; 8%nat := cooked_monitor ]} |}.

(** A window connected to [s], nothing shown or sent yet, with the given
    texts in its widgets. *)
Definition connected (s : Splunkd.t) (texts : gmap string string) : Window :=
  {| splunkd := Some s;
     ui := with_text (λ _, texts) blank_ui;
     dialogs := [];
     net := [] |}.

(** A window that was never connected. *)
Definition fresh (texts : gmap string string) : Window :=
  {| splunkd := None;
     ui := with_text (λ _, texts) blank_ui;
     dialogs := [];
     net := [] |}.

(** A splunkd that answers every request without error and whose sub-polls
    leave the wrapper object as it is. *)
Definition healthy : Remote :=
  {| answer_login := λ _ _ _ _ _, inr indexer;
     answer_settings := λ _ _, None;
     answer_poll := λ _ _ s, (s, None);
     answer_restart_required := λ _ _, inr false;
     answer_kvpairs := λ _ _ _, inr "";
     answer_rest := λ _ _ _, inr (PlainText "ok");
     answer_restart := λ _ _, None |}.

Definition PollStep_eqb (a b : PollStep) : bool :=
  match a, b with
  | poll_service_info, poll_service_info
  | poll_service_settings, poll_service_settings
  | poll_service_messages, poll_service_messages
  | get_service_confs, get_service_confs
  | get_services_admin_inputstatus, get_services_admin_inputstatus
  | poll_service_apps, poll_service_apps
  | get_services_cluster_master, get_services_cluster_master
  | get_services_shcluster, get_services_shcluster
  | get_services_server_status, get_services_server_status => true
  | _, _ => false
  end.

(** As [healthy], but the sub-poll [step] raises [e]. *)
Definition failing_at (step : PollStep) (e : Exc) : Remote :=
  {| answer_login := answer_login healthy;
     answer_settings := answer_settings healthy;
     answer_poll := λ _ st s, (s, if PollStep_eqb st step then Some e else None);
     answer_restart_required := answer_restart_required healthy;
     answer_kvpairs := answer_kvpairs healthy;
     answer_rest := answer_rest healthy;
     answer_restart := answer_restart healthy |}.

(** As [healthy], but the deployment-client change is answered with an
    informational message and the restart that follows raises. *)
Definition restart_refused : Remote :=
  {| answer_login := answer_login healthy;
     answer_settings := answer_settings healthy;
     answer_poll := answer_poll healthy;
     answer_restart_required := answer_restart_required healthy;
     answer_kvpairs := answer_kvpairs healthy;
     answer_rest := λ _ _ _, inr (Structured (Some ("INFO", "modified 2 keys")));
     answer_restart := λ _ _, Some (socket_error "Connection refused") |}.

(** As [healthy], with a given answer to the deployment-client change. *)
Definition answering (result : RestResult) : Remote :=
  {| answer_login := answer_login healthy;
     answer_settings := answer_settings healthy;
     answer_poll := answer_poll healthy;
     answer_restart_required := answer_restart_required healthy;
     answer_kvpairs := answer_kvpairs healthy;
     answer_rest := λ _ _ _, inr result;
     answer_restart := answer_restart healthy |}.

End Sample.

(** ** Vocabulary of the statements *)

(** The widget operations that put one property to a fixed value. *)
Definition constant_op (op : UiOp) : bool :=
  match op with
  | setWindowTitle _ | setEnabled _ _ | setText _ _ | setToolTip _ _
  | setPixmap _ _ | setChecked _ _ | setValue _ _ | setRowCount _ O => true
  | _ => false
  end.

(** The window with one more message box shown, and with more requests
    sent. *)
Definition and_dialog (w : Window) (kind : Dialog) (msg : string) : Window :=
  {| splunkd := splunkd w; ui := ui w;
     dialogs := dialogs w ++ [(kind, msg)]; net := net w |}.

Definition and_requests (w : Window) (requests : list Request) : Window :=
  {| splunkd := splunkd w; ui := ui w;
     dialogs := dialogs w; net := net w ++ requests |}.

(** The address is [host:port] with one [':'] and the port text reads as
    the number [n]. *)
Definition explicit_port (address : string) (n : Z) : Prop :=
  ∃ host port : string,
    address = host +:+ ":" +:+ port
    ∧ PyStr.count ":" host = O ∧ PyStr.count ":" port = O
    ∧ PyStr.int port = Some n.





(** A handler that leaves the requests sent so far in place and at most
    sends more. *)
Definition sends_only {A} (m : M A) : Prop :=
  ∀ w, ∃ requests, net (m w).1 = net w ++ requests.

(** The call by which [actionChangeDeploymentServer_clicked] disables the
    deployment client: a POST with [disabled=1] and an empty target. *)
Definition disable_request : RestRequest :=
  {| rest_uri :=
       "/services/properties/deploymentclient/target-broker:deploymentServer";
     rest_method := "POST";
     rest_output_format := None;
     rest_body_input := "disabled=1&targetUri=";
     rest_parameters := ∅ |}.

(** The window at the moment that call is sent: the probe was sent, the
    input dialog and the question were shown. *)
Definition asked_to_disable (w : Window) (s : Splunkd.t) : Window :=
  and_dialog
    (and_dialog (and_requests w [ReqSettings]) Input
       "Enter new Deployment Server URI (i.e. 1.2.3.4:8089)")
    Question
    ("Perform the following actions?" +:+ newline +:+ newline
     +:+ "- Disable deployment client." +:+ newline
     +:+ "- Set deployment server URI to blank." +:+ newline
     +:+ "- Restart splunkd on '" +:+ Splunkd.host (Splunkd.fields s) +:+ "'").

(** ** The rest of the file: [pretty_time_delta] *)

(** [divmod] three times: days, hours, minutes and seconds of a
    non-negative number of seconds. *)
Definition time_parts (seconds : Z) : Z * Z * Z * Z :=
  let days := seconds / 86400 in
  let seconds := seconds mod 86400 in
  let hours := seconds / 3600 in
  let seconds := seconds mod 3600 in
  let minutes := seconds / 60 in
  let seconds := seconds mod 60 in
  (days, hours, minutes, seconds).

(** [' %d unit%s' % (n, 's' if n > 1 else '')], appended when [n > 0]. *)
Definition unit_text (n : Z) (unit : string) : string :=
  if 0 <? n then
    " " +:+ pretty n +:+ " " +:+ unit +:+ (if 1 <? n then "s" else "")
  else "".

(** [pretty_time_delta(seconds)] on an integer.  The text is made of
    digits, letters, blanks and the sign, on which [strip] of a byte string
    and [PyStr.strip] agree. *)
Definition pretty_time_delta (seconds : Z) : string :=
  let output := if seconds <? 0 then "-" else "" in
  let '(days, hours, minutes, seconds) := time_parts (Z.abs seconds) in
  PyStr.strip (output +:+ unit_text days "day" +:+ unit_text hours "hr"
               +:+ unit_text minutes "min" +:+ unit_text seconds "sec").

(** ** The rest of the file: the configuration file

    [config] is a [ConfigParser] filled from [misnersplunktool.conf] before
    the window is made.  Its sections are listed in file order;
    [config_options] holds, for every option of every section, what
    [config.get] answers
    for it, as the widget that is given it takes it (the value, or the
    exception of the interpolation or of the widget);
    [config_getint] is what [config.getint] answers. *)
Record Config := {
  config_sections : list string;
  config_options : gmap (string * string) (Exc + string);
  config_getint : string → string → Exc + Z
}.

Definition has_section (c : Config) (section : string) : bool :=
  bool_decide (section ∈ config_sections c).

Definition has_option (c : Config) (section option : string) : bool :=
  has_section c section
  && bool_decide (is_Some (config_options c !! (section, option))).

Definition config_get (c : Config) (section option : string) : Exc + string :=
  if has_section c section then
    match config_options c !! (section, option) with
    | Some answer => answer
    | None => inl (OtherException "NoOptionError")
    end
  else inl (OtherException "NoSectionError").

(** [s[0:n]] and [s[n:]]. *)
Fixpoint take_chars (n : nat) (s : string) : string :=
  match n, s with
  | S n', String c s' => String c (take_chars n' s')
  | _, _ => EmptyString
  end.

Fixpoint drop_chars (n : nat) (s : string) : string :=
  match n, s with
  | S n', String _ s' => drop_chars n' s'
  | _, _ => s
  end.

(** The first loop of [pull_configs]: the sections named [splunkd::...]
    become entries of the address box, without the prefix. *)
Fixpoint load_addresses (sections : list string) : M unit :=
  match sections with
  | [] => ret ()
  | section :: sections' =>
      (if bool_decide (take_chars 9 section = "splunkd::")
       then gui [addItems "comboAddress" [drop_chars 9 section]]
       else ret ()) ;;
      load_addresses sections'
  end.

(** The [while] loop of [pull_configs] over [endpoint.0], [endpoint.1],
    ...  The options of a configuration are finitely many, so the loop
    ends; [fuel] bounds the number of rounds, and a bound above the number
    of options is never reached. *)
Fixpoint load_endpoints (c : Config) (fuel endpoint_number : nat) : M unit :=
  match fuel with
  | O => ret ()
  | S fuel' =>
      if has_option c "endpoints" ("endpoint." +:+ pretty endpoint_number) then
        uri ← of_sum (config_get c "endpoints"
                        ("endpoint." +:+ pretty endpoint_number)) ;
        gui [addItems "comboRestURI" [uri]] ;;
        load_endpoints c fuel' (S endpoint_number)
      else ret ()
  end.

(** [if config.has_option('main', option): widget.setText(config.get(...))]. *)
Definition load_default (c : Config) (option widget : string) : M unit :=
  if has_option c "main" option then
    v ← of_sum (config_get c "main" option) ;
    gui [setText widget v]
  else ret ().

(** [pull_configs].  The result is the value assigned to
    [self.poll_interval], if one is assigned. *)
Definition pull_configs (c : Config) : M (option Z) :=
  load_addresses (config_sections c) ;;
  (if has_section c "endpoints"
   then load_endpoints c (S (size (config_options c))) 0
   else ret ()) ;;
  load_default c "defaultAddress" "comboAddress" ;;
  load_default c "defaultUsername" "editUsername" ;;
  load_default c "defaultPassword" "editPassword" ;;
  if has_option c "main" "pollInterval" then
    match config_getint c "main" "pollInterval" with
    | inr poll_interval => ret (Some poll_interval)
    | inl _ =>
        warning_msg "Bad poll interval value in configuration, must be an integer" ;;
        ret None
    end
  else ret None.

(** [comboAddress_activated]: the credentials saved for the address
    chosen, when there are any. *)
Definition comboAddress_activated (c : Config) : M unit :=
  address ← widget_text "comboAddress" ;
  let section := "splunkd::" +:+ address in
  (if has_option c section "username" then
     v ← of_sum (config_get c section "username") ;
     gui [setText "editUsername" v]
   else ret ()) ;;
  (if has_option c section "password" then
     v ← of_sum (config_get c section "password") ;
     gui [setText "editPassword" v]
   else ret ()).

(** ** More instances and vocabulary *)

Module Faulty.

(** As [Sample.healthy], with one kind of answer replaced. *)
Definition probe_raises (e : Exc) : Remote :=
  {| answer_login := answer_login Sample.healthy;
     answer_settings := λ _ _, Some e;
     answer_poll := answer_poll Sample.healthy;
     answer_restart_required := answer_restart_required Sample.healthy;
     answer_kvpairs := answer_kvpairs Sample.healthy;
     answer_rest := answer_rest Sample.healthy;
     answer_restart := answer_restart Sample.healthy |}.

Definition login_raises (e : Exc) : Remote :=
  {| answer_login := λ _ _ _ _ _, inl e;
     answer_settings := answer_settings Sample.healthy;
     answer_poll := answer_poll Sample.healthy;
     answer_restart_required := answer_restart_required Sample.healthy;
     answer_kvpairs := answer_kvpairs Sample.healthy;
     answer_rest := answer_rest Sample.healthy;
     answer_restart := answer_restart Sample.healthy |}.

Definition rest_answers (answer : Exc + RestResult) : Remote :=
  {| answer_login := answer_login Sample.healthy;
     answer_settings := answer_settings Sample.healthy;
     answer_poll := answer_poll Sample.healthy;
     answer_restart_required := answer_restart_required Sample.healthy;
     answer_kvpairs := answer_kvpairs Sample.healthy;
     answer_rest := λ _ _ _, answer;
     answer_restart := answer_restart Sample.healthy |}.

Definition kvpairs_answers (answer : Exc + string) : Remote :=
  {| answer_login := answer_login Sample.healthy;
     answer_settings := answer_settings Sample.healthy;
     answer_poll := answer_poll Sample.healthy;
     answer_restart_required := answer_restart_required Sample.healthy;
     answer_kvpairs := λ _ _ _, answer;
     answer_rest := answer_rest Sample.healthy;
     answer_restart := answer_restart Sample.healthy |}.

End Faulty.

(** The call by which [actionChangeDeploymentServer_clicked] points the
    deployment client to [target]: the body is written with [%s], the
    target as typed. *)
Definition enable_request (target : string) : RestRequest :=
  {| rest_uri :=
       "/services/properties/deploymentclient/target-broker:deploymentServer";
     rest_method := "POST";
     rest_output_format := None;
     rest_body_input := "disabled=0&targetUri=" +:+ target;
     rest_parameters := ∅ |}.

(** The window once the probe was sent and the input dialog shown. *)
Definition asked_for_target (w : Window) : Window :=
  and_dialog (and_requests w [ReqSettings]) Input
    "Enter new Deployment Server URI (i.e. 1.2.3.4:8089)".

(** The window once the question about [target] (not blank) was shown
    too. *)
Definition asked_to_enable (w : Window) (s : Splunkd.t) (target : string)
    : Window :=
  and_dialog (asked_for_target w) Question
    ("Perform the following actions?" +:+ newline +:+ newline
     +:+ "- Enable deployment client." +:+ newline
     +:+ "- Set deployment server URI to '" +:+ target +:+ "'." +:+ newline
     +:+ "- Restart splunkd on '" +:+ Splunkd.host (Splunkd.fields s) +:+ "'").

(** A handler that sends nothing. *)
Definition silent {A} (m : M A) : Prop := ∀ w, net (m w).1 = net w.

(** A handler that sends the requests [l] in this order, all of them when
    it returns and the first ones when it raises. *)
Definition completes {A} (m : M A) (l : list Request) : Prop :=
  ∀ w, ∃ k, net (m w).1 = net w ++ take k l
            ∧ ∀ a, (m w).2 = Return a → take k l = l.

(** A handler whose requests are the first ones of a list among [L],
    whether it returns or raises. *)
Definition follows {A} (m : M A) (L : list Request → Prop) : Prop :=
  ∀ w, ∃ l k, L l ∧ net (m w).1 = net w ++ take k l.

(** The requests of one [poll] that runs to its end: the probe, the nine
    sub-polls, the restart flag, then the probe and the request of
    [comboConfig_activated] for the configuration file [f]. *)
Definition poll_trace (f : string) : list Request :=
  ReqSettings :: (ReqPoll <$> (snd <$> poll_sequence))
  ++ [ReqRestartRequired; ReqSettings; ReqKvpairs f].

(** The window with another state of the widgets, and the widgets with
    another state of one table. *)
Definition with_ui (w : Window) (u : Ui) : Window :=
  {| splunkd := splunkd w; ui := u; dialogs := dialogs w; net := net w |}.

Definition put_table (table : string) (t : Table) (u : Ui) : Ui :=
  with_tables (insert table t) u.

(** A table after the cells of one row, from [column] on, are given the
    fields of [entry], and after the rows from [row] on are given the
    entries of a collection. *)
Fixpoint row_cells (entry : gmap string string) (row column : nat)
    (fields : list string) (t : Table) : Table :=
  match fields with
  | [] => t
  | field :: fields' =>
      row_cells entry row (S column) fields'
        (set_cell row column (default "" (entry !! field)) t)
  end.

Fixpoint rows_cells (collection : list (gmap string string)) (row : nat)
    (fields : list string) (t : Table) : Table :=
  match collection with
  | [] => t
  | entry :: collection' =>
      rows_cells collection' (S row) fields (row_cells entry row 0 fields t)
  end.

(** Every entry of the collection has every field. *)
Definition has_fields (fields : list string) (entry : gmap string string)
    : Prop :=
  Forall (λ field, is_Some (entry !! field)) fields.

(** The text that [pretty_time_delta] builds before it trims it, for a
    non-negative number of seconds. *)
Definition delta_units (seconds : Z) : string :=
  let '(days, hours, minutes, seconds) := time_parts seconds in
  unit_text days "day" +:+ unit_text hours "hr"
  +:+ unit_text minutes "min" +:+ unit_text seconds "sec".

(** A text that is one blank, then a character that is not a blank, and
    that does not end in a blank. *)
Definition blank_led (t : string) : Prop :=
  (∃ d r, t = String " " (String d r) ∧ PyStr.isspace d = false)
  ∧ PyStr.rstrip t = t.

(** A configuration of which every option can be read: no [config.get]
    raises. *)
Definition readable (c : Config) : Prop :=
  ∀ key e, config_options c !! key ≠ Some (inl e).

(** The option of the [n]-th REST endpoint. *)
Definition endpoint_key (n : nat) : string * string :=
  ("endpoints", "endpoint." +:+ pretty n).

(** A configuration file with two saved instances and two endpoints. *)
Definition sample_config : Config :=
  {| config_sections := ["main"; "splunkd::idx1:8089"; "endpoints"; "splunkd::sh1"];
     config_options :=
       {[ ("main", "defaultAddress") := inr "idx1:8089";
          ("main", "pollInterval") := inr "60";
          ("splunkd::idx1:8089", "username") := inr "admin";
          ("splunkd::idx1:8089", "password") := inr "changeme";
          ("endpoints", "endpoint.0") := inr "/services/server/info";
          ("endpoints", "endpoint.1") := inr "/services/apps/local";
          ("endpoints", "endpoint.3") := inr "/services/never/listed" ]};
     config_getint := λ _ _, inr 60 |}.

(** A handler that returns normally and changes nothing but the
    widgets. *)
Definition ui_only {A} (m : M A) : Prop :=
  ∀ w, ∃ u a, m w = (with_ui w u, Return a).

(** * Properties *)

(** ** The string operations *)

Section StringFacts.

Implicit Types (c d : ascii) (s : string).

Lemma contains_count c s :
  PyStr.contains c s = bool_decide (0 < PyStr.count c s)%nat.
Proof.
  induction s as [|d s IH]; simpl; [done|].
  by destruct (Ascii.eqb d c).
Qed.

Lemma contains_false_count c s :
  PyStr.contains c s = false ↔ PyStr.count c s = O.
Proof.
  rewrite contains_count. rewrite bool_decide_eq_false. lia.
Qed.

Lemma split_nonempty c s : PyStr.split c s ≠ [].
Proof.
  destruct s as [|d s]; simpl; [done|].
  destruct (Ascii.eqb d c); [done|]. by destruct (PyStr.split c s).
Qed.

(** One more piece than there are separators. *)
Lemma length_split c s : length (PyStr.split c s) = S (PyStr.count c s).
Proof.
  induction s as [|d s IH]; simpl; [done|].
  destruct (Ascii.eqb d c); simpl; [by rewrite IH|].
  destruct (PyStr.split c s) eqn:E; simpl in *; [done|]. done.
Qed.

(** A text without separator is its own single piece. *)
Lemma split_no_sep c s : PyStr.count c s = O → PyStr.split c s = [s].
Proof.
  induction s as [|d s IH]; simpl; [done|].
  destruct (Ascii.eqb d c); [done|]. intros H. by rewrite IH.
Qed.

(** The first separator ends the first piece. *)
Lemma split_app_sep c s s' :
  PyStr.count c s = O →
  PyStr.split c (s +:+ String c s') = s :: PyStr.split c s'.
Proof.
  induction s as [|d s IH]; simpl.
  - intros _. by rewrite Ascii.eqb_refl.
  - destruct (Ascii.eqb d c); [done|]. intros H. by rewrite IH.
Qed.

(** The pieces, joined again, are the text. *)
Lemma join_split c s : PyStr.join c (PyStr.split c s) = s.
Proof.
  induction s as [|d s IH]; simpl; [done|].
  destruct (Ascii.eqb d c) eqn:E.
  - apply Ascii.eqb_eq in E as ->.
    pose proof (split_nonempty c s).
    destruct (PyStr.split c s) eqn:E'; [done|]. simpl in *. by rewrite IH.
  - destruct (PyStr.split c s) as [|p [|q ps]] eqn:E'; simpl in *.
    + by destruct (split_nonempty c s).
    + by rewrite IH.
    + by rewrite <- IH.
Qed.


Lemma count_app c s s' :
  PyStr.count c (s +:+ s') = (PyStr.count c s + PyStr.count c s')%nat.
Proof.
  induction s as [|d s IH]; simpl; [done|].
  destruct (Ascii.eqb d c); simpl; lia.
Qed.

(** Trimming keeps every character that is not a blank. *)
Lemma contains_lstrip c s :
  PyStr.isspace c = false → PyStr.contains c (PyStr.lstrip s) = PyStr.contains c s.
Proof.
  intros Hc. induction s as [|d s IH]; simpl; [done|].
  destruct (PyStr.isspace d) eqn:Hd; simpl; [|done].
  rewrite IH. destruct (Ascii.eqb d c) eqn:E; [|done].
  apply Ascii.eqb_eq in E. congruence.
Qed.

Lemma contains_rstrip c s :
  PyStr.isspace c = false → PyStr.contains c (PyStr.rstrip s) = PyStr.contains c s.
Proof.
  intros Hc. induction s as [|d s IH]; simpl; [done|].
  destruct (PyStr.rstrip s) as [|e r] eqn:Er.
  - simpl in IH. rewrite <- IH.
    destruct (PyStr.isspace d) eqn:Hd; simpl; [|done].
    destruct (Ascii.eqb d c) eqn:E; [|done].
    apply Ascii.eqb_eq in E. congruence.
  - change (PyStr.contains c (String d (String e r)))
      with (Ascii.eqb d c || PyStr.contains c (String e r)).
    by rewrite IH.
Qed.

Lemma contains_strip c s :
  PyStr.isspace c = false → PyStr.contains c (PyStr.strip s) = PyStr.contains c s.
Proof.
  intros Hc. unfold PyStr.strip.
  by rewrite contains_rstrip, contains_lstrip.
Qed.

End StringFacts.

(** ** Widget operations that set constants *)

Section ConstantOps.

Implicit Types (a b : UiOp) (ops : list UiOp) (u : Ui).

Lemma apply_ops_cons a ops u :
  apply_ops (a :: ops) u = apply_ops ops (apply_op a u).
Proof. reflexivity. Qed.

Lemma apply_ops_singleton a u : apply_ops [a] u = apply_op a u.
Proof. reflexivity. Qed.

Lemma apply_ops_app ops ops' u :
  apply_ops (ops ++ ops') u = apply_ops ops' (apply_ops ops u).
Proof. unfold apply_ops. apply foldl_app. Qed.

Lemma constant_op_idempotent a u :
  constant_op a = true → apply_op a (apply_op a u) = apply_op a u.
Proof.
  destruct u, a as [| | | | | | | ? [|?] | | | |]; try discriminate; intros _;
    unfold apply_op, with_text, with_tables; simpl; f_equal;
    apply insert_insert_eq.
Qed.

(** Two constant settings either touch different properties, and commute,
    or the same one, and the later wins. *)
Lemma constant_ops_commute_or_absorb a b :
  constant_op a = true → constant_op b = true →
  (∀ u, apply_op b (apply_op a u) = apply_op a (apply_op b u))
  ∨ (∀ u, apply_op b (apply_op a u) = apply_op b u).
Proof.
  destruct a as [| w ? | w ? | w ? | w ? | w ? | w ? | w [|?] | | | |];
    destruct b as [| w' ? | w' ? | w' ? | w' ? | w' ? | w' ? | w' [|?] | | | |];
    try discriminate; intros _ _;
    try (left; intros []; reflexivity);
    try (right; intros []; reflexivity);
    (destruct (decide (w = w')) as [->|Hne];
     [ right; intros []; unfold apply_op, with_text, with_tables; simpl;
       f_equal; apply insert_insert_eq
     | left; intros []; unfold apply_op, with_text, with_tables; simpl;
       f_equal; by apply insert_insert_ne ]).
Qed.

Lemma constant_op_absorbed a ops :
  constant_op a = true → Forall (λ b, constant_op b = true) ops →
  ∀ u, apply_op a (apply_ops ops (apply_op a u)) = apply_op a (apply_ops ops u).
Proof.
  intros Ha. induction 1 as [|b ops Hb _ IH]; intros u.
  - by apply constant_op_idempotent.
  - rewrite !apply_ops_cons.
    destruct (constant_ops_commute_or_absorb a b Ha Hb) as [H|H]; rewrite H.
    + apply IH.
    + reflexivity.
Qed.

(** Running a list of constant settings twice is running it once. *)
Lemma constant_ops_idempotent ops :
  Forall (λ b, constant_op b = true) ops →
  ∀ u, apply_ops ops (apply_ops ops u) = apply_ops ops u.
Proof.
  induction ops as [|a ops IH] using rev_ind; intros Hops u; [done|].
  apply Forall_app in Hops as [Hops Ha]. rewrite Forall_singleton in Ha.
  rewrite !apply_ops_app, !apply_ops_singleton.
  rewrite (constant_op_absorbed a ops Ha Hops). by rewrite IH.
Qed.

End ConstantOps.

(** ** [disconnect] *)

(** What [disconnect] does to a window. *)
Lemma disconnect_spec w :
  disconnect w
  = ({| splunkd := None;
        ui := apply_ops (disconnect_reset ++ [setText "statusbar" "Disconnected"])
                (ui w);
        dialogs := dialogs w;
        net := net w |}, Return ()).
Proof. reflexivity. Qed.

Lemma disconnect_reset_constant :
  Forall (λ b, constant_op b = true)
    (disconnect_reset ++ [setText "statusbar" "Disconnected"]).
Proof.
  apply Forall_forall. intros op Hop.
  repeat (apply elem_of_cons in Hop as [->|Hop]; [reflexivity|]).
  by apply elem_of_nil in Hop.
Qed.

(** C8. [disconnect] is idempotent: from every window, connected or not
    and also one that never was, it returns without exception and leaves
    the window without wrapper object ([self.splunkd] is gone) and with
    "Disconnected" in the status bar; a second call in a row again returns
    without exception and leaves exactly the window the first call left. *)
Theorem disconnect_idempotent (w : Window) :
  (disconnect w).2 = Return ()
  ∧ splunkd (disconnect w).1 = None
  ∧ text (ui (disconnect w).1) !! "statusbar" = Some "Disconnected"
  ∧ disconnect (disconnect w).1 = disconnect w.
Proof.
  rewrite disconnect_spec. cbn [fst snd splunkd ui].
  split; [done|]. split; [done|].
  split.
  { rewrite apply_ops_app, apply_ops_singleton. apply lookup_insert_eq. }
  rewrite disconnect_spec. cbn [splunkd ui dialogs net].
  by rewrite (constant_ops_idempotent _ disconnect_reset_constant).
Qed.

(** ** The handlers only add to the request log *)

Lemma sends_only_ret {A} (a : A) : sends_only (ret a).
Proof. intros w. exists []. by rewrite app_nil_r. Qed.

Lemma sends_only_raise {A} (e : Exc) : sends_only (raise (A:=A) e).
Proof. intros w. exists []. by rewrite app_nil_r. Qed.

Lemma sends_only_bind {A B} (m : M A) (k : A → M B) :
  sends_only m → (∀ a, sends_only (k a)) → sends_only (bind m k).
Proof.
  intros Hm Hk w. unfold bind. destruct (Hm w) as [l Hl].
  destruct (m w) as [w' [a|e]]; simpl in *.
  - destruct (Hk a w') as [l' Hl']. exists (l ++ l').
    by rewrite Hl', Hl, app_assoc.
  - by exists l.
Qed.

Lemma sends_only_try_or_return {A B} (m : M A) h (k : A → M B) :
  sends_only m → (∀ e c, h e = Some c → sends_only c) →
  (∀ a, sends_only (k a)) → sends_only (try_or_return m h k).
Proof.
  intros Hm Hh Hk w. unfold try_or_return. destruct (Hm w) as [l Hl].
  destruct (m w) as [w' [a|e]]; simpl in *.
  - destruct (Hk a w') as [l' Hl']. exists (l ++ l').
    by rewrite Hl', Hl, app_assoc.
  - destruct (h e) as [c|] eqn:E; [|by exists l].
    destruct (Hh e c E w') as [l' Hl']. exists (l ++ l').
    by rewrite Hl', Hl, app_assoc.
Qed.

Lemma sends_only_gui ops : sends_only (gui ops).
Proof. intros w. exists []. by rewrite app_nil_r. Qed.

Lemma sends_only_show_dialog kind msg : sends_only (show_dialog kind msg).
Proof. intros w. exists []. by rewrite app_nil_r. Qed.

Lemma sends_only_set_splunkd o : sends_only (set_splunkd o).
Proof. intros w. exists []. by rewrite app_nil_r. Qed.

Lemma sends_only_get_splunkd : sends_only get_splunkd.
Proof.
  intros w. exists []. unfold get_splunkd.
  destruct (splunkd w); by rewrite app_nil_r.
Qed.

Lemma sends_only_send r : sends_only (send r).
Proof. intros w. by exists [r]. Qed.

Lemma sends_only_widget_text name : sends_only (widget_text name).
Proof. intros w. exists []. by rewrite app_nil_r. Qed.

Lemma sends_only_widget_items name : sends_only (widget_items name).
Proof. intros w. exists []. by rewrite app_nil_r. Qed.

Lemma sends_only_of_option {A} o (a : A) : sends_only (of_option o a).
Proof. destruct o; [apply sends_only_raise | apply sends_only_ret]. Qed.

Lemma sends_only_of_sum {A} (r : Exc + A) : sends_only (of_sum r).
Proof. destruct r; [apply sends_only_raise | apply sends_only_ret]. Qed.

Create HintDb sends_only discriminated.

#[local] Hint Resolve sends_only_ret sends_only_raise sends_only_gui
  sends_only_show_dialog sends_only_set_splunkd sends_only_get_splunkd
  sends_only_send sends_only_widget_text sends_only_widget_items
  sends_only_of_option sends_only_of_sum : sends_only.

(** Decomposes a handler along its binds, branches and clauses. *)
Ltac sends_only_step :=
  match goal with
  | |- sends_only (bind _ _) => apply sends_only_bind; [|intros ?]
  | |- sends_only (try_or_return _ _ _) =>
      apply sends_only_try_or_return;
      [|intros ? ? ?; repeat case_match; simplify_eq|intros ?]
  | |- sends_only (if ?b then _ else _) => destruct b
  | |- sends_only (match ?x with _ => _ end) => destruct x
  | |- sends_only _ => solve [auto with sends_only]
  end.

Ltac sends_only_tac := repeat sends_only_step.

Lemma sends_only_statusbar_msg msg : sends_only (statusbar_msg msg).
Proof. apply sends_only_gui. Qed.

Lemma sends_only_critical_msg msg : sends_only (critical_msg msg).
Proof. apply sends_only_show_dialog. Qed.

Lemma sends_only_warning_msg msg : sends_only (warning_msg msg).
Proof. apply sends_only_show_dialog. Qed.

Lemma sends_only_disconnect : sends_only disconnect.
Proof. unfold disconnect. pose proof sends_only_statusbar_msg. sends_only_tac. Qed.

#[local] Hint Resolve sends_only_statusbar_msg sends_only_critical_msg
  sends_only_warning_msg sends_only_disconnect : sends_only.

Lemma sends_only_table_row table entry row column fields :
  sends_only (table_row table entry row column fields).
Proof.
  revert column. induction fields as [|f fields IH]; intros column; simpl.
  - apply sends_only_ret.
  - sends_only_tac.
Qed.

Lemma sends_only_table_rows table collection row fields :
  sends_only (table_rows table collection row fields).
Proof.
  revert row. induction collection as [|entry collection IH]; intros row; simpl.
  - apply sends_only_ret.
  - pose proof sends_only_table_row. sends_only_tac.
Qed.

Lemma sends_only_table_builder table collection fields :
  sends_only (table_builder table collection fields).
Proof.
  unfold table_builder. pose proof sends_only_table_rows. sends_only_tac.
Qed.

Lemma sends_only_table_of_attr table collection fields :
  sends_only (table_of_attr table collection fields).
Proof.
  unfold table_of_attr. pose proof sends_only_table_builder. sends_only_tac.
Qed.

#[local] Hint Resolve sends_only_table_builder sends_only_table_of_attr
  : sends_only.

Lemma sends_only_service_settings R : sends_only (service_settings R).
Proof. unfold service_settings. sends_only_tac. Qed.

#[local] Hint Resolve sends_only_service_settings : sends_only.

Lemma sends_only_connection_checked R k :
  sends_only k → sends_only (connection_checked R k).
Proof. intros Hk. unfold connection_checked. sends_only_tac. Qed.

Lemma sends_only_comboConfig_activated R : sends_only (comboConfig_activated R).
Proof.
  unfold comboConfig_activated. apply sends_only_connection_checked.
  sends_only_tac.
Qed.

Lemma sends_only_checkCluster_clicked : sends_only checkCluster_clicked.
Proof. unfold checkCluster_clicked. sends_only_tac. Qed.

Lemma sends_only_checkSHCluster_clicked : sends_only checkSHCluster_clicked.
Proof. unfold checkSHCluster_clicked. sends_only_tac. Qed.

#[local] Hint Resolve sends_only_comboConfig_activated
  sends_only_checkCluster_clicked sends_only_checkSHCluster_clicked
  : sends_only.

Lemma sends_only_populate_gui R : sends_only (populate_gui R).
Proof.
  unfold populate_gui, service_restart_required. sends_only_tac.
Qed.

Lemma sends_only_sub_polls R steps : sends_only (sub_polls R steps).
Proof.
  induction steps as [|[msg step] steps IH]; simpl.
  - apply sends_only_ret.
  - unfold sub_poll. sends_only_tac.
Qed.

Lemma sends_only_socket_error_clause e c :
  socket_error_clause e = Some c → sends_only c.
Proof.
  unfold socket_error_clause. destruct (as_socket_error e); [|done].
  intros [= <-]. sends_only_tac.
Qed.

Lemma sends_only_poll R : sends_only (poll R).
Proof.
  unfold poll. apply sends_only_try_or_return.
  - apply sends_only_service_settings.
  - intros e c. destruct (socket_error_clause e) as [c'|] eqn:E.
    + apply sends_only_socket_error_clause in E.
      destruct e; intros [= <-]; try done; sends_only_tac.
    + destruct e; intros [= <-]; sends_only_tac.
  - intros _. apply sends_only_try_or_return.
    + apply sends_only_sub_polls.
    + apply sends_only_socket_error_clause.
    + intros _. apply sends_only_populate_gui.
Qed.

#[local] Hint Resolve sends_only_poll : sends_only.

(** ** [poll] *)

Section Poll.

Context (R : Remote).

(** The probe on a connected window: one request, answered by splunkd. *)
Lemma service_settings_connected w s :
  splunkd w = Some s →
  service_settings R w
  = (and_requests w [ReqSettings],
     match answer_settings R (length (net w)) s with
     | Some e => Raise e
     | None => Return ()
     end).
Proof.
  intros Hs. unfold service_settings, bind, get_splunkd, send. rewrite Hs.
  cbn [splunkd]. by destruct (answer_settings _ _ _).
Qed.

(** Without wrapper object the probe is an [AttributeError]. *)
Lemma service_settings_absent w :
  splunkd w = None → service_settings R w = (w, Raise AttributeError).
Proof.
  intros Hs. unfold service_settings, bind, get_splunkd. by rewrite Hs.
Qed.

(** Whatever the probe of [poll] raises, the window is torn down and one
    critical message is shown. *)
Lemma poll_check_failure w e :
  (service_settings R w).2 = Raise e →
  (poll R w).2 = Return ()
  ∧ splunkd (poll R w).1 = None
  ∧ ∃ msg, dialogs (poll R w).1
           = dialogs (service_settings R w).1 ++ [(Critical, msg)].
Proof.
  unfold poll, try_or_return.
  destruct (service_settings R w) as [w1 [[]|e']]; cbn [fst snd]; [done|].
  intros [= ->].
  destruct e; cbn [socket_error_clause as_socket_error]; unfold bind;
    rewrite disconnect_spec; cbn [critical_msg show_dialog fst snd splunkd dialogs];
    eauto.
Qed.

(** One sub-poll on a connected window: one request; the wrapper object is
    the one the sub-poll leaves. *)
Lemma sub_poll_connected w s step :
  splunkd w = Some s →
  sub_poll R step w
  = ({| splunkd := Some (answer_poll R (length (net w)) step s).1;
        ui := ui w;
        dialogs := dialogs w;
        net := net w ++ [ReqPoll step] |},
     match (answer_poll R (length (net w)) step s).2 with
     | Some e => Raise e
     | None => Return ()
     end).
Proof.
  intros Hs. unfold sub_poll, bind, get_splunkd, send, set_splunkd.
  rewrite Hs. cbn [splunkd ui dialogs net].
  by destruct (answer_poll _ _ _ _).2.
Qed.

(** The sub-polls never drop the wrapper object and show no message. *)
Lemma sub_polls_keep_session steps w :
  is_Some (splunkd w) →
  is_Some (splunkd (sub_polls R steps w).1)
  ∧ dialogs (sub_polls R steps w).1 = dialogs w.
Proof.
  revert w. induction steps as [|[msg step] steps IH]; intros w [s Hs];
    cbn [sub_polls].
  - eauto.
  - unfold bind, statusbar_msg, gui.
    rewrite (sub_poll_connected _ s) by done. cbn [splunkd ui dialogs net].
    destruct (answer_poll R (length (net w)) step s).2; [eauto|].
    match goal with |- context [sub_polls R steps ?w'] =>
      destruct (IH w') as [H1 H2]; [by eexists|] end.
    split; [exact H1|]. by rewrite H2.
Qed.

(** The second block of [poll]: a sub-poll that raises a socket error
    tears the window down; any other exception of a sub-poll leaves [poll]
    as it is. *)
Lemma poll_sub_poll_raises w w1 w2 e :
  service_settings R w = (w1, Return ()) →
  sub_polls R poll_sequence w1 = (w2, Raise e) →
  poll R w
  = match as_socket_error e with
    | Some msg =>
        (and_dialog (disconnect w2).1 Critical
           ("Socket error while attempting to poll splunkd:"
            +:+ newline +:+ msg),
         Return ())
    | None => (w2, Raise e)
    end.
Proof.
  intros H1 H2. unfold poll, try_or_return. rewrite H1, H2.
  unfold socket_error_clause. destruct (as_socket_error e); [|done].
  unfold bind. by rewrite disconnect_spec.
Qed.

(** A socket error of any sub-poll: torn down, one critical message. *)
Lemma poll_socket_error_tears_down w w1 w2 e msg :
  service_settings R w = (w1, Return ()) →
  sub_polls R poll_sequence w1 = (w2, Raise e) →
  as_socket_error e = Some msg →
  (poll R w).2 = Return ()
  ∧ splunkd (poll R w).1 = None
  ∧ dialogs (poll R w).1
    = dialogs w2 ++ [(Critical, "Socket error while attempting to poll splunkd:"
                                +:+ newline +:+ msg)].
Proof.
  intros H1 H2 He. rewrite (poll_sub_poll_raises w w1 w2 e H1 H2), He.
  by rewrite disconnect_spec.
Qed.

(** Any other exception of a sub-poll: it leaves [poll], the wrapper
    object stays and no message is shown. *)
Lemma poll_sub_poll_uncaught w s w2 e :
  splunkd w = Some s →
  answer_settings R (length (net w)) s = None →
  sub_polls R poll_sequence (and_requests w [ReqSettings]) = (w2, Raise e) →
  as_socket_error e = None →
  poll R w = (w2, Raise e)
  ∧ is_Some (splunkd w2)
  ∧ dialogs w2 = dialogs w.
Proof.
  intros Hs Hprobe H2 He.
  pose proof (service_settings_connected w s Hs) as H1. rewrite Hprobe in H1.
  rewrite (poll_sub_poll_raises w _ w2 e H1 H2), He.
  split; [done|].
  destruct (sub_polls_keep_session poll_sequence (and_requests w [ReqSettings]))
    as [H3 H4]; [by exists s|].
  rewrite H2 in H3, H4. done.
Qed.

End Poll.

(** C1 (the code departs from the claim).  An [AuthenticationError] raised
    by the sub-poll [poll_service_messages], after a probe and two
    sub-polls that went well: the exception leaves [poll], the wrapper
    object is still there, no message box was shown and the status bar
    still reads "Polling messages...". *)
Theorem poll_authentication_error_in_sub_poll :
  poll (Sample.failing_at poll_service_messages AuthenticationError)
       (Sample.connected Sample.indexer ∅)
  = ({| splunkd := Some Sample.indexer;
        ui := with_text (λ _, {[ "statusbar" := "Polling messages..." ]})
                Sample.blank_ui;
        dialogs := [];
        net := [ ReqSettings; ReqPoll poll_service_info;
                 ReqPoll poll_service_settings; ReqPoll poll_service_messages ] |},
     Raise AuthenticationError).
Proof. vm_compute. reflexivity. Qed.

(** C2 (the code departs from the claim).  An exception that is neither an
    authentication nor a socket error, here an HTTP error raised by the
    sub-poll [get_services_cluster_master]: the exception leaves [poll],
    the wrapper object is still there and no message box was shown. *)
Theorem poll_unclassified_error_in_sub_poll :
  poll (Sample.failing_at get_services_cluster_master (OtherException "HTTPError"))
       (Sample.connected Sample.indexer ∅)
  = ({| splunkd := Some Sample.indexer;
        ui := with_text
                (λ _, {[ "statusbar" := "Polling cluster master info..." ]})
                Sample.blank_ui;
        dialogs := [];
        net := [ ReqSettings; ReqPoll poll_service_info;
                 ReqPoll poll_service_settings; ReqPoll poll_service_messages;
                 ReqPoll get_service_confs;
                 ReqPoll get_services_admin_inputstatus;
                 ReqPoll poll_service_apps;
                 ReqPoll get_services_cluster_master ] |},
     Raise (OtherException "HTTPError")).
Proof. vm_compute. reflexivity. Qed.

(** ** [connect] *)


(** An address without [':'] is the host, on port 8089. *)
Lemma host_and_port_default address :
  PyStr.count ":" (PyStr.strip address) = O →
  host_and_port address = inr (PyStr.strip address, 8089).
Proof.
  intros H. unfold host_and_port.
  by rewrite (proj2 (contains_false_count _ _) H).
Qed.

(** The login of [connect_to] is the first request it sends. *)
Lemma connect_to_first_request R host port user pass w :
  ∃ rest, net (connect_to R host port user pass w).1
          = net w ++ ReqLogin host port user pass :: rest.
Proof.
  unfold connect_to.
  unfold bind at 1, try_or_return, statusbar_msg at 1, gui at 1, login.
  unfold bind at 1, send at 1. cbn [net].
  destruct (answer_login R (length (net w)) host port user pass) as [e|s];
    cbn [of_sum raise ret].
  - match goal with |- context [match ?h with Some _ => _ | None => _ end] =>
      destruct h as [c|] eqn:E end.
    + assert (sends_only c) as Hc by (destruct e; simplify_eq; sends_only_tac).
      match goal with |- context [c ?w'] => destruct (Hc w') as [l Hl] end.
      exists l. rewrite Hl. cbn [net]. by rewrite <- app_assoc.
    + exists []. done.
  - match goal with |- context [net (?m ?w').1] =>
      assert (sends_only m) as Hm by sends_only_tac;
      destruct (Hm w') as [l Hl] end.
    exists l. rewrite Hl. cbn [net]. by rewrite <- app_assoc.
Qed.


(** C9. A connect attempt whose trimmed address has no [':'] (the three
    trimmed fields not being empty) takes the trimmed address as host and
    8089 as port, passes the port check and goes on to connect: its first
    request is the login to that host on port 8089. *)
Theorem connect_default_port (R : Remote) (w : Window) :
  let address := text_of (ui w) "comboAddress" in
  let username := text_of (ui w) "editUsername" in
  let password := text_of (ui w) "editPassword" in
  PyStr.strip address ≠ "" → PyStr.strip username ≠ "" →
  PyStr.strip password ≠ "" →
  PyStr.count ":" (PyStr.strip address) = O →
  host_and_port address = inr (PyStr.strip address, 8089)
  ∧ connect R w
    = connect_to R (PyStr.strip address) 8089 (PyStr.strip username)
        (PyStr.strip password) w
  ∧ ∃ rest, net (connect R w).1
            = net w ++ ReqLogin (PyStr.strip address) 8089
                         (PyStr.strip username) (PyStr.strip password) :: rest.
Proof.
  intros address username password Ha Hu Hp Hcolon.
  pose proof (host_and_port_default address Hcolon) as Hhp.
  assert (connect R w
          = connect_to R (PyStr.strip address) 8089 (PyStr.strip username)
              (PyStr.strip password) w) as Hconnect.
  { unfold connect, bind, widget_text. cbn [fst snd].
    fold address username password.
    rewrite !bool_decide_eq_false_2 by done. by rewrite Hhp. }
  split; [done|]. split; [done|].
  rewrite Hconnect. apply connect_to_first_request.
Qed.

(** ** The check that opens the handlers, and [rest_call] *)

Lemma connection_checked_ok R k w s :
  splunkd w = Some s →
  answer_settings R (length (net w)) s = None →
  connection_checked R k w = k (and_requests w [ReqSettings]).
Proof.
  intros Hs Hprobe. unfold connection_checked, try_or_return.
  by rewrite (service_settings_connected R w s Hs), Hprobe.
Qed.

Lemma rest_call_connected R r w s :
  splunkd w = Some s →
  rest_call R r w
  = (and_requests w [ReqRest r],
     match answer_rest R (length (net w)) r s with
     | inl e => Raise e
     | inr result => Return result
     end).
Proof.
  intros Hs. unfold rest_call, bind, get_splunkd, send. rewrite Hs.
  cbn [splunkd]. by destruct (answer_rest _ _ _ _).
Qed.

(** ** The parser of the ad-hoc query *)

Section Parser.

Implicit Types (uri path q p : string) (kvs : list (string * string)).

(** Two ['?'] or more: the unpacking of the split fails. *)
Lemma parse_uri_question_marks uri :
  (2 ≤ PyStr.count "?" uri)%nat → parse_uri uri = inl ValueError.
Proof.
  intros H. unfold parse_uri.
  rewrite contains_count, bool_decide_eq_true_2 by lia.
  pose proof (length_split "?" uri) as Hlen.
  destruct (PyStr.split "?" uri) as [|a [|b [|c l]]]; simpl in Hlen; try lia.
  done.
Qed.


Lemma split_question_mark path q :
  PyStr.count "?" path = O → PyStr.count "?" q = O →
  PyStr.split "?" (path +:+ "?" +:+ q) = [path; q].
Proof.
  intros Hp Hq. change ("?" +:+ q) with (String "?" q).
  by rewrite split_app_sep, split_no_sep.
Qed.

Lemma contains_question_mark path q :
  PyStr.contains "?" (path +:+ "?" +:+ q) = true.
Proof.
  change ("?" +:+ q) with (String "?" q).
  rewrite contains_count, count_app. simpl PyStr.count.
  apply bool_decide_eq_true_2. lia.
Qed.







End Parser.

(** ** [buttonRestSend_clicked] *)

Section RestSend.

Context (R : Remote) (w : Window) (s : Splunkd.t).
Hypothesis connected : splunkd w = Some s.
Hypothesis probe_ok : answer_settings R (length (net w)) s = None.

(** A query that does not parse: a warning box after the probe, nothing
    else sent. *)
Lemma rest_send_parse_failure :
  parse_uri (text_of (ui w) "comboRestURI") = inl ValueError →
  buttonRestSend_clicked R w
  = (and_dialog (and_requests w [ReqSettings]) Warning
       "Unable to parse parameters in URI, check formatting",
     Return ()).
Proof.
  intros Hparse. unfold buttonRestSend_clicked.
  rewrite (connection_checked_ok R _ w s connected probe_ok).
  unfold bind, widget_text, try_or_return. cbn [fst snd ui and_requests].
  by rewrite Hparse.
Qed.

(** A query that parses: the probe, then the call with the path and the
    parameters parsed, and no other request. *)
Lemma rest_send_dispatch uri parameters :
  parse_uri (text_of (ui w) "comboRestURI") = inr (uri, parameters) →
  net (buttonRestSend_clicked R w).1
  = net w ++ [ ReqSettings;
               ReqRest {| rest_uri := uri;
                          rest_method := text_of (ui w) "comboRestMethod";
                          rest_output_format := Some "plaintext";
                          rest_body_input := text_of (ui w) "editRestBodyInput";
                          rest_parameters := parameters |} ].
Proof.
  intros Hparse. unfold buttonRestSend_clicked.
  rewrite (connection_checked_ok R _ w s connected probe_ok).
  unfold bind at 1 2 3, widget_text, try_or_return at 1.
  cbn [fst snd ui and_requests]. rewrite Hparse. cbn [of_sum ret].
  unfold try_or_return, bind at 1.
  rewrite (rest_call_connected R _ _ s) by done.
  cbn [net and_requests].
  destruct (answer_rest _ _ _ _) as [e|[body|msg]]; cbn [net and_requests ret raise gui fst snd].
  - by rewrite <- app_assoc.
  - unfold bind, widget_items. cbn [fst snd].
    case_bool_decide; cbn [ret gui net fst]; by rewrite <- app_assoc.
  - by rewrite <- app_assoc.
Qed.

End RestSend.

(** C4. With a connected window whose probe goes well: for the URI
    "/services/foo?a=1&b=2" the call is sent to the path "/services/foo"
    with the parameters a = "1" and b = "2" (and the method and body of the
    widgets, plain-text output); for the URI "/services/foo?bad" the
    handler ends in the parse warning, and nothing but the probe was
    sent. *)
Theorem rest_send_examples (R : Remote) (w : Window) (s : Splunkd.t) :
  splunkd w = Some s →
  answer_settings R (length (net w)) s = None →
  (text_of (ui w) "comboRestURI" = "/services/foo?a=1&b=2" →
   net (buttonRestSend_clicked R w).1
   = net w ++ [ ReqSettings;
                ReqRest {| rest_uri := "/services/foo";
                           rest_method := text_of (ui w) "comboRestMethod";
                           rest_output_format := Some "plaintext";
                           rest_body_input := text_of (ui w) "editRestBodyInput";
                           rest_parameters := {[ "a" := "1"; "b" := "2" ]} |} ])
  ∧ (text_of (ui w) "comboRestURI" = "/services/foo?bad" →
     buttonRestSend_clicked R w
     = (and_dialog (and_requests w [ReqSettings]) Warning
          "Unable to parse parameters in URI, check formatting",
        Return ())).
Proof.
  intros Hs Hprobe. split; intros Huri.
  - apply (rest_send_dispatch R w s Hs Hprobe). by rewrite Huri.
  - apply (rest_send_parse_failure R w s Hs Hprobe). by rewrite Huri.
Qed.


(** ** The TCP block and the cluster counts of [poll] *)

Lemma deref_setitem_eq s l key v d :
  Splunkd.heap s !! l = Some d →
  Splunkd.deref (Splunkd.setitem l key v s) l = <[key := v]> d.
Proof.
  intros H. unfold Splunkd.deref, Splunkd.setitem. cbn [Splunkd.heap].
  by rewrite lookup_alter_eq, H.
Qed.


Lemma fields_setitem s l key v :
  Splunkd.fields (Splunkd.setitem l key v s) = Splunkd.fields s.
Proof. reflexivity. Qed.


(** When one and the same dict object is in both collections, both
    entries of the merged collection are that object, tagged "Cooked". *)
Lemma merge_tcpmonitors_aliased (s : Splunkd.t) (l : nat)
    (d : gmap string string) :
  Splunkd.rawtcp_status (Splunkd.fields s) = [l] →
  Splunkd.cookedtcp_status (Splunkd.fields s) = [l] →
  Splunkd.heap s !! l = Some d →
  Splunkd.deref (merge_tcpmonitors s).1 <$> (merge_tcpmonitors s).2
  = [ <["tcptype" := "Cooked"]> d; <["tcptype" := "Cooked"]> d ].
Proof.
  intros Hraw Hcooked Hl. unfold merge_tcpmonitors. cbn [fst snd]. rewrite Hraw.
  unfold tag_monitors. cbn [foldl]. rewrite fields_setitem, Hcooked.
  cbn [foldl app fmap list_fmap].
  rewrite deref_setitem_eq with (d := <["tcptype" := "Raw"]> d).
  - by rewrite insert_insert_eq.
  - unfold Splunkd.setitem. cbn [Splunkd.heap]. by rewrite lookup_alter_eq, Hl.
Qed.

Lemma text_apply_op_setText w t u :
  text (apply_op (setText w t) u) = <[w := t]> (text u).
Proof. reflexivity. Qed.


(** A full poll of a cluster master with three peers, two of them
    searchable, and two indexes, one of them searchable. *)
Example poll_master_counts :
  let u := ui (poll Sample.healthy (Sample.connected Sample.master ∅)).1 in
  text u !! "labelClusterPeersSearchable" = Some "2 searchable"
  ∧ text u !! "labelClusterPeersNotSearchable" = Some "1 not searchable"
  ∧ text u !! "labelClusterIndexesSearchable" = Some "1 searchable"
  ∧ text u !! "labelClusterIndexesNotSearchable" = Some "1 not searchable".
Proof. vm_compute. done. Qed.

(** ** [actionChangeDeploymentServer_clicked] *)

Lemma service_restart_connected R w s :
  splunkd w = Some s →
  service_restart R w
  = (and_requests w [ReqRestart],
     match answer_restart R (length (net w)) s with
     | Some e => Raise e
     | None => Return ()
     end).
Proof.
  intros Hs. unfold service_restart, bind, get_splunkd, send. rewrite Hs.
  cbn [splunkd]. by destruct (answer_restart _ _ _).
Qed.

(** Compares two windows written with [and_dialog] and [and_requests]. *)
Ltac window_eq :=
  unfold and_requests, and_dialog, critical_msg, show_dialog, raise, ret,
    statusbar_msg, gui;
  cbn [splunkd ui dialogs net fst snd];
  try match goal with H : splunkd _ = Some _ |- _ => rewrite !H end;
  rewrite <- ?app_assoc; reflexivity.

Section DisableDeploymentClient.

Context (R : Remote) (w : Window) (s : Splunkd.t).
Hypothesis connected : splunkd w = Some s.
Hypothesis probe_ok : answer_settings R (length (net w)) s = None.

(** With a blank target and both dialogs accepted, the handler is the
    call, the inspection of its answer and the restart. *)
Lemma blank_target_steps :
  actionChangeDeploymentServer_clicked R "" true true w
  = match answer_rest R (S (length (net w))) disable_request s with
    | inr (Structured (Some (result_type, result_msg))) =>
        if negb (bool_decide (result_type = "INFO")) then
          (and_dialog (and_requests (asked_to_disable w s) [ReqRest disable_request]) Critical
             ("Error while attempting to modify deployment server URI:"
              +:+ newline +:+ result_msg), Return ())
        else if PyStr.find_sub "modified 0 key" result_msg then
          (and_dialog (and_requests (asked_to_disable w s) [ReqRest disable_request]) Critical
             ("Splunkd reports no changes made to deployment server URI:"
              +:+ newline +:+ result_msg), Return ())
        else
          match answer_restart R (S (S (length (net w)))) s with
          | None =>
              (statusbar_msg
                 "Disconnected while splunkd is restarting, try reconnecting in a few moments"
                 (disconnect
                    (and_requests (asked_to_disable w s) [ReqRest disable_request; ReqRestart])).1)
          | Some _ =>
              (and_dialog
                 (and_requests (asked_to_disable w s) [ReqRest disable_request; ReqRestart])
                 Critical "Error while attempting to restart splunkd", Return ())
          end
    | _ =>
        (and_dialog (and_requests (asked_to_disable w s) [ReqRest disable_request]) Critical
           "Error while attempting to restart splunkd", Return ())
    end.
Proof.
  unfold actionChangeDeploymentServer_clicked.
  rewrite (connection_checked_ok R _ w s connected probe_ok).
  unfold bind at 1 2, show_dialog at 1, get_splunkd at 1.
  cbn [splunkd and_requests fst snd]. rewrite connected.
  rewrite (bool_decide_eq_true_2 _ (eq_refl "")). cbv beta iota zeta.
  unfold bind at 1, question_msg_yesno, bind at 1, show_dialog at 1, ret at 1.
  cbn [fst snd]. unfold try_or_return, bind at 1.
  change ("disabled=" +:+ "1" +:+ "&targetUri=" +:+ "")
    with "disabled=1&targetUri=".
  fold disable_request.
  erewrite rest_call_connected by reflexivity.
  cbn [net and_requests]. rewrite !length_app. cbn [length]. rewrite Nat.add_1_r.
  destruct (answer_rest R (S (length (net w))) disable_request s)
    as [e|[body|[[result_type result_msg]|]]];
    unfold asked_to_disable.
  - window_eq.
  - window_eq.
  - destruct (negb (bool_decide (result_type = "INFO"))).
    { window_eq. }
    destruct (PyStr.find_sub "modified 0 key" result_msg).
    { window_eq. }
    unfold bind at 1. erewrite service_restart_connected by reflexivity.
    cbn [net and_requests]. rewrite !length_app. cbn [length].
    rewrite !Nat.add_1_r.
    destruct (answer_restart R (S (S (length (net w)))) s).
    + window_eq.
    + unfold bind. rewrite !disconnect_spec. window_eq.
  - window_eq.
Qed.

End DisableDeploymentClient.

(** C7, as the code has it.  The deployment-client change with a blank
    target, both dialogs accepted, on a connected window whose probe goes
    well: the POST with [disabled=1] and an empty target is sent.  When
    its answer is a message whose type is not "INFO", or whose text
    contains "modified 0 key", a critical box shows that text, no restart
    is sent and the wrapper object stays.  Otherwise the restart request
    follows at once; when the restart returns, the window is torn down as
    by [disconnect]; when the restart raises, an error box is shown and
    the wrapper object stays. *)
Theorem disable_deployment_client (R : Remote) (w : Window) (s : Splunkd.t) :
  splunkd w = Some s →
  answer_settings R (length (net w)) s = None →
  let w' := (actionChangeDeploymentServer_clicked R "" true true w).1 in
  (∃ rest, net w' = net w ++ ReqSettings :: ReqRest disable_request :: rest)
  ∧ ∀ result_type result_msg,
      answer_rest R (S (length (net w))) disable_request s
      = inr (Structured (Some (result_type, result_msg))) →
      (result_type ≠ "INFO" ∨ PyStr.find_sub "modified 0 key" result_msg = true →
       net w' = net w ++ [ReqSettings; ReqRest disable_request]
       ∧ splunkd w' = Some s
       ∧ ∃ msg, dialogs w'
                = dialogs (asked_to_disable w s)
                  ++ [(Critical, msg +:+ newline +:+ result_msg)])
      ∧ (result_type = "INFO" →
         PyStr.find_sub "modified 0 key" result_msg = false →
         net w' = net w ++ [ReqSettings; ReqRest disable_request; ReqRestart]
         ∧ (answer_restart R (S (S (length (net w)))) s = None →
            splunkd w' = None
            ∧ text (ui w') !! "statusbar"
              = Some "Disconnected while splunkd is restarting, try reconnecting in a few moments")
         ∧ (∀ e, answer_restart R (S (S (length (net w)))) s = Some e →
              splunkd w' = Some s
              ∧ dialogs w'
                = dialogs (asked_to_disable w s)
                  ++ [(Critical, "Error while attempting to restart splunkd")])).
Proof.
  intros Hs Hprobe w'. unfold w'.
  rewrite (blank_target_steps R w s Hs Hprobe). split.
  - destruct (answer_rest R (S (length (net w))) disable_request s)
      as [e|[body|[[result_type result_msg]|]]];
      try (exists []; cbn [fst net and_dialog and_requests asked_to_disable];
           by rewrite <- app_assoc).
    destruct (negb (bool_decide (result_type = "INFO")));
      [exists []; cbn [fst net and_dialog and_requests asked_to_disable];
       by rewrite <- app_assoc|].
    destruct (PyStr.find_sub "modified 0 key" result_msg);
      [exists []; cbn [fst net and_dialog and_requests asked_to_disable];
       by rewrite <- app_assoc|].
    exists [ReqRestart].
    destruct (answer_restart R (S (S (length (net w)))) s).
    + cbn [fst net and_dialog and_requests asked_to_disable].
      by rewrite <- app_assoc.
    + rewrite disconnect_spec.
      cbn [fst net and_dialog and_requests asked_to_disable statusbar_msg gui].
      by rewrite <- app_assoc.
  - intros result_type result_msg ->. split.
    + intros Hfail.
      assert (negb (bool_decide (result_type = "INFO")) = true
              ∨ (negb (bool_decide (result_type = "INFO")) = false
                 ∧ PyStr.find_sub "modified 0 key" result_msg = true)) as Hcase.
      { destruct Hfail as [Hty|Hmsg].
        - left. by rewrite bool_decide_eq_false_2.
        - destruct (negb (bool_decide (result_type = "INFO"))); eauto. }
      destruct Hcase as [->|[-> ->]];
        cbn [fst net splunkd dialogs and_dialog and_requests asked_to_disable];
        rewrite Hs, <- app_assoc; eauto.
    + intros -> Hmsg. rewrite Hmsg.
      rewrite (bool_decide_eq_true_2 _ (eq_refl "INFO")). cbn [negb].
      destruct (answer_restart R (S (S (length (net w)))) s) as [e|].
      * cbn [fst net splunkd dialogs and_dialog and_requests asked_to_disable].
        rewrite Hs, <- app_assoc. split; [done|]. split; [intros [=]|].
        intros e' _. by split.
      * rewrite disconnect_spec.
        cbn [fst net splunkd ui dialogs and_dialog and_requests asked_to_disable
             statusbar_msg gui].
        rewrite <- app_assoc. split; [done|]. split; [|intros e' [=]].
        intros _. split; [done|].
        rewrite apply_ops_singleton. apply lookup_insert_eq.
Qed.

(** C7, as the claim states it, does not hold: here the answer to the
    POST is informational and reports modified keys, the restart request
    is sent and raises a socket error; the handler shows an error box and
    the wrapper object is still there. *)
Lemma restart_error_skips_teardown :
  let w := Sample.connected Sample.indexer ∅ in
  let w' :=
    (actionChangeDeploymentServer_clicked Sample.restart_refused "" true true w).1 in
  answer_rest Sample.restart_refused 1 disable_request Sample.indexer
  = inr (Structured (Some ("INFO", "modified 2 keys")))
  ∧ PyStr.find_sub "modified 0 key" "modified 2 keys" = false
  ∧ net w' = [ReqSettings; ReqRest disable_request; ReqRestart]
  ∧ splunkd w' = Some Sample.indexer
  ∧ splunkd w' ≠ None
  ∧ last (dialogs w')
    = Some (Critical, "Error while attempting to restart splunkd").
Proof. vm_compute. repeat split; done. Qed.

(** The same design in [actionRestartSplunkd_clicked]: a restart that
    raises leaves the wrapper object in place. *)
Lemma restart_error_keeps_session :
  let w := Sample.connected Sample.indexer ∅ in
  let w' := (actionRestartSplunkd_clicked Sample.restart_refused true w).1 in
  net w' = [ReqSettings; ReqRestart]
  ∧ splunkd w' = Some Sample.indexer
  ∧ last (dialogs w')
    = Some (Critical, "Error while attempting to restart splunkd").
Proof. vm_compute. repeat split; done. Qed.

(** ** The statements at concrete inputs *)

(** A port text that is not a number: [connect] is left by the
    [ValueError] of [int], without warning box and without request. *)
Example connect_malformed_port :
  let w := Sample.fresh {[ "comboAddress" := "splunk.example.com:abc";
                           "editUsername" := "admin";
                           "editPassword" := "changeme" ]} in
  connect Sample.healthy w = (w, Raise ValueError).
Proof. vm_compute. reflexivity. Qed.

(** Duplicate keys at work: the later value is the one sent. *)
Example parse_uri_duplicate_key :
  parse_uri "/services/foo?a=1&b=2&a=3"
  = inr ("/services/foo", {[ "a" := "3"; "b" := "2" ]}).
Proof. vm_compute. reflexivity. Qed.

(** A full poll of an instance with one raw and one cooked TCP monitor:
    the TCP table gets two rows, "Raw" first. *)
Example poll_listener_table :
  let t := table_of (ui (poll Sample.healthy (Sample.connected Sample.listener ∅)).1)
             "tableTCP" in
  rowCount t = 2%nat
  ∧ cells t !! (0, 0)%nat = Some "Raw"
  ∧ cells t !! (0, 1)%nat = Some "514"
  ∧ cells t !! (1, 0)%nat = Some "Cooked"
  ∧ cells t !! (1, 1)%nat = Some "9997".
Proof. vm_compute. done. Qed.


Lemma connect_default_port_witness :
  let w := Sample.fresh {[ "comboAddress" := " splunk.example.com ";
                           "editUsername" := "admin";
                           "editPassword" := "changeme" ]} in
  PyStr.count ":" (PyStr.strip " splunk.example.com ") = O
  ∧ host_and_port " splunk.example.com " = inr ("splunk.example.com", 8089)
  ∧ ∃ rest, net (connect Sample.healthy w).1
            = net w ++ ReqLogin "splunk.example.com" 8089 "admin" "changeme"
                       :: rest.
Proof.
  intros w. split; [reflexivity|].
  destruct (connect_default_port Sample.healthy w) as (H1 & _ & H2);
    [discriminate | discriminate | discriminate | reflexivity |].
  split; [exact H1 | exact H2].
Defined.

Lemma rest_send_examples_witness :
  let w := Sample.connected Sample.indexer
             {[ "comboRestURI" := "/services/foo?a=1&b=2";
                "comboRestMethod" := "GET" ]} in
  net (buttonRestSend_clicked Sample.healthy w).1
  = net w ++ [ ReqSettings;
               ReqRest {| rest_uri := "/services/foo";
                          rest_method := text_of (ui w) "comboRestMethod";
                          rest_output_format := Some "plaintext";
                          rest_body_input := text_of (ui w) "editRestBodyInput";
                          rest_parameters := {[ "a" := "1"; "b" := "2" ]} |} ].
Proof.
  intros w.
  exact (proj1 (rest_send_examples Sample.healthy w Sample.indexer
                  eq_refl eq_refl) eq_refl).
Defined.



Lemma disable_deployment_client_witness :
  let R := Sample.answering (Structured (Some ("INFO", "modified 2 keys"))) in
  let w := Sample.connected Sample.indexer ∅ in
  let w' := (actionChangeDeploymentServer_clicked R "" true true w).1 in
  net w' = net w ++ [ReqSettings; ReqRest disable_request; ReqRestart]
  ∧ splunkd w' = None.
Proof.
  intros R w w'.
  destruct (disable_deployment_client R w Sample.indexer eq_refl eq_refl)
    as [_ H].
  destruct (H "INFO" "modified 2 keys" eq_refl) as [_ H'].
  destruct (H' eq_refl eq_refl) as (Hnet & Hdone & _).
  split; [exact Hnet|]. exact (proj1 (Hdone eq_refl)).
Defined.

(** * More properties of the handlers *)

(** ** [poll], continued *)

(** The probe that opens [poll] raised: the clause that catches it. *)
Lemma poll_probe_raised (R : Remote) (w w1 : Window) (e : Exc) :
  service_settings R w = (w1, Raise e) →
  poll R w
  = (and_dialog (disconnect w1).1 Critical
       match e with
       | AuthenticationError => "Splunk connection reset"
       | socket_gaierror msg | socket_error msg =>
           "Socket error while attempting to poll splunkd:" +:+ newline +:+ msg
       | _ => "Unknown error while attempting to poll splunkd"
       end,
     Return ()).
Proof.
  intros H. unfold poll, try_or_return. rewrite H.
  destruct e; cbn [socket_error_clause as_socket_error]; unfold bind;
    by rewrite disconnect_spec.
Qed.

(** X1. Whatever the probe that opens [poll] raises on a connected
    window, [poll] returns normally, the window is the one [disconnect]
    leaves, and one critical box names the kind of failure: "Splunk
    connection reset" for an authentication error, the socket error with
    its text, "Unknown error" for everything else.  The probe is the only
    request sent: no sub-poll follows. *)
Theorem poll_failed_probe (R : Remote) (w : Window) (s : Splunkd.t) (e : Exc) :
  splunkd w = Some s →
  answer_settings R (length (net w)) s = Some e →
  poll R w
  = (and_dialog (disconnect (and_requests w [ReqSettings])).1 Critical
       match e with
       | AuthenticationError => "Splunk connection reset"
       | socket_gaierror msg | socket_error msg =>
           "Socket error while attempting to poll splunkd:" +:+ newline +:+ msg
       | _ => "Unknown error while attempting to poll splunkd"
       end,
     Return ())
  ∧ splunkd (poll R w).1 = None
  ∧ net (poll R w).1 = net w ++ [ReqSettings].
Proof.
  intros Hs He.
  assert (service_settings R w = (and_requests w [ReqSettings], Raise e)) as H
    by (by rewrite (service_settings_connected R w s Hs), He).
  rewrite (poll_probe_raised R _ _ e H), disconnect_spec. done.
Qed.

Lemma poll_failed_probe_witness :
  let R := Faulty.probe_raises (socket_error "timed out") in
  let w := Sample.connected Sample.indexer ∅ in
  splunkd (poll R w).1 = None ∧ net (poll R w).1 = net w ++ [ReqSettings].
Proof.
  intros R w.
  exact (proj2 (poll_failed_probe R w Sample.indexer (socket_error "timed out")
                  eq_refl eq_refl)).
Defined.

(** X2. [poll] on a window without wrapper object (never connected, or
    torn down): nothing is sent; the missing attribute is reported as
    "Unknown error" after the reset of [disconnect]. *)
Theorem poll_without_session (R : Remote) (w : Window) :
  splunkd w = None →
  poll R w
  = (and_dialog (disconnect w).1 Critical
       "Unknown error while attempting to poll splunkd", Return ())
  ∧ net (poll R w).1 = net w.
Proof.
  intros Hs.
  rewrite (poll_probe_raised R w w AttributeError
             (service_settings_absent R w Hs)).
  split; [done|]. by rewrite disconnect_spec.
Qed.

Lemma poll_without_session_witness :
  let w := Sample.fresh ∅ in
  poll Sample.healthy w
  = (and_dialog (disconnect w).1 Critical
       "Unknown error while attempting to poll splunkd", Return ())
  ∧ net (poll Sample.healthy w).1 = net w.
Proof. intros w. exact (poll_without_session Sample.healthy w eq_refl). Defined.



(** ** [connect], continued *)

Lemma contains_nonempty c s : PyStr.contains c s = true → s ≠ "".
Proof. by destruct s. Qed.

(** The three emptiness checks of [connect] passed: what is left is the
    address. *)
Lemma connect_checked_fields R w :
  PyStr.strip (text_of (ui w) "comboAddress") ≠ "" →
  PyStr.strip (text_of (ui w) "editUsername") ≠ "" →
  PyStr.strip (text_of (ui w) "editPassword") ≠ "" →
  connect R w
  = match host_and_port (text_of (ui w) "comboAddress") with
    | inl e => (w, Raise e)
    | inr (splunk_host, splunk_port) =>
        if negb ((0 <? splunk_port) && (splunk_port <? 65536)) then
          (and_dialog w Warning "Invalid port specified", Return ())
        else connect_to R splunk_host splunk_port
               (PyStr.strip (text_of (ui w) "editUsername"))
               (PyStr.strip (text_of (ui w) "editPassword")) w
    end.
Proof.
  intros Ha Hu Hp. unfold connect, bind, widget_text. cbn [fst snd].
  rewrite !bool_decide_eq_false_2 by done.
  destruct (host_and_port _) as [e|[host port]]; [done|].
  by destruct (negb _).
Qed.

(** X4. An address [host:port] whose port reads as a number within
    1..65535: the login goes to the text before the [':'] exactly as typed,
    blanks included, on that port, with the trimmed user name and
    password. *)
Theorem connect_explicit_port (R : Remote) (w : Window) (host port : string)
    (n : Z) :
  text_of (ui w) "comboAddress" = host +:+ ":" +:+ port →
  PyStr.count ":" host = O → PyStr.count ":" port = O →
  PyStr.int port = Some n → 0 < n < 65536 →
  PyStr.strip (text_of (ui w) "editUsername") ≠ "" →
  PyStr.strip (text_of (ui w) "editPassword") ≠ "" →
  connect R w
  = connect_to R host n (PyStr.strip (text_of (ui w) "editUsername"))
      (PyStr.strip (text_of (ui w) "editPassword")) w
  ∧ ∃ rest, net (connect R w).1
            = net w ++ ReqLogin host n
                         (PyStr.strip (text_of (ui w) "editUsername"))
                         (PyStr.strip (text_of (ui w) "editPassword")) :: rest.
Proof.
  intros Haddr Hh Hp Hn Hrange Huser Hpass.
  assert (explicit_port (text_of (ui w) "comboAddress") n) as Hport
    by (exists host, port; done).
  assert (host_and_port (text_of (ui w) "comboAddress") = inr (host, n)) as Hhp.
  { unfold host_and_port. rewrite Haddr.
    rewrite contains_strip by reflexivity.
    change (":" +:+ port) with (String ":" port).
    rewrite contains_count, count_app. simpl PyStr.count.
    rewrite bool_decide_eq_true_2 by lia.
    rewrite split_app_sep, split_no_sep by done. by rewrite Hn. }
  assert (PyStr.strip (text_of (ui w) "comboAddress") ≠ "") as Ha.
  { apply (contains_nonempty ":"). rewrite contains_strip by reflexivity.
    rewrite Haddr. change (":" +:+ port) with (String ":" port).
    rewrite contains_count, count_app. simpl PyStr.count.
    apply bool_decide_eq_true_2. lia. }
  assert (connect R w
          = connect_to R host n (PyStr.strip (text_of (ui w) "editUsername"))
              (PyStr.strip (text_of (ui w) "editPassword")) w) as Hconnect.
  { rewrite connect_checked_fields, Hhp by done.
    assert ((0 <? n) && (n <? 65536) = true) as ->; [|done].
    apply andb_true_iff. split; apply Z.ltb_lt; lia. }
  split; [done|]. rewrite Hconnect. apply connect_to_first_request.
Qed.

Lemma connect_explicit_port_witness :
  let w := Sample.fresh {[ "comboAddress" := " splunk.example.com: 8089 ";
                           "editUsername" := " admin";
                           "editPassword" := "changeme" ]} in
  ∃ rest, net (connect Sample.healthy w).1
          = net w ++ ReqLogin " splunk.example.com" 8089 "admin" "changeme"
                     :: rest.
Proof.
  intros w.
  refine (proj2 (connect_explicit_port Sample.healthy w " splunk.example.com"
                   " 8089 " 8089 eq_refl eq_refl eq_refl eq_refl _ _ _));
    [lia | discriminate | discriminate].
Defined.

(** X5. An address with two or more [':'], or with one [':'] and a port
    text that is not a number: [connect] is left by a [ValueError], with
    no box shown and nothing sent; the window is untouched. *)
Theorem connect_malformed_address (R : Remote) (w : Window) :
  let address := text_of (ui w) "comboAddress" in
  PyStr.strip (text_of (ui w) "editUsername") ≠ "" →
  PyStr.strip (text_of (ui w) "editPassword") ≠ "" →
  (2 ≤ PyStr.count ":" address)%nat
  ∨ (∃ host port, address = host +:+ ":" +:+ port
       ∧ PyStr.count ":" host = O ∧ PyStr.count ":" port = O
       ∧ PyStr.int port = None) →
  connect R w = (w, Raise ValueError).
Proof.
  intros address Huser Hpass Hbad.
  assert (PyStr.contains ":" address = true) as Hcolon.
  { rewrite contains_count. apply bool_decide_eq_true_2.
    destruct Hbad as [?|(host & port & -> & _)]; [lia|].
    change (":" +:+ port) with (String ":" port).
    rewrite count_app. simpl. lia. }
  assert (host_and_port address = inl ValueError) as Hhp.
  { unfold host_and_port. rewrite contains_strip, Hcolon by reflexivity.
    destruct Hbad as [Hmany|(host & port & -> & Hh & Hp & Hn)].
    - pose proof (length_split ":" address) as Hlen.
      destruct (PyStr.split ":" address) as [|a [|b [|c l]]];
        simpl in Hlen; try lia; done.
    - change (":" +:+ port) with (String ":" port).
      rewrite split_app_sep, split_no_sep by done. by rewrite Hn. }
  rewrite connect_checked_fields; [by fold address; rewrite Hhp| |done|done].
  apply (contains_nonempty ":"). by rewrite contains_strip.
Qed.

Lemma connect_malformed_address_witness :
  let w := Sample.fresh {[ "comboAddress" := "fe80::1:8089";
                           "editUsername" := "admin";
                           "editPassword" := "changeme" ]} in
  connect Sample.healthy w = (w, Raise ValueError).
Proof.
  intros w.
  apply (connect_malformed_address Sample.healthy w);
    [discriminate | discriminate | left; vm_compute; lia].
Defined.

(** The login of [connect_to], one request. *)
Lemma login_step R host port user pass w :
  login R host port user pass w
  = (and_requests w [ReqLogin host port user pass],
     match answer_login R (length (net w)) host port user pass with
     | inl e => Raise e
     | inr s => Return s
     end).
Proof.
  unfold login, bind, send. cbn [fst snd].
  by destruct (answer_login _ _ _ _ _ _).
Qed.

(** X6. A login that raises: the status bar ends on "Connection failed",
    the wrapper attribute is not set and no second request is sent.  An
    authentication error, an address error and any other socket error
    each end in one warning box; every other exception leaves [connect]
    without a box. *)
Theorem connect_login_failure (R : Remote) (w : Window)
    (host : string) (port : Z) (user pass : string) (e : Exc) :
  answer_login R (length (net w)) host port user pass = inl e →
  let w' := (connect_to R host port user pass w).1 in
  let shown := "'" +:+ host +:+ ":" +:+ pretty port +:+ "'" in
  net w' = net w ++ [ReqLogin host port user pass]
  ∧ splunkd w' = splunkd w
  ∧ text (ui w') !! "statusbar" = Some "Connection failed"
  ∧ match e with
    | AuthenticationError =>
        (connect_to R host port user pass w).2 = Return ()
        ∧ dialogs w'
          = dialogs w ++ [(Warning, "Authentication error connecting to host "
                                    +:+ shown)]
    | socket_gaierror _ =>
        (connect_to R host port user pass w).2 = Return ()
        ∧ dialogs w'
          = dialogs w ++ [(Warning, "Unable to connect to host " +:+ shown)]
    | socket_error error =>
        (connect_to R host port user pass w).2 = Return ()
        ∧ dialogs w'
          = dialogs w ++ [(Warning, "Unable to connect to host " +:+ shown
                                    +:+ ":" +:+ newline +:+ error)]
    | _ =>
        (connect_to R host port user pass w).2 = Raise e
        ∧ dialogs w' = dialogs w
    end.
Proof.
  intros Hlogin w' shown. unfold w'. clear w'.
  remember (connect_to R host port user pass w) as r eqn:Hr.
  unfold connect_to in Hr.
  unfold bind at 1, try_or_return, statusbar_msg at 1, gui at 1 in Hr.
  rewrite login_step in Hr. cbn [net] in Hr. rewrite Hlogin in Hr.
  destruct e;
    unfold bind, warning_msg, show_dialog, statusbar_msg, gui, raise in Hr;
    cbn [fst snd splunkd ui dialogs net and_requests] in Hr;
    rewrite !apply_ops_singleton in Hr; subst r;
    cbn [fst snd splunkd ui dialogs net]; rewrite ?text_apply_op_setText;
    (split; [done|]); (split; [done|]);
    (split; [apply lookup_insert_eq|]); done.
Qed.

Lemma connect_login_failure_witness :
  let R := Faulty.login_raises AuthenticationError in
  let w' := (connect_to R "idx1" 8089 "admin" "wrong" (Sample.fresh ∅)).1 in
  net w' = [ReqLogin "idx1" 8089 "admin" "wrong"] ∧ splunkd w' = None.
Proof.
  intros R w'.
  destruct (connect_login_failure R (Sample.fresh ∅) "idx1" 8089 "admin" "wrong"
              AuthenticationError eq_refl) as (H1 & H2 & _).
  split; [exact H1 | exact H2].
Defined.

(** X7. A login that goes well followed by a first poll whose probe
    raises: [poll] tears the window down and returns, and [connect] then
    reads the server name of a wrapper object that is gone: it is left by
    an [AttributeError], after the critical box of [poll]. *)
Theorem connect_first_poll_fails (R : Remote) (w : Window)
    (host : string) (port : Z) (user pass : string) (s : Splunkd.t) (e : Exc) :
  answer_login R (length (net w)) host port user pass = inr s →
  answer_settings R (S (length (net w))) s = Some e →
  let w' := (connect_to R host port user pass w).1 in
  (connect_to R host port user pass w).2 = Raise AttributeError
  ∧ splunkd w' = None
  ∧ net w' = net w ++ [ReqLogin host port user pass; ReqSettings]
  ∧ ∃ msg, dialogs w' = dialogs w ++ [(Critical, msg)].
Proof.
  intros Hlogin Hprobe w'. unfold w'. clear w'.
  remember (connect_to R host port user pass w) as r eqn:Hr.
  unfold connect_to in Hr.
  unfold bind at 1, try_or_return, statusbar_msg at 1, gui at 1 in Hr.
  rewrite login_step in Hr. cbn [net] in Hr. rewrite Hlogin in Hr.
  unfold bind at 1 2 3, set_splunkd, statusbar_msg, gui in Hr.
  cbn [fst snd splunkd ui dialogs net and_requests] in Hr.
  unfold bind at 1 in Hr.
  cbn [splunkd ui dialogs net] in Hr.
  unfold bind at 1 in Hr.
  match type of Hr with context [poll R ?w0] =>
    assert (service_settings R w0
            = (and_requests w0 [ReqSettings], Raise e)) as Hs end.
  { rewrite (service_settings_connected R _ s) by done. cbn [net].
    rewrite length_app. cbn [length]. rewrite Nat.add_1_r. by rewrite Hprobe. }
  rewrite (poll_probe_raised R _ _ e Hs), disconnect_spec in Hr.
  unfold bind, get_splunkd in Hr.
  cbn [fst snd splunkd dialogs net and_dialog and_requests] in Hr.
  subst r. cbn [fst snd splunkd dialogs net].
  split; [done|]. split; [done|]. split; [by rewrite <- app_assoc|].
  eauto.
Qed.

Lemma connect_first_poll_fails_witness :
  let R := Faulty.probe_raises (socket_error "timed out") in
  (connect_to R "idx1" 8089 "admin" "changeme" (Sample.fresh ∅)).2
  = Raise AttributeError.
Proof.
  intros R.
  exact (proj1 (connect_first_poll_fails R (Sample.fresh ∅) "idx1" 8089 "admin"
                  "changeme" Sample.indexer (socket_error "timed out")
                  eq_refl eq_refl)).
Defined.

(** X27. A [connect] that returns normally after a login that went well:
    the wrapper object is still there after the first poll, and the window
    title and the two cluster tabs are set from the wrapper object as that
    poll left it: the title is its server name followed by
    " - Misner Splunk Tool", the Indexer Cluster tab is enabled exactly
    when it has the role [cluster_master], the Search Head Cluster tab
    exactly when it has the role [shc_member]. *)
Theorem connect_sets_title (R : Remote) (w : Window)
    (host : string) (port : Z) (user pass : string) (s : Splunkd.t) :
  answer_login R (length (net w)) host port user pass = inr s →
  (connect_to R host port user pass w).2 = Return () →
  let w' := (connect_to R host port user pass w).1 in
  ∃ s', splunkd w' = Some s'
        ∧ windowTitle (ui w')
          = Splunkd.server_name (Splunkd.fields s') +:+ " - Misner Splunk Tool"
        ∧ enabled (ui w') !! "tabCluster"
          = Some (has_role "cluster_master" (Splunkd.fields s'))
        ∧ enabled (ui w') !! "tabSHCluster"
          = Some (has_role "shc_member" (Splunkd.fields s')).
Proof.
  intros Hlogin Hreturn w'. unfold w'. clear w'. revert Hreturn.
  remember (connect_to R host port user pass w) as r eqn:Hr.
  unfold connect_to in Hr.
  unfold bind at 1, try_or_return, statusbar_msg at 1, gui at 1 in Hr.
  rewrite login_step in Hr. cbn [net] in Hr. rewrite Hlogin in Hr.
  unfold bind at 1 2 3, set_splunkd, statusbar_msg, gui in Hr.
  cbn [fst snd splunkd ui dialogs net and_requests] in Hr.
  unfold bind at 1 in Hr.
  cbn [splunkd ui dialogs net] in Hr.
  unfold bind at 1 in Hr.
  match type of Hr with context [poll R ?w0] =>
    destruct (poll R w0) as [w2 [[]|e]] end;
    [|subst r; by intros [=]].
  unfold bind, get_splunkd in Hr.
  destruct (splunkd w2) as [s'|] eqn:Hs'; [|subst r; by intros [=]].
  subst r. intros _. exists s'. cbn [fst splunkd ui].
  split; [done|]. rewrite !apply_ops_cons. change (apply_ops [] ?u) with u.
  split; [done|]. split; [|apply lookup_insert_eq].
  cbn [apply_op enabled]. rewrite lookup_insert_ne by done.
  apply lookup_insert_eq.
Qed.

Lemma connect_sets_title_witness :
  let w' := (connect_to Sample.healthy "idx1" 8089 "admin" "changeme"
               (Sample.fresh ∅)).1 in
  ∃ s', splunkd w' = Some s'
        ∧ windowTitle (ui w')
          = Splunkd.server_name (Splunkd.fields s') +:+ " - Misner Splunk Tool"
        ∧ enabled (ui w') !! "tabCluster"
          = Some (has_role "cluster_master" (Splunkd.fields s'))
        ∧ enabled (ui w') !! "tabSHCluster"
          = Some (has_role "shc_member" (Splunkd.fields s')).
Proof.
  apply (connect_sets_title Sample.healthy (Sample.fresh ∅) "idx1" 8089 "admin"
           "changeme" Sample.indexer eq_refl).
  vm_compute. reflexivity.
Defined.

(** ** The probe that opens the handlers *)

(** The probe raised: only an authentication error is caught. *)
Lemma connection_checked_raises R k w s e :
  splunkd w = Some s →
  answer_settings R (length (net w)) s = Some e →
  connection_checked R k w
  = match e with
    | AuthenticationError =>
        (and_dialog (disconnect (and_requests w [ReqSettings])).1 Critical
           "Splunk connection reset", Return ())
    | _ => (and_requests w [ReqSettings], Raise e)
    end.
Proof.
  intros Hs Hprobe. unfold connection_checked, try_or_return.
  rewrite (service_settings_connected R w s Hs), Hprobe.
  by destruct e.
Qed.

Lemma connection_checked_absent R k w :
  splunkd w = None → connection_checked R k w = (w, Raise AttributeError).
Proof.
  intros Hs. unfold connection_checked, try_or_return.
  by rewrite (service_settings_absent R w Hs).
Qed.

(** X8. The four handlers that open with the probe (configuration file
    chosen, restart, deployment server, REST send), on a connected window
    whose probe raises: an authentication error tears the window down as
    [disconnect] does, shows "Splunk connection reset" and ends the handler
    normally; every other exception, a socket error included, is not
    caught: it leaves the handler with the wrapper object in place and no
    box shown.  In both cases the probe is the only request sent. *)
Theorem handlers_failed_probe (R : Remote) (w : Window) (s : Splunkd.t)
    (e : Exc) (target : string) (not_cancelled answer : bool) :
  splunkd w = Some s →
  answer_settings R (length (net w)) s = Some e →
  let after :=
    match e with
    | AuthenticationError =>
        (and_dialog (disconnect (and_requests w [ReqSettings])).1 Critical
           "Splunk connection reset", Return ())
    | _ => (and_requests w [ReqSettings], Raise e)
    end in
  comboConfig_activated R w = after
  ∧ actionRestartSplunkd_clicked R answer w = after
  ∧ actionChangeDeploymentServer_clicked R target not_cancelled answer w = after
  ∧ buttonRestSend_clicked R w = after
  ∧ net after.1 = net w ++ [ReqSettings]
  ∧ splunkd after.1 = match e with
                      | AuthenticationError => None
                      | _ => Some s
                      end.
Proof.
  intros Hs Hprobe after.
  repeat (split; [by apply (connection_checked_raises R _ w s e)|]).
  unfold after. destruct e; cbn [fst net splunkd and_requests];
    try (by rewrite Hs).
  rewrite disconnect_spec. done.
Qed.

Lemma handlers_failed_probe_witness :
  let R := Faulty.probe_raises (socket_error "timed out") in
  let w := Sample.connected Sample.indexer ∅ in
  buttonRestSend_clicked R w
  = (and_requests w [ReqSettings], Raise (socket_error "timed out")).
Proof.
  intros R w.
  exact (proj1 (proj2 (proj2 (proj2
           (handlers_failed_probe R w Sample.indexer (socket_error "timed out")
              "" true true eq_refl eq_refl))))).
Defined.

(** X9. The same four handlers on a window without wrapper object: each
    is left by the [AttributeError] of the probe; nothing is sent, nothing
    is shown and the window is untouched. *)
Theorem handlers_without_session (R : Remote) (w : Window)
    (target : string) (not_cancelled answer : bool) :
  splunkd w = None →
  comboConfig_activated R w = (w, Raise AttributeError)
  ∧ actionRestartSplunkd_clicked R answer w = (w, Raise AttributeError)
  ∧ actionChangeDeploymentServer_clicked R target not_cancelled answer w
    = (w, Raise AttributeError)
  ∧ buttonRestSend_clicked R w = (w, Raise AttributeError).
Proof.
  intros Hs. repeat split; by apply connection_checked_absent.
Qed.

Lemma handlers_without_session_witness :
  let w := Sample.fresh ∅ in
  actionRestartSplunkd_clicked Sample.healthy true w = (w, Raise AttributeError).
Proof.
  intros w.
  exact (proj1 (proj2 (handlers_without_session Sample.healthy w "" true true
                         eq_refl))).
Defined.

(** ** [actionRestartSplunkd_clicked] *)

(** X10. The restart handler on a connected window whose probe goes well:
    the question names the host of the wrapper object.  Declined: nothing
    more is sent and the window is otherwise as it was.  Accepted: the
    restart request follows; when it returns the window is torn down as by
    [disconnect], when it raises an error box is shown and the wrapper
    object stays.  The handler always ends normally. *)
Theorem restart_handler (R : Remote) (w : Window) (s : Splunkd.t)
    (answer : bool) :
  splunkd w = Some s →
  answer_settings R (length (net w)) s = None →
  let asked :=
    and_dialog (and_requests w [ReqSettings]) Question
      ("Are you sure you want to restart splunkd on '"
       +:+ Splunkd.host (Splunkd.fields s) +:+ "'?") in
  actionRestartSplunkd_clicked R answer w
  = if answer then
      match answer_restart R (S (length (net w))) s with
      | None => disconnect (and_requests asked [ReqRestart])
      | Some _ =>
          (and_dialog (and_requests asked [ReqRestart]) Critical
             "Error while attempting to restart splunkd", Return ())
      end
    else (asked, Return ()).
Proof.
  intros Hs Hprobe asked. unfold actionRestartSplunkd_clicked.
  rewrite (connection_checked_ok R _ w s Hs Hprobe).
  unfold try_or_return, bind at 1, get_splunkd at 1.
  cbn [splunkd and_requests]. rewrite Hs.
  unfold bind at 1, question_msg_yesno, bind at 1, show_dialog at 1, ret at 1.
  destruct answer; [|unfold asked; window_eq].
  unfold bind at 1.
  rewrite (service_restart_connected R _ s) by (cbn [splunkd and_requests]; exact Hs).
  cbn [net and_requests]. rewrite length_app. cbn [length]. rewrite Nat.add_1_r.
  destruct (answer_restart R (S (length (net w))) s).
  - unfold asked. window_eq.
  - rewrite !disconnect_spec. unfold asked. window_eq.
Qed.

Lemma restart_handler_witness :
  let w := Sample.connected Sample.indexer ∅ in
  actionRestartSplunkd_clicked Sample.healthy false w
  = (and_dialog (and_requests w [ReqSettings]) Question
       ("Are you sure you want to restart splunkd on '"
        +:+ Splunkd.host (Splunkd.fields Sample.indexer) +:+ "'?"), Return ()).
Proof.
  intros w.
  exact (restart_handler Sample.healthy w Sample.indexer false eq_refl eq_refl).
Defined.

(** ** The parser of the ad-hoc query, continued *)

(** The only failure of the loop over the pairs is a [ValueError], and it
    is raised exactly when some pair does not have one ['=']. *)
Lemma parse_parameters_failure (pairs : list string)
    (parameters : gmap string string) :
  match parse_parameters pairs parameters with
  | inl e => e = ValueError ∧ Exists (λ p, PyStr.count "=" p ≠ 1%nat) pairs
  | inr _ => Forall (λ p, PyStr.count "=" p = 1%nat) pairs
  end.
Proof.
  revert parameters. induction pairs as [|p pairs IH]; intros parameters.
  - constructor.
  - cbn [parse_parameters]. pose proof (length_split "=" p) as Hlen.
    destruct (PyStr.split "=" p) as [|k [|v [|? ?]]]; simpl in Hlen;
      try (split; [done|]; apply Exists_cons_hd; lia).
    specialize (IH (<[k:=v]> parameters)).
    destruct (parse_parameters pairs _).
    + destruct IH. split; [done|]. by apply Exists_cons_tl.
    + constructor; [lia|done].
Qed.

(** A text with one [c] is the text before it, [c], and the text after
    it. *)
Lemma split_one c (s : string) :
  PyStr.count c s = 1%nat →
  ∃ a b, s = a +:+ String c b ∧ PyStr.split c s = [a; b]
         ∧ PyStr.count c a = O ∧ PyStr.count c b = O.
Proof.
  intros Hone. pose proof (length_split c s) as Hlen.
  pose proof (join_split c s) as Hjoin.
  destruct (PyStr.split c s) as [|a [|b [|? ?]]] eqn:Hsplit; simpl in Hlen;
    try lia.
  exists a, b.
  assert (s = a +:+ String c b) as Hs.
  { rewrite <- Hjoin. cbn [PyStr.join]. done. }
  split; [done|]. split; [done|].
  rewrite Hs, count_app in Hone. simpl PyStr.count in Hone.
  rewrite Ascii.eqb_refl in Hone. lia.
Qed.

(** X11. The query of the REST tab is refused exactly when it has two or
    more ['?'], or one ['?'] followed by a query in which some pair between
    ['&'] does not have exactly one ['='] (so also an empty query, and an
    empty pair); the refusal is always a [ValueError]. *)
Theorem parse_uri_failure (uri : string) :
  (parse_uri uri = inl ValueError
   ↔ (2 ≤ PyStr.count "?" uri)%nat
     ∨ ∃ path q, uri = path +:+ "?" +:+ q
         ∧ PyStr.count "?" path = O ∧ PyStr.count "?" q = O
         ∧ Exists (λ p, PyStr.count "=" p ≠ 1%nat) (PyStr.split "&" q))
  ∧ ∀ e, parse_uri uri = inl e → e = ValueError.
Proof.
  assert (∀ e, parse_uri uri = inl e → e = ValueError) as Hexc.
  { intros e. unfold parse_uri.
    destruct (PyStr.contains "?" uri); [|done].
    destruct (PyStr.split "?" uri) as [|a [|b [|? ?]]]; try congruence.
    pose proof (parse_parameters_failure (PyStr.split "&" b) ∅) as H.
    destruct (parse_parameters _ _); [|done]. destruct H. congruence. }
  split; [|exact Hexc]. split.
  - intros Hfail. destruct (decide (2 ≤ PyStr.count "?" uri)%nat) as [|Hfew];
      [by left|right].
    unfold parse_uri in Hfail. rewrite contains_count in Hfail.
    case_bool_decide as Hsome; [|done].
    destruct (split_one "?" uri) as (path & q & Huri & Hsplit & Hpath & Hq);
      [lia|].
    exists path, q. split; [done|]. split; [done|]. split; [done|].
    rewrite Hsplit in Hfail.
    pose proof (parse_parameters_failure (PyStr.split "&" q) ∅) as H.
    destruct (parse_parameters _ _); [|done]. by destruct H.
  - intros [Hmany|(path & q & -> & Hpath & Hq & Hbad)].
    + by apply parse_uri_question_marks.
    + unfold parse_uri.
      rewrite contains_question_mark, split_question_mark by done.
      pose proof (parse_parameters_failure (PyStr.split "&" q) ∅) as H.
      destruct (parse_parameters _ _) as [e|parameters]; [by destruct H as [-> _]|].
      exfalso. apply Exists_exists in Hbad as (p & Hin & Hp).
      rewrite Forall_forall in H. by apply Hp, H.
Qed.

(** ** [buttonRestSend_clicked], continued *)

Section RestSendAnswer.

Context (R : Remote) (w : Window) (s : Splunkd.t).
Hypothesis connected : splunkd w = Some s.
Hypothesis probe_ok : answer_settings R (length (net w)) s = None.


End RestSendAnswer.





(** ** The requests of [poll], in order *)

Section Traces.

Context {A B : Type}.
Implicit Types (m : M A) (k : A → M B) (l : list Request).

Lemma silent_sends_only m : silent m → sends_only m.
Proof. intros H w. exists []. by rewrite app_nil_r. Qed.

Lemma silent_ret (a : A) : silent (ret a).
Proof. done. Qed.

Lemma silent_raise (e : Exc) : silent (raise (A:=A) e).
Proof. done. Qed.

Lemma silent_of_option o (a : A) : silent (of_option o a).
Proof. by destruct o. Qed.

Lemma silent_of_sum (r : Exc + A) : silent (of_sum r).
Proof. by destruct r. Qed.

Lemma silent_bind m k : silent m → (∀ a, silent (k a)) → silent (bind m k).
Proof.
  intros Hm Hk w. unfold bind. specialize (Hm w).
  destruct (m w) as [w' [a|e]]; cbn [fst] in *; [|done].
  by rewrite Hk.
Qed.

Lemma silent_try_or_return m h k :
  silent m → (∀ e c, h e = Some c → silent c) → (∀ a, silent (k a)) →
  silent (try_or_return m h k).
Proof.
  intros Hm Hh Hk w. unfold try_or_return. specialize (Hm w).
  destruct (m w) as [w' [a|e]]; cbn [fst] in *; [by rewrite Hk|].
  destruct (h e) as [c|] eqn:E; [|done]. by rewrite (Hh e c E).
Qed.

Lemma silent_completes m : silent m → completes m [].
Proof. intros H w. exists O. rewrite H. by rewrite app_nil_r. Qed.

Lemma completes_follows m l : completes m l → follows m (λ l', l' = l).
Proof. intros H w. destruct (H w) as (k & Hk & _). by exists l, k. Qed.

(** Sequencing: the requests of the first part, then those of the
    second. *)
Lemma completes_bind m k l1 l2 :
  completes m l1 → (∀ a, completes (k a) l2) → completes (bind m k) (l1 ++ l2).
Proof.
  intros Hm Hk w. unfold bind. destruct (Hm w) as (k1 & Hnet & Hall).
  destruct (m w) as [w' [a|e]]; cbn [fst snd] in *.
  - specialize (Hall a eq_refl). destruct (Hk a w') as (k2 & Hnet2 & Hall2).
    exists (length l1 + k2)%nat. split.
    + rewrite Hnet2, Hnet, Hall, <- app_assoc. f_equal.
      by rewrite take_app_add.
    + intros b Hb. rewrite take_app_add. f_equal. by apply (Hall2 b).
  - exists (k1 `min` length l1)%nat. split; [|done].
    rewrite Hnet. f_equal.
    rewrite take_app_le by lia. by rewrite <- take_take, firstn_all.
Qed.

Lemma follows_try_or_return m h k l1 (L : list Request → Prop) l0 :
  L l0 → completes m l1 → (∀ e c, h e = Some c → silent c) →
  (∀ a, follows (k a) L) →
  follows (try_or_return m h k) (λ l, ∃ l2, L l2 ∧ l = l1 ++ l2).
Proof.
  intros HL0 Hm Hh Hk w. unfold try_or_return.
  destruct (Hm w) as (k1 & Hnet & Hall).
  destruct (m w) as [w' [a|e]]; cbn [fst snd] in *.
  - specialize (Hall a eq_refl). destruct (Hk a w') as (l2 & k2 & HL & Hnet2).
    exists (l1 ++ l2), (length l1 + k2)%nat. split; [by exists l2|].
    rewrite Hnet2, Hnet, Hall, <- app_assoc. f_equal. by rewrite take_app_add.
  - exists (l1 ++ l0), (k1 `min` length l1)%nat. split; [by exists l0|].
    assert (take (k1 `min` length l1) (l1 ++ l0) = take k1 l1) as ->.
    { rewrite take_app_le by lia. by rewrite <- take_take, firstn_all. }
    destruct (h e) as [c|] eqn:E; [|done]. by rewrite (Hh e c E).
Qed.

Lemma follows_bind_completes m k l1 (L : list Request → Prop) l0 :
  L l0 → completes m l1 → (∀ a, follows (k a) L) →
  follows (bind m k) (λ l, ∃ l2, L l2 ∧ l = l1 ++ l2).
Proof.
  intros HL0 Hm Hk.
  by apply (follows_try_or_return m (λ _, None) k l1 L l0).
Qed.

Lemma follows_bind_silent_l m k (L : list Request → Prop) l0 :
  L l0 → silent m → (∀ a, follows (k a) L) → follows (bind m k) L.
Proof.
  intros HL0 Hm Hk w. unfold bind. specialize (Hm w).
  destruct (m w) as [w' [a|e]]; cbn [fst] in *.
  - destruct (Hk a w') as (l & n & HL & Hnet). exists l, n. by rewrite <- Hm.
  - exists l0, O. by rewrite Hm, app_nil_r.
Qed.

Lemma follows_bind_silent_r m k (L : list Request → Prop) :
  follows m L → (∀ a, silent (k a)) → follows (bind m k) L.
Proof.
  intros Hm Hk w. unfold bind. destruct (Hm w) as (l & n & HL & Hnet).
  destruct (m w) as [w' [a|e]]; cbn [fst] in *; exists l, n;
    by rewrite ?Hk.
Qed.

Lemma follows_weaken m (L L' : list Request → Prop) :
  follows m L → (∀ l, L l → L' l) → follows m L'.
Proof.
  intros Hm HL w. destruct (Hm w) as (l & n & Hl & Hnet).
  exists l, n. eauto.
Qed.

End Traces.

Lemma silent_gui ops : silent (gui ops).
Proof. done. Qed.

Lemma silent_show_dialog kind msg : silent (show_dialog kind msg).
Proof. done. Qed.

Lemma silent_set_splunkd o : silent (set_splunkd o).
Proof. done. Qed.

Lemma silent_get_splunkd : silent get_splunkd.
Proof. intros w. unfold get_splunkd. by destruct (splunkd w). Qed.

Lemma silent_widget_text name : silent (widget_text name).
Proof. done. Qed.

Lemma silent_widget_items name : silent (widget_items name).
Proof. done. Qed.

Lemma silent_statusbar_msg msg : silent (statusbar_msg msg).
Proof. done. Qed.

Lemma silent_critical_msg msg : silent (critical_msg msg).
Proof. done. Qed.

Lemma silent_warning_msg msg : silent (warning_msg msg).
Proof. done. Qed.

Lemma silent_disconnect : silent disconnect.
Proof. done. Qed.

Create HintDb silent discriminated.

#[local] Hint Resolve silent_ret silent_raise silent_of_option silent_of_sum
  silent_gui silent_show_dialog silent_set_splunkd silent_get_splunkd
  silent_widget_text silent_widget_items silent_statusbar_msg
  silent_critical_msg silent_warning_msg silent_disconnect : silent.

(** Decomposes a handler that sends nothing along its binds, branches and
    clauses. *)
Ltac silent_step :=
  match goal with
  | |- silent (bind _ _) => apply silent_bind; [|intros ?]
  | |- silent (try_or_return _ _ _) =>
      apply silent_try_or_return;
      [|intros ? ? ?; repeat case_match; simplify_eq|intros ?]
  | |- silent (let _ := _ in _) => cbv zeta
  | |- silent (if ?b then _ else _) => destruct b
  | |- silent (match ?x with _ => _ end) => destruct x
  | |- silent _ => solve [auto with silent]
  end.

Ltac silent_tac := repeat silent_step.

Lemma silent_table_row table entry row column fields :
  silent (table_row table entry row column fields).
Proof.
  revert column. induction fields as [|f fields IH]; intros column; simpl.
  - apply silent_ret.
  - silent_tac.
Qed.

Lemma silent_table_rows table collection row fields :
  silent (table_rows table collection row fields).
Proof.
  revert row. induction collection as [|entry collection IH]; intros row; simpl.
  - apply silent_ret.
  - pose proof silent_table_row. silent_tac.
Qed.

Lemma silent_table_builder table collection fields :
  silent (table_builder table collection fields).
Proof. unfold table_builder. pose proof silent_table_rows. silent_tac. Qed.

Lemma silent_table_of_attr table collection fields :
  silent (table_of_attr table collection fields).
Proof. unfold table_of_attr. pose proof silent_table_builder. silent_tac. Qed.

Lemma silent_checkCluster_clicked : silent checkCluster_clicked.
Proof. unfold checkCluster_clicked. silent_tac. Qed.

Lemma silent_checkSHCluster_clicked : silent checkSHCluster_clicked.
Proof. unfold checkSHCluster_clicked. silent_tac. Qed.

#[local] Hint Resolve silent_table_builder silent_table_of_attr
  silent_checkCluster_clicked silent_checkSHCluster_clicked : silent.

Lemma silent_socket_error_clause e c :
  socket_error_clause e = Some c → silent c.
Proof.
  unfold socket_error_clause. destruct (as_socket_error e); [|done].
  by intros [= <-].
Qed.

(** One request, sent when the wrapper object is there. *)
Lemma completes_request {A} (r : Request) (answer : nat → Splunkd.t → M A) :
  (∀ t s, silent (answer t s)) →
  completes (s ← get_splunkd ; t ← send r ; answer t s)%handler [r].
Proof.
  intros Hanswer w. unfold bind, get_splunkd, send.
  destruct (splunkd w) as [s|]; cbn [fst snd].
  - exists 1%nat. split; [|done].
    match goal with |- context [answer ?t ?s ?w'] =>
      pose proof (Hanswer t s w') as H;
      destruct (answer t s w') as [w'' o] end.
    cbn [fst] in *. by rewrite H.
  - exists O. split; [by rewrite app_nil_r|done].
Qed.

Lemma completes_service_settings R :
  completes (service_settings R) [ReqSettings].
Proof.
  apply (completes_request ReqSettings (λ t s, of_option (answer_settings R t s) ())).
  intros t s. apply silent_of_option.
Qed.

Lemma completes_service_restart_required R :
  completes (service_restart_required R) [ReqRestartRequired].
Proof.
  apply (completes_request ReqRestartRequired
           (λ t s, of_sum (answer_restart_required R t s))).
  intros t s. apply silent_of_sum.
Qed.

Lemma completes_sub_poll R step : completes (sub_poll R step) [ReqPoll step].
Proof.
  apply (completes_request (ReqPoll step)
           (λ t s, set_splunkd (Some (answer_poll R t step s).1) ;;
                   of_option (answer_poll R t step s).2 ())%handler).
  intros t s. silent_tac.
Qed.

Lemma completes_sub_polls R steps :
  completes (sub_polls R steps) (ReqPoll <$> (snd <$> steps)).
Proof.
  induction steps as [|[msg step] steps IH]; cbn [sub_polls fmap list_fmap snd].
  - apply silent_completes, silent_ret.
  - apply (completes_bind _ _ [] (ReqPoll step :: _)).
    { apply silent_completes, silent_statusbar_msg. }
    intros _. apply (completes_bind _ _ [ReqPoll step]); [|done].
    apply completes_sub_poll.
Qed.

(** [comboConfig_activated]: the probe, then the request for the file
    that the box names. *)
Lemma follows_comboConfig_activated R :
  follows (comboConfig_activated R) (λ l, ∃ f, l = [ReqSettings; ReqKvpairs f]).
Proof.
  intros w. unfold comboConfig_activated, connection_checked, try_or_return.
  destruct (completes_service_settings R w) as (k & Hnet & Hall).
  destruct (service_settings R w) as [w1 [[]|e]]; cbn [fst snd] in *.
  - specialize (Hall () eq_refl). rewrite Hall in Hnet.
    pose proof (completes_request (ReqKvpairs (text_of (ui w1) "comboConfig"))
      (λ t s, data ← of_sum (answer_kvpairs R t (text_of (ui w1) "comboConfig") s) ;
              gui [setText "editConfig" data] ;;
              statusbar_msg ("Poll for '" +:+ text_of (ui w1) "comboConfig"
                             +:+ "' configuration values complete"))%handler)
      as Hreq.
    assert (completes _ _) as Hcompletes
      by (apply Hreq; intros t s; cbv beta; silent_tac).
    clear Hreq. unfold bind at 1 2, widget_text, statusbar_msg at 1, gui at 1.
    cbn [fst snd].
    match goal with |- context [net (?m ?w2).1] =>
      destruct (Hcompletes w2) as (k2 & Hnet2 & _) end.
    exists [ReqSettings; ReqKvpairs (text_of (ui w1) "comboConfig")], (S k2).
    split; [by eexists|].
    rewrite Hnet2. cbn [net]. rewrite Hnet, <- app_assoc. done.
  - exists [ReqSettings; ReqKvpairs ""], (k `min` 1)%nat.
    split; [by eexists|].
    assert (take (k `min` 1) [ReqSettings; ReqKvpairs ""]
            = take k [ReqSettings]) as -> by (by destruct k as [|[|?]]).
    destruct e; try done.
Qed.

(** The part of [poll] after the sub-polls. *)
Lemma follows_populate_gui R :
  follows (populate_gui R)
    (λ l, ∃ f, l = [ReqRestartRequired; ReqSettings; ReqKvpairs f]).
Proof.
  unfold populate_gui.
  apply (follows_bind_silent_l _ _ _ [ReqRestartRequired; ReqSettings; ReqKvpairs ""]);
    [by eexists|silent_tac|intros _].
  apply (follows_bind_silent_l _ _ _ [ReqRestartRequired; ReqSettings; ReqKvpairs ""]);
    [by eexists|silent_tac|intros s]. cbv zeta.
  apply (follows_bind_silent_l _ _ _ [ReqRestartRequired; ReqSettings; ReqKvpairs ""]);
    [by eexists|silent_tac|intros _].
  eapply follows_weaken.
  { apply (follows_bind_completes _ _ [ReqRestartRequired]
             (λ l, ∃ f, l = [ReqSettings; ReqKvpairs f])
             [ReqSettings; ReqKvpairs ""]);
      [by eexists | apply completes_service_restart_required | intros rr].
    do 5 (apply (follows_bind_silent_l _ _ _ [ReqSettings; ReqKvpairs ""]);
          [by eexists|silent_tac|intros _]).
    apply follows_bind_silent_r; [apply follows_comboConfig_activated|intros _].
    silent_tac. }
  intros l (l2 & [f ->] & ->). by exists f.
Qed.

(** The requests of [poll] are first ones of its sequence. *)
Lemma poll_requests R w :
  ∃ k f, net (poll R w).1 = net w ++ take k (poll_trace f).
Proof.
  assert (follows (poll R) (λ l, ∃ f, l = poll_trace f)) as H.
  { unfold poll. eapply follows_weaken.
    - apply (follows_try_or_return _ _ _ [ReqSettings]
               (λ l, ∃ l2, (∃ f, l2 = [ReqRestartRequired; ReqSettings;
                                        ReqKvpairs f])
                           ∧ l = (ReqPoll <$> (snd <$> poll_sequence)) ++ l2)
               ((ReqPoll <$> (snd <$> poll_sequence))
                ++ [ReqRestartRequired; ReqSettings; ReqKvpairs ""])).
      + eexists. split; [by eexists|done].
      + apply completes_service_settings.
      + intros e c Hc. destruct (socket_error_clause e) as [c'|] eqn:E.
        * apply silent_socket_error_clause in E.
          destruct e; simplify_eq; try done.
        * destruct e; by simplify_eq.
      + intros _.
        apply (follows_try_or_return _ _ _ _
                 (λ l, ∃ f, l = [ReqRestartRequired; ReqSettings; ReqKvpairs f])
                 [ReqRestartRequired; ReqSettings; ReqKvpairs ""]).
        * by eexists.
        * apply completes_sub_polls.
        * apply silent_socket_error_clause.
        * intros _. apply follows_populate_gui.
    - intros l (l2 & (l3 & [f ->] & ->) & ->). by exists f. }
  destruct (H w) as (l & k & [f ->] & Hnet). by exists k, f.
Qed.

(** No request of a [poll] changes anything on the server. *)
Lemma poll_trace_reads (f : string) (r : Request) :
  r ∈ poll_trace f →
  match r with
  | ReqLogin _ _ _ _ | ReqRest _ | ReqRestart => False
  | _ => True
  end.
Proof.
  unfold poll_trace. cbn. intros Hin.
  repeat (apply elem_of_cons in Hin as [->|Hin]; [done|]).
  by apply elem_of_nil in Hin.
Qed.


(** ** [comboConfig_activated] *)

(** X14. Choosing a configuration file on a connected window whose probe
    goes well: one request for the file named in the box follows the
    probe.  When it answers, the text is shown in the configuration field
    and the status bar reports the poll complete; when it raises, the
    exception leaves the handler, the configuration field keeps what it
    showed and the status bar is left on "Polling configuration values". *)
Theorem comboConfig_shows_file (R : Remote) (w : Window) (s : Splunkd.t) :
  splunkd w = Some s →
  answer_settings R (length (net w)) s = None →
  let filename := text_of (ui w) "comboConfig" in
  let w' := (comboConfig_activated R w).1 in
  net w' = net w ++ [ReqSettings; ReqKvpairs filename]
  ∧ splunkd w' = Some s
  ∧ dialogs w' = dialogs w
  ∧ match answer_kvpairs R (S (length (net w))) filename s with
    | inr data =>
        (comboConfig_activated R w).2 = Return ()
        ∧ text_of (ui w') "editConfig" = data
        ∧ text_of (ui w') "statusbar"
          = "Poll for '" +:+ filename +:+ "' configuration values complete"
    | inl e =>
        (comboConfig_activated R w).2 = Raise e
        ∧ text_of (ui w') "editConfig" = text_of (ui w) "editConfig"
        ∧ text_of (ui w') "statusbar"
          = "Polling configuration values for '" +:+ filename +:+ "'..."
    end.
Proof.
  intros Hs Hprobe filename w'. unfold w', comboConfig_activated.
  rewrite (connection_checked_ok R _ w s Hs Hprobe).
  unfold bind, widget_text, statusbar_msg, gui, get_splunkd, send.
  cbn [fst snd splunkd ui dialogs net and_requests]. rewrite Hs.
  cbn [fst snd splunkd ui dialogs net]. fold filename.
  rewrite length_app. cbn [length]. rewrite Nat.add_1_r.
  destruct (answer_kvpairs R (S (length (net w))) filename s) as [e|data];
    cbn [of_sum raise ret fst snd splunkd ui dialogs net];
    rewrite <- app_assoc; (split; [done|]); (split; [done|]); (split; [done|]);
    (split; [done|]); rewrite !apply_ops_singleton; unfold text_of;
    rewrite !text_apply_op_setText.
  - split; [by rewrite lookup_insert_ne|by rewrite lookup_insert_eq].
  - split; [|by rewrite lookup_insert_eq].
    rewrite lookup_insert_ne by done. by rewrite lookup_insert_eq.
Qed.

Lemma comboConfig_shows_file_witness :
  let R := Faulty.kvpairs_answers (inr "[general]") in
  let w := Sample.connected Sample.indexer {[ "comboConfig" := "server" ]} in
  net (comboConfig_activated R w).1 = net w ++ [ReqSettings; ReqKvpairs "server"].
Proof.
  intros R w.
  exact (proj1 (comboConfig_shows_file R w Sample.indexer eq_refl eq_refl)).
Defined.

(** ** [actionChangeDeploymentServer_clicked], continued *)

Section ChangeDeploymentServer.

Context (R : Remote) (w : Window) (s : Splunkd.t).
Hypothesis connected : splunkd w = Some s.
Hypothesis probe_ok : answer_settings R (length (net w)) s = None.

(** With a target and both dialogs accepted, the handler is the call, the
    inspection of its answer and the restart. *)
Lemma target_steps (target : string) :
  target ≠ "" →
  let sent := and_requests (asked_to_enable w s target)
                [ReqRest (enable_request target)] in
  actionChangeDeploymentServer_clicked R target true true w
  = match answer_rest R (S (length (net w))) (enable_request target) s with
    | inr (Structured (Some (result_type, result_msg))) =>
        if negb (bool_decide (result_type = "INFO")) then
          (and_dialog sent Critical
             ("Error while attempting to modify deployment server URI:"
              +:+ newline +:+ result_msg), Return ())
        else if PyStr.find_sub "modified 0 key" result_msg then
          (and_dialog sent Critical
             ("Splunkd reports no changes made to deployment server URI:"
              +:+ newline +:+ result_msg), Return ())
        else
          match answer_restart R (S (S (length (net w)))) s with
          | None =>
              (statusbar_msg
                 "Disconnected while splunkd is restarting, try reconnecting in a few moments"
                 (disconnect (and_requests sent [ReqRestart])).1)
          | Some _ =>
              (and_dialog (and_requests sent [ReqRestart])
                 Critical "Error while attempting to restart splunkd", Return ())
          end
    | _ =>
        (and_dialog sent Critical "Error while attempting to restart splunkd",
         Return ())
    end.
Proof.
  intros Htarget sent. unfold actionChangeDeploymentServer_clicked.
  rewrite (connection_checked_ok R _ w s connected probe_ok).
  unfold bind at 1 2, show_dialog at 1, get_splunkd at 1.
  cbn [splunkd and_requests fst snd]. rewrite connected.
  rewrite (bool_decide_eq_false_2 _ Htarget). cbv beta iota zeta.
  unfold bind at 1, question_msg_yesno, bind at 1, show_dialog at 1, ret at 1.
  cbn [fst snd]. unfold try_or_return, bind at 1.
  change ("disabled=" +:+ "0" +:+ "&targetUri=" +:+ target)
    with ("disabled=0&targetUri=" +:+ target).
  fold (enable_request target).
  erewrite rest_call_connected by reflexivity.
  cbn [net and_requests]. rewrite !length_app. cbn [length]. rewrite Nat.add_1_r.
  destruct (answer_rest R (S (length (net w))) (enable_request target) s)
    as [e|[body|[[result_type result_msg]|]]];
    unfold sent, asked_to_enable, asked_for_target.
  - window_eq.
  - window_eq.
  - destruct (negb (bool_decide (result_type = "INFO"))).
    { window_eq. }
    destruct (PyStr.find_sub "modified 0 key" result_msg).
    { window_eq. }
    unfold bind at 1. erewrite service_restart_connected by reflexivity.
    cbn [net and_requests]. rewrite !length_app. cbn [length].
    rewrite !Nat.add_1_r.
    destruct (answer_restart R (S (S (length (net w)))) s).
    + window_eq.
    + unfold bind. rewrite !disconnect_spec. window_eq.
  - window_eq.
Qed.

(** The dialog cancelled, and the question declined. *)
Lemma cancelled_steps (target : string) (answer : bool) :
  actionChangeDeploymentServer_clicked R target false answer w
  = (asked_for_target w, Return ()).
Proof.
  unfold actionChangeDeploymentServer_clicked.
  by rewrite (connection_checked_ok R _ w s connected probe_ok).
Qed.

Lemma declined_steps (target : string) :
  actionChangeDeploymentServer_clicked R target true false w
  = poll R (if bool_decide (target = "")
            then asked_to_disable w s else asked_to_enable w s target).
Proof.
  unfold actionChangeDeploymentServer_clicked.
  rewrite (connection_checked_ok R _ w s connected probe_ok).
  unfold bind at 1 2, show_dialog at 1, get_splunkd at 1.
  cbn [splunkd and_requests fst snd]. rewrite connected.
  case_bool_decide; cbv beta iota zeta;
    unfold bind at 1, question_msg_yesno, bind at 1, show_dialog at 1, ret at 1;
    cbn [fst snd]; f_equal;
    unfold asked_to_disable, asked_to_enable, asked_for_target, and_dialog,
      and_requests; cbn [splunkd ui dialogs net]; by rewrite connected.
Qed.

End ChangeDeploymentServer.

(** X15. The deployment-server change with a target that is not blank,
    both dialogs accepted, on a connected window whose probe goes well: the
    POST carries [disabled=0] and the target exactly as typed.  When the
    call raises, or answers without a message, the box reads "Error while
    attempting to restart splunkd" although no restart was sent; the
    wrapper object stays.  When the answer is informational and does not
    report "modified 0 key", the restart follows at once. *)
Theorem enable_deployment_client (R : Remote) (w : Window) (s : Splunkd.t)
    (target : string) :
  splunkd w = Some s →
  answer_settings R (length (net w)) s = None →
  target ≠ "" →
  let w' := (actionChangeDeploymentServer_clicked R target true true w).1 in
  let answer := answer_rest R (S (length (net w))) (enable_request target) s in
  rest_body_input (enable_request target) = "disabled=0&targetUri=" +:+ target
  ∧ (∃ rest, net w' = net w ++ ReqSettings
                        :: ReqRest (enable_request target) :: rest)
  ∧ ((∀ result_type result_msg,
        answer ≠ inr (Structured (Some (result_type, result_msg)))) →
     net w' = net w ++ [ReqSettings; ReqRest (enable_request target)]
     ∧ splunkd w' = Some s
     ∧ dialogs w'
       = dialogs (asked_to_enable w s target)
         ++ [(Critical, "Error while attempting to restart splunkd")])
  ∧ (∀ result_msg,
       answer = inr (Structured (Some ("INFO", result_msg))) →
       PyStr.find_sub "modified 0 key" result_msg = false →
       net w' = net w ++ [ReqSettings; ReqRest (enable_request target);
                          ReqRestart]
       ∧ (answer_restart R (S (S (length (net w)))) s = None →
          splunkd w' = None)).
Proof.
  intros Hs Hprobe Htarget w' answer. unfold w'.
  rewrite (target_steps R w s Hs Hprobe target Htarget). fold answer.
  split; [done|]. split; [|split].
  - destruct answer as [e|[body|[[result_type result_msg]|]]];
      try (exists [];
           cbn [fst net and_dialog and_requests asked_to_enable asked_for_target];
           by rewrite <- !app_assoc).
    destruct (negb (bool_decide (result_type = "INFO")));
      [exists [];
       cbn [fst net and_dialog and_requests asked_to_enable asked_for_target];
       by rewrite <- !app_assoc|].
    destruct (PyStr.find_sub "modified 0 key" result_msg);
      [exists [];
       cbn [fst net and_dialog and_requests asked_to_enable asked_for_target];
       by rewrite <- !app_assoc|].
    exists [ReqRestart].
    destruct (answer_restart R (S (S (length (net w)))) s).
    + cbn [fst net and_dialog and_requests asked_to_enable asked_for_target].
      by rewrite <- !app_assoc.
    + rewrite disconnect_spec.
      cbn [fst net and_dialog and_requests asked_to_enable asked_for_target
           statusbar_msg gui].
      by rewrite <- !app_assoc.
  - intros Hnone.
    destruct answer as [e|[body|[[result_type result_msg]|]]];
      try (by destruct (Hnone result_type result_msg));
      cbn [fst net splunkd dialogs and_dialog and_requests asked_to_enable
           asked_for_target];
      by rewrite Hs, <- !app_assoc.
  - intros result_msg -> Hmsg. rewrite Hmsg.
    rewrite (bool_decide_eq_true_2 _ (eq_refl "INFO")). cbn [negb].
    destruct (answer_restart R (S (S (length (net w)))) s) as [e|].
    + cbn [fst net splunkd dialogs and_dialog and_requests asked_to_enable
           asked_for_target].
      rewrite <- !app_assoc. by split.
    + rewrite disconnect_spec.
      cbn [fst net splunkd ui dialogs and_dialog and_requests asked_to_enable
           asked_for_target statusbar_msg gui].
      rewrite <- !app_assoc. by split.
Qed.

Lemma enable_deployment_client_witness :
  let R := Faulty.rest_answers (inl (socket_error "timed out")) in
  let w := Sample.connected Sample.indexer ∅ in
  let w' := (actionChangeDeploymentServer_clicked R "10.0.0.1:8089" true true w).1 in
  net w' = net w ++ [ReqSettings; ReqRest (enable_request "10.0.0.1:8089")]
  ∧ splunkd w' = Some Sample.indexer
  ∧ dialogs w'
    = dialogs (asked_to_enable w Sample.indexer "10.0.0.1:8089")
      ++ [(Critical, "Error while attempting to restart splunkd")].
Proof.
  intros R w w'.
  refine (proj1 (proj2 (proj2
            (enable_deployment_client R w Sample.indexer "10.0.0.1:8089"
               eq_refl eq_refl _))) _); [discriminate|].
  intros result_type result_msg. discriminate.
Defined.

(** X16. The deployment-server handler when the user backs out, on a
    connected window whose probe goes well.  Input dialog cancelled:
    nothing but the probe was sent and nothing but the dialog shown.
    Dialog accepted but the question declined: no change is sent; the
    handler runs a full [poll] instead, on the window with the two boxes
    shown, so its result is the one of [poll]. *)
Theorem change_deployment_server_backed_out (R : Remote) (w : Window)
    (s : Splunkd.t) (target : string) (answer : bool) :
  splunkd w = Some s →
  answer_settings R (length (net w)) s = None →
  actionChangeDeploymentServer_clicked R target false answer w
  = (asked_for_target w, Return ())
  ∧ actionChangeDeploymentServer_clicked R target true false w
    = poll R (if bool_decide (target = "")
              then asked_to_disable w s else asked_to_enable w s target)
  ∧ ∀ r, ReqRest r ∉ drop (length (net w))
           (net (actionChangeDeploymentServer_clicked R target true false w).1).
Proof.
  intros Hs Hprobe. split; [by apply (cancelled_steps R w s)|].
  split; [by apply (declined_steps R w s)|].
  intros r. rewrite (declined_steps R w s Hs Hprobe).
  set (w0 := if bool_decide (target = "") then _ else _).
  assert (net w0 = net w ++ [ReqSettings]) as Hnet0
    by (unfold w0; by case_bool_decide).
  destruct (poll_requests R w0) as (k & f & Hnet).
  rewrite Hnet, Hnet0, <- app_assoc, drop_app_length.
  intros Hin. apply elem_of_app in Hin as [Hin|Hin].
  - by apply list_elem_of_singleton in Hin.
  - apply elem_of_take in Hin as (i & Hin & _).
    apply list_elem_of_lookup_2 in Hin.
    exact (poll_trace_reads f (ReqRest r) Hin).
Qed.

Lemma change_deployment_server_backed_out_witness :
  let w := Sample.connected Sample.indexer ∅ in
  actionChangeDeploymentServer_clicked Sample.healthy "10.0.0.1:8089" false true w
  = (asked_for_target w, Return ()).
Proof.
  intros w.
  exact (proj1 (change_deployment_server_backed_out Sample.healthy w
                  Sample.indexer "10.0.0.1:8089" true eq_refl eq_refl)).
Defined.

(** ** [table_builder] *)

Section Tables.

Implicit Types (t : Table) (u : Ui) (entry : gmap string string)
  (collection : list (gmap string string)) (fields : list string).

Lemma table_of_put_table table t u : table_of (put_table table t u) table = t.
Proof. unfold table_of, put_table, with_tables. cbn. by rewrite lookup_insert_eq. Qed.


Lemma put_table_put_table table t t' u :
  put_table table t' (put_table table t u) = put_table table t' u.
Proof.
  unfold put_table, with_tables. cbn. by rewrite insert_insert_eq.
Qed.

Lemma apply_setItem table row column u :
  apply_op (setItem table row column) u
  = put_table table (set_cell row column "" (table_of u table)) u.
Proof. done. Qed.

Lemma apply_setItemText table row column v u :
  apply_op (setItemText table row column v) u
  = put_table table (set_cell row column v (table_of u table)) u.
Proof. done. Qed.

Lemma apply_setRowCount table n u :
  apply_op (setRowCount table n) u
  = put_table table (match n with
                     | O => empty_table
                     | _ => resize n (table_of u table)
                     end) u.
Proof. done. Qed.

Lemma set_cell_set_cell row column v v' t :
  set_cell row column v' (set_cell row column v t) = set_cell row column v' t.
Proof. unfold set_cell. cbn. by rewrite insert_insert_eq. Qed.

(** One row whose entry has every field. *)
Lemma table_row_fills table entry row column fields w t u :
  has_fields fields entry →
  table_row table entry row column fields (with_ui w (put_table table t u))
  = (with_ui w (put_table table (row_cells entry row column fields t) u),
     Return ()).
Proof.
  intros Hfields. revert column t.
  induction Hfields as [|field fields [v Hv] _ IH]; intros column t; [done|].
  cbn [table_row row_cells]. rewrite Hv. cbn [default].
  unfold bind, gui, with_ui. cbn [fst snd splunkd ui dialogs net].
  rewrite !apply_ops_singleton, apply_setItem, table_of_put_table,
    put_table_put_table, apply_setItemText, table_of_put_table,
    put_table_put_table, set_cell_set_cell.
  apply (IH (S column)).
Qed.

(** One row whose entry lacks [field], the fields before it being
    there. *)
Lemma table_row_stops table entry row column before field after w t u :
  has_fields before entry → entry !! field = None →
  table_row table entry row column (before ++ field :: after)
    (with_ui w (put_table table t u))
  = (with_ui w
       (put_table table
          (set_cell row (column + length before) ""
             (row_cells entry row column before t)) u),
     Raise (KeyError field)).
Proof.
  intros Hbefore Hfield. revert column t.
  induction Hbefore as [|f before [v Hv] _ IH]; intros column t.
  - cbn [app table_row row_cells length]. rewrite Hfield, Nat.add_0_r.
    unfold bind, gui, with_ui, raise. cbn [fst snd splunkd ui dialogs net].
    by rewrite !apply_ops_singleton, apply_setItem, table_of_put_table,
      put_table_put_table.
  - cbn [app table_row row_cells length]. rewrite Hv. cbn [default].
    unfold bind, gui, with_ui. cbn [fst snd splunkd ui dialogs net].
    rewrite !apply_ops_singleton, apply_setItem, table_of_put_table,
      put_table_put_table, apply_setItemText, table_of_put_table,
      put_table_put_table, set_cell_set_cell.
    etrans; [apply (IH (S column))|]. by rewrite Nat.add_succ_r.
Qed.


Lemma table_rows_stops table done_rows entry rest row before field after w t u :
  Forall (has_fields (before ++ field :: after)) done_rows →
  has_fields before entry → entry !! field = None →
  table_rows table (done_rows ++ entry :: rest) row (before ++ field :: after)
    (with_ui w (put_table table t u))
  = (with_ui w
       (put_table table
          (set_cell (row + length done_rows) (length before) ""
             (row_cells entry (row + length done_rows) 0 before
                (rows_cells done_rows row (before ++ field :: after) t))) u),
     Raise (KeyError field)).
Proof.
  intros Hdone Hbefore Hfield. revert row t.
  induction Hdone as [|e done_rows He _ IH]; intros row t.
  - cbn [app table_rows rows_cells length]. unfold bind.
    rewrite (table_row_stops _ _ _ _ _ _ _ _ _ _ Hbefore Hfield).
    by rewrite Nat.add_0_r.
  - cbn [app table_rows rows_cells length]. unfold bind.
    rewrite (table_row_fills _ _ _ _ _ _ _ _ He), (IH (S row)).
    by rewrite Nat.add_succ_r.
Qed.

(** The two calls of [setRowCount] that open [table_builder]. *)
Lemma table_builder_opens table collection fields w :
  table_builder table collection fields w
  = table_rows table collection 0 fields
      (with_ui w (put_table table
                    {| rowCount := length collection; cells := ∅ |} (ui w))).
Proof.
  unfold table_builder, bind, gui. cbn [fst snd].
  f_equal. unfold with_ui. cbn [splunkd ui dialogs net]. f_equal.
  rewrite !apply_ops_cons. change (apply_ops [] ?v) with v.
  rewrite !apply_setRowCount, table_of_put_table, put_table_put_table.
  f_equal. by destruct (length collection).
Qed.

(** The cells of the rows filled. *)
Lemma rowCount_row_cells entry row column fields t :
  rowCount (row_cells entry row column fields t) = rowCount t.
Proof.
  revert column t. induction fields as [|f fields IH]; intros column t; [done|].
  cbn [row_cells]. by rewrite IH.
Qed.

Lemma rowCount_rows_cells collection row fields t :
  rowCount (rows_cells collection row fields t) = rowCount t.
Proof.
  revert row t. induction collection as [|e collection IH]; intros row t;
    [done|].
  cbn [rows_cells]. by rewrite IH, rowCount_row_cells.
Qed.

Lemma lookup_row_cells entry row column fields t r c :
  cells (row_cells entry row column fields t) !! (r, c)
  = if decide (r = row ∧ column ≤ c < column + length fields)%nat
    then Some (default "" (entry !! default "" (fields !! (c - column)%nat)))
    else cells t !! (r, c).
Proof.
  revert column t. induction fields as [|f fields IH]; intros column t.
  - cbn [row_cells length]. rewrite decide_False; [done|lia].
  - cbn [row_cells length]. rewrite IH. unfold set_cell. cbn [cells].
    destruct (decide (r = row ∧ S column ≤ c < S column + length fields)%nat)
      as [[-> Hc]|Hout].
    + rewrite decide_True by lia.
      replace (c - column)%nat with (S (c - S column)) by lia. done.
    + destruct (decide (r = row ∧ c = column)) as [[-> ->]|Hne].
      * rewrite lookup_insert_eq, decide_True by lia.
        by rewrite Nat.sub_diag.
      * rewrite lookup_insert_ne by naive_solver.
        rewrite decide_False; [done|lia].
Qed.

Lemma lookup_rows_cells collection row fields t r c :
  cells (rows_cells collection row fields t) !! (r, c)
  = if decide (row ≤ r)%nat then
      match collection !! (r - row)%nat, fields !! c with
      | Some entry, Some field => Some (default "" (entry !! field))
      | _, _ => cells t !! (r, c)
      end
    else cells t !! (r, c).
Proof.
  revert row t. induction collection as [|e collection IH]; intros row t.
  - cbn [rows_cells]. by destruct (decide _).
  - cbn [rows_cells]. rewrite IH.
    destruct (decide (row ≤ r)%nat) as [Hle|Hgt].
    + destruct (decide (S row ≤ r)%nat) as [Hlater|Hnow].
      * replace (r - row)%nat with (S (r - S row)) by lia.
        change ((e :: collection) !! S ?n) with (collection !! n).
        destruct (collection !! (r - S row)%nat), (fields !! c); try done;
          rewrite lookup_row_cells, decide_False by lia; done.
      * assert (r = row) as -> by lia. rewrite Nat.sub_diag.
        change ((e :: collection) !! O) with (Some e).
        rewrite lookup_row_cells, Nat.sub_0_r.
        destruct (fields !! c) as [field|] eqn:Hc.
        -- rewrite decide_True; [done|]. apply lookup_lt_Some in Hc. lia.
        -- rewrite decide_False; [done|]. apply lookup_ge_None in Hc. lia.
    + rewrite decide_False by lia.
      rewrite lookup_row_cells, decide_False by lia. done.
Qed.

End Tables.

(** Decides [has_fields] on given entries. *)
Ltac has_fields_tac :=
  repeat match goal with
         | |- has_fields _ _ => unfold has_fields
         | |- Forall _ (_ ++ _) => cbn [app]
         | |- Forall _ [] => apply List.Forall_nil
         | |- Forall _ (_ :: _) => apply List.Forall_cons
         | |- is_Some _ => eexists; reflexivity
         end.



(** X19. [table_builder] on a collection in which an entry lacks a field,
    the entries before it and the fields before that one being complete:
    it is left by the [KeyError] of that field.  The table keeps the row
    count of the whole collection, the cell of the missing field holds an
    empty item, and the cells after it in the row and all the rows after
    it are empty. *)
Theorem table_builder_missing_field (table : string)
    (done_rows rest : list (gmap string string)) (entry : gmap string string)
    (before after : list string) (field : string) (w : Window) :
  Forall (has_fields (before ++ field :: after)) done_rows →
  has_fields before entry → entry !! field = None →
  let collection := done_rows ++ entry :: rest in
  let fields := before ++ field :: after in
  let w' := (table_builder table collection fields w).1 in
  let t := table_of (ui w') table in
  (table_builder table collection fields w).2 = Raise (KeyError field)
  ∧ rowCount t = length collection
  ∧ cells t !! (length done_rows, length before) = Some ""
  ∧ (∀ c, (length before < c)%nat → cells t !! (length done_rows, c) = None)
  ∧ (∀ r c, (length done_rows < r)%nat → cells t !! (r, c) = None).
Proof.
  intros Hdone Hbefore Hfield collection fields w' t.
  unfold t, w', collection, fields.
  rewrite table_builder_opens,
    (table_rows_stops _ _ _ _ _ _ _ _ _ _ _ Hdone Hbefore Hfield).
  cbn [fst snd with_ui ui]. rewrite table_of_put_table. rewrite Nat.add_0_l.
  change (cells (set_cell ?r ?c ?v ?t0)) with (<[(r, c) := v]> (cells t0)).
  change (rowCount (set_cell ?r ?c ?v ?t0)) with (rowCount t0).
  rewrite rowCount_row_cells, rowCount_rows_cells. cbn [rowCount].
  split; [done|]. split; [done|]. split; [by rewrite lookup_insert_eq|].
  assert (∀ r c, (length done_rows ≤ r)%nat →
            cells (rows_cells done_rows 0 (before ++ field :: after)
                     {| rowCount := length (done_rows ++ entry :: rest);
                        cells := ∅ |}) !! (r, c) = None) as Hlater.
  { intros r c Hr. rewrite lookup_rows_cells, Nat.sub_0_r.
    rewrite decide_True by lia. cbn [cells].
    rewrite (proj2 (lookup_ge_None done_rows r)) by lia. apply lookup_empty. }
  split.
  - intros c Hc. rewrite lookup_insert_ne by (intros [=]; lia).
    rewrite lookup_row_cells, decide_False by lia. by apply Hlater.
  - intros r c Hr. rewrite lookup_insert_ne by (intros [=]; lia).
    rewrite lookup_row_cells, decide_False by lia. apply Hlater. lia.
Qed.

Lemma table_builder_missing_field_witness :
  let w' := (table_builder "tableTCP"
               [ {[ "port" := "9997"; "source" := "fwd1" ]};
                 {[ "port" := "9998" ]};
                 {[ "port" := "9999"; "source" := "fwd3" ]} ]
               ["port"; "source"] (Sample.fresh ∅)).1 in
  cells (table_of (ui w') "tableTCP") !! (1%nat, 1%nat) = Some "".
Proof.
  intros w'.
  refine (proj1 (proj2 (proj2
            (table_builder_missing_field "tableTCP"
               [ {[ "port" := "9997"; "source" := "fwd1" ]} ]
               [ {[ "port" := "9999"; "source" := "fwd3" ]} ]
               {[ "port" := "9998" ]} ["port"] [] "source"
               (Sample.fresh ∅) _ _ eq_refl))));
    has_fields_tac.
Defined.

(** ** [pretty_time_delta] *)

(** The three [divmod]: days, hours below 24, minutes below 60 and
    seconds below 60 that add up to the number. *)
Lemma time_parts_bounds (n : Z) :
  0 ≤ n →
  let '(days, hours, minutes, seconds) := time_parts n in
  n = 86400 * days + 3600 * hours + 60 * minutes + seconds
  ∧ 0 ≤ days ∧ 0 ≤ hours < 24 ∧ 0 ≤ minutes < 60 ∧ 0 ≤ seconds < 60.
Proof.
  intros Hn. unfold time_parts. cbv zeta.
  pose proof (Z.div_mod n 86400 ltac:(lia)).
  pose proof (Z.mod_pos_bound n 86400 ltac:(lia)).
  pose proof (Z.div_mod (n mod 86400) 3600 ltac:(lia)).
  pose proof (Z.mod_pos_bound (n mod 86400) 3600 ltac:(lia)).
  pose proof (Z.div_mod ((n mod 86400) mod 3600) 60 ltac:(lia)).
  pose proof (Z.mod_pos_bound ((n mod 86400) mod 3600) 60 ltac:(lia)).
  pose proof (Z.div_pos n 86400 Hn ltac:(lia)).
  assert (0 ≤ (n mod 86400) / 3600 < 24)
    by (split; [apply Z.div_pos; lia|apply Z.div_lt_upper_bound; lia]).
  assert (0 ≤ ((n mod 86400) mod 3600) / 60 < 60)
    by (split; [apply Z.div_pos; lia|apply Z.div_lt_upper_bound; lia]).
  lia.
Qed.

(** X20. The three [divmod] of [pretty_time_delta] split a non-negative
    number of seconds into the one choice of days, hours below 24,
    minutes below 60 and seconds below 60 that add up to it. *)
Theorem time_parts_sound (n days hours minutes seconds : Z) :
  0 ≤ n →
  time_parts n = (days, hours, minutes, seconds)
  ↔ n = 86400 * days + 3600 * hours + 60 * minutes + seconds
    ∧ 0 ≤ days ∧ 0 ≤ hours < 24 ∧ 0 ≤ minutes < 60 ∧ 0 ≤ seconds < 60.
Proof.
  intros Hn. split.
  - intros Hparts. pose proof (time_parts_bounds n Hn) as H.
    by rewrite Hparts in H.
  - intros (Hsum & Hd & Hh & Hm & Hs). unfold time_parts. cbv zeta.
    assert (n / 86400 = days) as Hdays
      by (symmetry; apply (Z.div_unique_pos n 86400 days
                             (3600 * hours + 60 * minutes + seconds)); lia).
    assert (n mod 86400 = 3600 * hours + 60 * minutes + seconds) as ->
      by (symmetry; apply (Z.mod_unique_pos n 86400 days); lia).
    assert ((3600 * hours + 60 * minutes + seconds) / 3600 = hours) as Hhours
      by (symmetry; apply (Z.div_unique_pos _ 3600 hours
                             (60 * minutes + seconds)); lia).
    assert ((3600 * hours + 60 * minutes + seconds) mod 3600
            = 60 * minutes + seconds) as ->
      by (symmetry; apply (Z.mod_unique_pos _ 3600 hours); lia).
    assert ((60 * minutes + seconds) / 60 = minutes) as Hminutes
      by (symmetry; apply (Z.div_unique_pos _ 60 minutes seconds); lia).
    assert ((60 * minutes + seconds) mod 60 = seconds) as Hseconds
      by (symmetry; apply (Z.mod_unique_pos _ 60 minutes); lia).
    by rewrite Hdays, Hhours, Hminutes, Hseconds.
Qed.

Lemma time_parts_sound_witness :
  time_parts 93784 = (1, 2, 3, 4).
Proof.
  apply (time_parts_sound 93784 1 2 3 4); [lia|]. repeat split; lia.
Defined.

Section TimeText.

Implicit Types (s t x : string) (c d : ascii) (k n : Z).

(** A number is written from a digit on: its text does not begin with a
    blank. *)
Lemma pretty_N_go_head (x : N) s :
  ((x = 0)%N → ∃ d r, s = String d r ∧ PyStr.isspace d = false) →
  ∃ d r, pretty_N_go x s = String d r ∧ PyStr.isspace d = false.
Proof.
  revert s. induction (N.lt_wf_0 x) as [x _ IH]; intros s Hs.
  assert (x = 0 ∨ 0 < x)%N as [->|Hpos] by lia.
  - rewrite pretty_N_go_0. by apply Hs.
  - rewrite pretty_N_go_step by done. apply IH.
    { by apply N.div_lt. }
    intros _. eexists _, _. split; [done|].
    unfold pretty_N_char. by repeat case_match.
Qed.

Lemma pretty_head k :
  0 < k → ∃ d r, pretty k = String d r ∧ PyStr.isspace d = false.
Proof.
  intros Hk. destruct k as [|p|p]; try lia.
  change (pretty (Z.pos p)) with (pretty_N_go (N.pos p) "").
  apply pretty_N_go_head. intros [=].
Qed.

Lemma rstrip_cons c s :
  PyStr.rstrip s ≠ "" → PyStr.rstrip (String c s) = String c (PyStr.rstrip s).
Proof. intros H. cbn [PyStr.rstrip]. by destruct (PyStr.rstrip s). Qed.

Lemma rstrip_head d s :
  PyStr.isspace d = false → PyStr.rstrip (String d s) ≠ "".
Proof.
  intros Hd. cbn [PyStr.rstrip]. destruct (PyStr.rstrip s); [|done].
  by rewrite Hd.
Qed.

Lemma rstrip_app s t :
  PyStr.rstrip t ≠ "" → PyStr.rstrip (s +:+ t) = s +:+ PyStr.rstrip t.
Proof.
  intros Ht. induction s as [|c s IH]; [done|].
  change (String c s +:+ t) with (String c (s +:+ t)).
  rewrite rstrip_cons; rewrite IH; [done|].
  destruct s; [done|discriminate].
Qed.

Lemma append_empty s : s +:+ "" = s.
Proof.
  induction s as [|c s IH]; [done|].
  change (String c (s +:+ "") = String c s). by f_equal.
Qed.

Lemma blank_led_nonempty t : blank_led t → PyStr.rstrip t ≠ "".
Proof. intros [(d & r & -> & _) ->]. done. Qed.

Lemma blank_led_app s t : blank_led s → t = "" ∨ blank_led t → blank_led (s +:+ t).
Proof.
  intros Hs [->|Ht]; [by rewrite append_empty|].
  destruct Hs as [(d & r & -> & Hd) _]. split.
  - by eexists _, _.
  - rewrite rstrip_app by by apply blank_led_nonempty. f_equal. apply Ht.
Qed.

(** The text of one unit: nothing for 0, and otherwise a blank, a number
    and the unit. *)
Lemma unit_text_zero unit : unit_text 0 unit = "".
Proof. done. Qed.

Lemma blank_led_unit_text k unit :
  0 < k → unit ∈ ["day"; "hr"; "min"; "sec"] → blank_led (unit_text k unit).
Proof.
  intros Hk Hunit. unfold unit_text. rewrite (proj2 (Z.ltb_lt 0 k) Hk).
  destruct (pretty_head k Hk) as (d & r & Hpretty & Hd). split.
  - rewrite Hpretty. by eexists _, _.
  - change (" " +:+ pretty k +:+ ?t) with (String " " (pretty k) +:+ t).
    assert (PyStr.rstrip (" " +:+ unit +:+ (if 1 <? k then "s" else ""))
            = " " +:+ unit +:+ (if 1 <? k then "s" else "")
            ∧ " " +:+ unit +:+ (if 1 <? k then "s" else "") ≠ "") as [Heq Hne].
    { repeat (apply elem_of_cons in Hunit as [->|Hunit]);
        [destruct (1 <? k); done..|by apply elem_of_nil in Hunit]. }
    rewrite rstrip_app; rewrite Heq; done.
Qed.

Lemma not_blank_led_empty : ¬ blank_led "".
Proof. by intros [(d & r & ? & _) _]. Qed.

Lemma units_step k unit t :
  0 ≤ k → unit ∈ ["day"; "hr"; "min"; "sec"] → t = "" ∨ blank_led t →
  (k = 0 ∧ t = "") ∨ blank_led (unit_text k unit +:+ t).
Proof.
  intros Hk Hunit Ht. destruct (decide (k = 0)) as [->|Hne].
  - rewrite unit_text_zero. change ("" +:+ t) with t.
    destruct Ht; [by left|by right].
  - right. apply blank_led_app; [|done].
    apply blank_led_unit_text; [lia|done].
Qed.

(** The units of a positive number of seconds. *)
Lemma blank_led_delta_units n : 0 < n → blank_led (delta_units n).
Proof.
  intros Hn. assert (0 ≤ n) as Hn' by lia.
  pose proof (time_parts_bounds n Hn') as Hparts.
  unfold delta_units.
  destruct (time_parts n) as [[[days hours] minutes] seconds].
  destruct Hparts as (Hsum & Hd & Hh & Hm & Hs).
  rewrite <- (append_empty (unit_text seconds "sec")).
  set (t4 := unit_text seconds "sec" +:+ "").
  set (t3 := unit_text minutes "min" +:+ t4).
  set (t2 := unit_text hours "hr" +:+ t3).
  assert (seconds = 0 ∧ "" = "" ∨ blank_led t4) as H4
    by (apply units_step; [lia|repeat constructor|by left]).
  assert (t4 = "" ∨ blank_led t4) as H4'.
  { destruct H4 as [[Hz _]|?]; [left|by right]. unfold t4. by rewrite Hz. }
  assert (minutes = 0 ∧ t4 = "" ∨ blank_led t3) as H3
    by (apply units_step; [lia|repeat constructor|done]).
  assert (t3 = "" ∨ blank_led t3) as H3'.
  { destruct H3 as [[Hz Ht]|?]; [left|by right]. unfold t3. by rewrite Hz, Ht. }
  assert (hours = 0 ∧ t3 = "" ∨ blank_led t2) as H2
    by (apply units_step; [lia|repeat constructor|done]).
  assert (t2 = "" ∨ blank_led t2) as H2'.
  { destruct H2 as [[Hz Ht]|?]; [left|by right]. unfold t2. by rewrite Hz, Ht. }
  assert (days = 0 ∧ t2 = "" ∨ blank_led (unit_text days "day" +:+ t2)) as H1
    by (apply units_step; [lia|repeat constructor|done]).
  destruct H1 as [[Hdays Ht2]|?]; [exfalso|done].
  destruct H2 as [[Hhours Ht3]|H2];
    [|rewrite Ht2 in H2; by apply not_blank_led_empty in H2].
  destruct H3 as [[Hminutes Ht4]|H3];
    [|rewrite Ht3 in H3; by apply not_blank_led_empty in H3].
  destruct H4 as [[Hseconds _]|H4];
    [lia|rewrite Ht4 in H4; by apply not_blank_led_empty in H4].
Qed.

(** Trimming a text led by one blank, alone and after a sign. *)
Lemma strip_blank_led t :
  blank_led t →
  " " +:+ PyStr.strip t = t ∧ PyStr.strip ("-" +:+ t) = "-" +:+ t.
Proof.
  intros [(d & r & -> & Hsp) Hr]. unfold PyStr.strip. split.
  - cbn [PyStr.lstrip]. change (PyStr.isspace " ") with true. cbv iota.
    rewrite Hsp. rewrite rstrip_cons in Hr by (by apply rstrip_head).
    exact Hr.
  - change ("-" +:+ ?t) with (String "-" t).
    cbn [PyStr.lstrip]. change (PyStr.isspace "-") with false. cbv iota.
    rewrite rstrip_cons; by rewrite Hr.
Qed.

Lemma pretty_time_delta_plus n :
  0 ≤ n → pretty_time_delta n = PyStr.strip (delta_units n).
Proof.
  intros Hn. unfold pretty_time_delta, delta_units.
  rewrite (proj2 (Z.ltb_ge n 0)) by lia. rewrite Z.abs_eq by lia.
  by destruct (time_parts n) as [[[? ?] ?] ?].
Qed.

Lemma pretty_time_delta_minus n :
  0 < n → pretty_time_delta (- n) = PyStr.strip ("-" +:+ delta_units n).
Proof.
  intros Hn. unfold pretty_time_delta, delta_units.
  rewrite (proj2 (Z.ltb_lt (- n) 0)) by lia.
  rewrite Z.abs_neq, Z.opp_involutive by lia.
  by destruct (time_parts n) as [[[? ?] ?] ?].
Qed.

End TimeText.



(** X22. For a negative number of seconds the sign is set apart: the
    text is ["- "] followed by the text of the number without its sign. *)
Theorem pretty_time_delta_negative (n : Z) :
  0 < n → pretty_time_delta (- n) = "- " +:+ pretty_time_delta n.
Proof.
  intros Hn.
  destruct (strip_blank_led _ (blank_led_delta_units n Hn)) as [Hplus Hminus].
  rewrite pretty_time_delta_minus, Hminus by done.
  rewrite pretty_time_delta_plus by lia.
  change ("- " +:+ ?t) with ("-" +:+ (" " +:+ t)). by rewrite Hplus.
Qed.

Lemma pretty_time_delta_negative_witness :
  pretty_time_delta (- 61) = "- " +:+ pretty_time_delta 61.
Proof. apply (pretty_time_delta_negative 61). lia. Defined.

(** ** [pull_configs] and [comboAddress_activated] *)

Section Frames.

Context {A B X : Type} (f : Window → X).

(** What both parts of a sequence leave as it is, the sequence leaves as
    it is. *)
Lemma bind_preserves (m : M A) (k : A → M B) :
  (∀ w, f (m w).1 = f w) → (∀ a w, f (k a w).1 = f w) →
  ∀ w, f (bind m k w).1 = f w.
Proof.
  intros Hm Hk w. unfold bind. specialize (Hm w).
  destruct (m w) as [w' [a|e]]; cbn [fst] in *; [|done].
  by rewrite Hk.
Qed.

End Frames.

Lemma items_of_setText name t u other :
  items_of (apply_op (setText name t) u) other = items_of u other.
Proof. done. Qed.

Lemma items_of_addItems name l u :
  items_of (apply_op (addItems name l) u) name = items_of u name ++ l.
Proof.
  unfold apply_op.
  destruct (items_of u name) eqn:E, l; unfold items_of, with_items, with_text;
    cbn [items]; rewrite lookup_insert_eq; cbn; by rewrite ?E.
Qed.

Lemma items_of_addItems_ne name l u other :
  name ≠ other →
  items_of (apply_op (addItems name l) u) other = items_of u other.
Proof.
  intros Hne. unfold apply_op.
  destruct (items_of u name), l; unfold items_of, with_items, with_text;
    cbn [items]; by rewrite lookup_insert_ne.
Qed.

Lemma take_drop_chars n (s : string) : take_chars n s +:+ drop_chars n s = s.
Proof.
  revert s. induction n as [|n IH]; intros [|c s]; try done.
  cbn [take_chars drop_chars].
  change (String c (take_chars n s +:+ drop_chars n s) = String c s).
  by rewrite IH.
Qed.

(** The first loop: one entry per saved instance, in the order of the
    file; the other boxes keep their entries. *)
Lemma load_addresses_items sections w :
  (load_addresses sections w).2 = Return ()
  ∧ items_of (ui (load_addresses sections w).1) "comboAddress"
    = items_of (ui w) "comboAddress"
      ++ (drop_chars 9 <$> filter (λ s, take_chars 9 s = "splunkd::") sections)
  ∧ ∀ other, other ≠ "comboAddress" →
      items_of (ui (load_addresses sections w).1) other = items_of (ui w) other.
Proof.
  revert w. induction sections as [|s sections IH]; intros w.
  - cbn. by rewrite app_nil_r.
  - cbn [load_addresses]. unfold bind. rewrite filter_cons.
    case_bool_decide as Hs.
    + rewrite decide_True by done. unfold gui. cbn [fst snd].
      match goal with |- context [load_addresses sections ?w'] =>
        destruct (IH w') as (Hret & Hitems & Hother) end.
      split; [done|]. split.
      * rewrite Hitems. cbn [ui]. rewrite apply_ops_singleton,
          items_of_addItems, <- app_assoc. done.
      * intros other Hne. rewrite (Hother other Hne). cbn [ui].
        rewrite apply_ops_singleton. by apply items_of_addItems_ne.
    + rewrite decide_False by done. apply IH.
Qed.

(** The [while] loop: the endpoints numbered from [i] on, up to the first
    number that is not an option. *)
Lemma load_endpoints_items c (uris : list string) fuel i w :
  has_section c "endpoints" = true →
  (∀ j uri, uris !! j = Some uri →
            config_options c !! endpoint_key j = Some (inr uri)) →
  config_options c !! endpoint_key (length uris) = None →
  (i ≤ length uris)%nat → (length uris - i < fuel)%nat →
  (load_endpoints c fuel i w).2 = Return ()
  ∧ items_of (ui (load_endpoints c fuel i w).1) "comboRestURI"
    = items_of (ui w) "comboRestURI" ++ drop i uris.
Proof.
  intros Hsection Huris Hgap. revert i w.
  induction fuel as [|fuel IH]; intros i w Hi Hfuel; [lia|].
  cbn [load_endpoints]. unfold has_option, config_get. rewrite Hsection.
  fold (endpoint_key i). cbn [andb].
  destruct (decide (i = length uris)) as [->|Hne].
  - rewrite Hgap. rewrite bool_decide_eq_false_2 by (by intros [? ?]).
    rewrite drop_all, app_nil_r. done.
  - destruct (lookup_lt_is_Some_2 uris i) as [uri Huri]; [lia|].
    rewrite (Huris i uri Huri).
    rewrite bool_decide_eq_true_2 by by eexists.
    unfold bind, of_sum, ret, gui. cbn [fst snd].
    match goal with |- context [load_endpoints c fuel (S i) ?w'] =>
      destruct (IH (S i) w') as (Hret & Hitems); [lia|lia|] end.
    split; [done|]. rewrite Hitems. cbn [ui].
    rewrite apply_ops_singleton, items_of_addItems, <- app_assoc.
    by rewrite (drop_S uris uri i Huri).
Qed.

(** The numbers below a gap are options, so there are no more of them
    than options. *)
Lemma endpoint_key_inj i j : endpoint_key i = endpoint_key j → i = j.
Proof.
  unfold endpoint_key. intros [= H].
  change (pretty i = pretty j) in H. by apply (inj pretty) in H.
Qed.

Lemma endpoints_bounded {V} (options : gmap (string * string) V) k :
  (∀ j, (j < k)%nat → is_Some (options !! endpoint_key j)) →
  (k ≤ size options)%nat.
Proof.
  revert options. induction k as [|k IH]; intros options Hk; [lia|].
  assert (is_Some (options !! endpoint_key k)) as Hlast by (apply Hk; lia).
  pose proof (map_size_delete_Some (endpoint_key k) options Hlast) as Hsize.
  assert (k ≤ size (delete (endpoint_key k) options))%nat.
  { apply IH. intros j Hj. rewrite lookup_delete_ne; [apply Hk; lia|].
    intros Heq%endpoint_key_inj. lia. }
  destruct (size options) eqn:E; [|lia].
  apply map_size_empty_inv in E. rewrite E in Hlast.
  rewrite lookup_empty in Hlast. by destruct Hlast.
Qed.

(** The bound on the rounds of the [while] loop is never reached: some
    number up to the number of options is not an endpoint, and from there
    on more rounds change nothing. *)
Lemma endpoints_gap c :
  ∃ g, (g ≤ size (config_options c))%nat
       ∧ has_option c "endpoints" (endpoint_key g).2 = false.
Proof.
  assert (∀ n, (∀ j, (j < n)%nat →
                  has_option c "endpoints" (endpoint_key j).2 = true)
               ∨ ∃ g, (g < n)%nat
                      ∧ has_option c "endpoints" (endpoint_key g).2 = false)
    as Hsearch.
  { induction n as [|n [Hall|(g & Hg & Hgap)]].
    - left. intros j Hj. lia.
    - destruct (has_option c "endpoints" (endpoint_key n).2) eqn:Hn.
      + left. intros j Hj. destruct (decide (j = n)) as [->|]; [done|].
        apply Hall. lia.
      + right. exists n. split; [lia|done].
    - right. exists g. split; [lia|done]. }
  destruct (Hsearch (S (size (config_options c)))) as [Hall|(g & Hg & Hgap)].
  - exfalso.
    assert (S (size (config_options c)) ≤ size (config_options c))%nat; [|lia].
    apply endpoints_bounded. intros j Hj. specialize (Hall j Hj).
    unfold has_option in Hall. apply andb_true_iff in Hall as [_ Hall].
    by apply bool_decide_eq_true_1 in Hall.
  - exists g. split; [lia|done].
Qed.

Lemma load_endpoints_enough c fuel fuel' i g w :
  has_option c "endpoints" (endpoint_key g).2 = false →
  (i ≤ g)%nat → (g - i < fuel)%nat → (g - i < fuel')%nat →
  load_endpoints c fuel i w = load_endpoints c fuel' i w.
Proof.
  intros Hgap. revert fuel' i w.
  induction fuel as [|fuel IH]; intros [|fuel'] i w Hi Hfuel Hfuel'; try lia.
  cbn [load_endpoints].
  destruct (has_option c "endpoints" ("endpoint." +:+ pretty i)) eqn:Hoption;
    [|done].
  assert (i ≠ g) as Hne.
  { intros ->. cbn [endpoint_key snd] in Hgap. congruence. }
  unfold bind. destruct (of_sum _ w) as [w1 [uri|e]]; [|done].
  destruct (gui _ w1) as [w2 [[]|e]]; [|done].
  apply IH; lia.
Qed.

Lemma load_endpoints_bound c fuel w :
  (size (config_options c) < fuel)%nat →
  load_endpoints c fuel 0 w
  = load_endpoints c (S (size (config_options c))) 0 w.
Proof.
  intros Hfuel. destruct (endpoints_gap c) as (g & Hg & Hgap).
  apply (load_endpoints_enough c _ _ 0 g); [done|lia..].
Qed.

(** The loops and the defaults that do not touch a box leave its entries
    as they are. *)
Lemma load_endpoints_keeps c fuel i name w :
  name ≠ "comboRestURI" →
  items_of (ui (load_endpoints c fuel i w).1) name = items_of (ui w) name.
Proof.
  intros Hne. revert i w. induction fuel as [|fuel IH]; intros i w; [done|].
  cbn [load_endpoints]. destruct (has_option _ _ _); [|done].
  unfold bind. destruct (config_get _ _ _) as [e|uri]; [done|].
  cbn [of_sum ret fst snd]. unfold gui. cbn [fst snd].
  rewrite IH. cbn [ui]. rewrite apply_ops_singleton.
  by apply items_of_addItems_ne.
Qed.

Lemma load_default_keeps c option widget name w :
  items_of (ui (load_default c option widget w).1) name = items_of (ui w) name.
Proof.
  unfold load_default. destruct (has_option _ _ _); [|done].
  unfold bind. by destruct (config_get _ _ _).
Qed.

Lemma pull_configs_tail_keeps c name w :
  items_of
    (ui ((load_default c "defaultAddress" "comboAddress" ;;
          load_default c "defaultUsername" "editUsername" ;;
          load_default c "defaultPassword" "editPassword" ;;
          if has_option c "main" "pollInterval" then
            match config_getint c "main" "pollInterval" with
            | inr poll_interval => ret (Some poll_interval)
            | inl _ =>
                warning_msg
                  "Bad poll interval value in configuration, must be an integer" ;;
                ret None
            end
          else ret None)%handler w).1) name
  = items_of (ui w) name.
Proof.
  revert w.
  repeat (apply (bind_preserves (λ w, items_of (ui w) name));
          [intros w; apply load_default_keeps|intros _]).
  intros w. destruct (has_option _ _ _); [|done].
  by destruct (config_getint _ _ _).
Qed.

(** X23. After [pull_configs] the address box lists, after what it
    listed before, one entry per section of the configuration whose name
    begins with [splunkd::], in the order of the file and without that
    prefix; this holds whatever the rest of the configuration is, also
    when reading one of its options raises. *)
Theorem pull_configs_addresses (c : Config) (w : Window) :
  items_of (ui (pull_configs c w).1) "comboAddress"
  = items_of (ui w) "comboAddress"
    ++ (drop_chars 9
          <$> filter (λ s, take_chars 9 s = "splunkd::") (config_sections c)).
Proof.
  unfold pull_configs. unfold bind at 1.
  destruct (load_addresses_items (config_sections c) w) as (Hret & Hitems & _).
  destruct (load_addresses (config_sections c) w) as [w1 o].
  cbn [fst snd] in *. subst o. rewrite <- Hitems. revert w1 Hitems.
  intros w1 _. revert w1.
  apply (bind_preserves (λ w, items_of (ui w) "comboAddress")).
  - intros w1. destruct (has_section c "endpoints"); [|done].
    by apply load_endpoints_keeps.
  - intros _ w1. apply pull_configs_tail_keeps.
Qed.

(** X24. With a section [endpoints] whose options [endpoint.0] to
    [endpoint.(k-1)] hold the URIs [uris] and which has no option
    [endpoint.k], [pull_configs] appends exactly these URIs, in this
    order, to the history of the URI box: the loop ends at the first
    number that is missing, and options with a higher number are not
    listed. *)
Theorem pull_configs_endpoints (c : Config) (uris : list string) (w : Window) :
  "endpoints" ∈ config_sections c →
  (∀ j uri, uris !! j = Some uri →
            config_options c !! endpoint_key j = Some (inr uri)) →
  config_options c !! endpoint_key (length uris) = None →
  items_of (ui (pull_configs c w).1) "comboRestURI"
  = items_of (ui w) "comboRestURI" ++ uris.
Proof.
  intros Hsection Huris Hgap.
  assert (has_section c "endpoints" = true) as Hhas
    by (by apply bool_decide_eq_true_2).
  assert (length uris ≤ size (config_options c))%nat as Hbound.
  { apply endpoints_bounded. intros j Hj.
    destruct (lookup_lt_is_Some_2 uris j Hj) as [uri Huri].
    rewrite (Huris j uri Huri). by eexists. }
  unfold pull_configs. unfold bind at 1.
  destruct (load_addresses_items (config_sections c) w) as (Hret & _ & Hother).
  specialize (Hother "comboRestURI" ltac:(done)).
  destruct (load_addresses (config_sections c) w) as [w1 o].
  cbn [fst snd] in *. subst o. rewrite <- Hother. clear Hother.
  rewrite Hhas. unfold bind at 1.
  destruct (load_endpoints_items c uris (S (size (config_options c))) 0 w1
              Hhas Huris Hgap) as (Hret & Hitems); [lia|lia|].
  destruct (load_endpoints c _ 0 w1) as [w2 o]. cbn [fst snd] in *. subst o.
  rewrite drop_0 in Hitems. rewrite <- Hitems.
  apply pull_configs_tail_keeps.
Qed.

Lemma pull_configs_endpoints_witness :
  items_of (ui (pull_configs sample_config (Sample.fresh ∅)).1) "comboRestURI"
  = items_of (ui (Sample.fresh ∅)) "comboRestURI"
    ++ ["/services/server/info"; "/services/apps/local"].
Proof.
  apply (pull_configs_endpoints sample_config
           ["/services/server/info"; "/services/apps/local"] (Sample.fresh ∅)).
  - vm_compute. repeat constructor.
  - intros [|[|j]] uri [= <-]; reflexivity.
  - reflexivity.
Defined.

Lemma ui_only_ret {A} (a : A) : ui_only (ret a).
Proof. intros [? ? ? ?]. by eexists _, _. Qed.

Lemma ui_only_gui ops : ui_only (gui ops).
Proof. intros w. by eexists _, _. Qed.

Lemma ui_only_bind {A B} (m : M A) (k : A → M B) :
  ui_only m → (∀ a, ui_only (k a)) → ui_only (bind m k).
Proof.
  intros Hm Hk w. unfold bind. destruct (Hm w) as (u & a & ->).
  destruct (Hk a (with_ui w u)) as (u' & b & ->). by exists u', b.
Qed.

Lemma ui_only_load_addresses sections : ui_only (load_addresses sections).
Proof.
  induction sections as [|s sections IH]; cbn [load_addresses].
  - apply ui_only_ret.
  - apply ui_only_bind; [|done].
    case_bool_decide; [apply ui_only_gui|apply ui_only_ret].
Qed.

(** Reading an option that is there, in a readable configuration. *)
Lemma config_get_readable c section option :
  readable c → has_option c section option = true →
  ∃ v, config_get c section option = inr v.
Proof.
  intros Hc. unfold has_option, config_get.
  destruct (has_section c section); [|done]. cbn [andb].
  intros [answer Hanswer]%bool_decide_eq_true_1. rewrite Hanswer.
  destruct answer as [e|v]; [by destruct (Hc _ _ Hanswer)|by exists v].
Qed.

Lemma ui_only_load_endpoints c fuel i :
  readable c → ui_only (load_endpoints c fuel i).
Proof.
  intros Hc. revert i. induction fuel as [|fuel IH]; intros i;
    cbn [load_endpoints]; [apply ui_only_ret|].
  destruct (has_option _ _ _) eqn:Hoption; [|apply ui_only_ret].
  destruct (config_get_readable c _ _ Hc Hoption) as [uri ->].
  apply ui_only_bind; [apply ui_only_ret|intros v].
  apply ui_only_bind; [apply ui_only_gui|done].
Qed.

Lemma ui_only_load_default c option widget :
  readable c → ui_only (load_default c option widget).
Proof.
  intros Hc. unfold load_default.
  destruct (has_option _ _ _) eqn:Hoption; [|apply ui_only_ret].
  destruct (config_get_readable c _ _ Hc Hoption) as [v ->].
  apply ui_only_bind; [apply ui_only_ret|intros v']. apply ui_only_gui.
Qed.

(** X25. With a configuration of which every option can be read,
    [pull_configs] returns normally.  The poll interval it sets is the
    number of the option [pollInterval] of [main]; when there is no such
    option, and when its value is not a number, none is set, and in the
    latter case one warning box tells so.  Nothing else is shown, nothing
    is sent and no wrapper object is made. *)
Theorem pull_configs_poll_interval (c : Config) (w : Window) :
  readable c →
  let w' := (pull_configs c w).1 in
  let answer :=
    if has_option c "main" "pollInterval"
    then Some (config_getint c "main" "pollInterval") else None in
  (pull_configs c w).2
  = Return match answer with
           | Some (inr poll_interval) => Some poll_interval
           | _ => None
           end
  ∧ dialogs w'
    = dialogs w
      ++ match answer with
         | Some (inl _) =>
             [(Warning,
               "Bad poll interval value in configuration, must be an integer")]
         | _ => []
         end
  ∧ net w' = net w ∧ splunkd w' = splunkd w.
Proof.
  intros Hc w' answer. unfold w', answer. clear w' answer.
  remember (pull_configs c w) as r eqn:Hr. unfold pull_configs in Hr.
  assert (ui_only (if has_section c "endpoints"
                   then load_endpoints c (S (size (config_options c))) 0
                   else ret ())) as Hendpoints.
  { destruct (has_section c "endpoints");
      [by apply ui_only_load_endpoints|apply ui_only_ret]. }
  unfold bind at 1 in Hr.
  destruct (ui_only_load_addresses (config_sections c) w) as (u1 & [] & Hrun).
  rewrite Hrun in Hr. clear Hrun. unfold bind at 1 in Hr.
  destruct (Hendpoints (with_ui w u1)) as (u2 & [] & Hrun).
  rewrite Hrun in Hr. clear Hrun. unfold bind at 1 in Hr.
  destruct (ui_only_load_default c "defaultAddress" "comboAddress" Hc
              (with_ui (with_ui w u1) u2)) as (u3 & [] & Hrun).
  rewrite Hrun in Hr. clear Hrun. unfold bind at 1 in Hr.
  destruct (ui_only_load_default c "defaultUsername" "editUsername" Hc
              (with_ui (with_ui (with_ui w u1) u2) u3)) as (u4 & [] & Hrun).
  rewrite Hrun in Hr. clear Hrun. unfold bind at 1 in Hr.
  destruct (ui_only_load_default c "defaultPassword" "editPassword" Hc
              (with_ui (with_ui (with_ui (with_ui w u1) u2) u3) u4))
    as (u5 & [] & Hrun).
  rewrite Hrun in Hr. clear Hrun.
  destruct (has_option c "main" "pollInterval");
    [destruct (config_getint c "main" "pollInterval") as [e|poll_interval]|];
    unfold bind, warning_msg, show_dialog, ret in Hr; subst r;
    cbn [fst snd with_ui dialogs net splunkd]; rewrite ?app_nil_r; done.
Qed.

Lemma pull_configs_poll_interval_witness :
  (pull_configs sample_config (Sample.fresh ∅)).2 = Return (Some 60).
Proof.
  refine (proj1 (pull_configs_poll_interval sample_config (Sample.fresh ∅) _)).
  intros key e. unfold sample_config. cbn [config_options].
  repeat (rewrite lookup_insert; case_decide; [discriminate|]).
  rewrite lookup_singleton. case_decide; discriminate.
Defined.

(** X26. Choosing an address in the address box.  For an entry listed
    from a section [splunkd::...] of a configuration, the section read is
    that very section: the user name and the password saved in it are put
    into their fields, each one only when it is saved, the other field
    keeping what it held.  For an address without a section of its own
    nothing changes at all: the fields keep the credentials of the
    address chosen before. *)
Theorem comboAddress_saved_credentials (c : Config) (w : Window) :
  (∀ (s : string) (user pass : option string),
     s ∈ config_sections c → take_chars 9 s = "splunkd::" →
     text_of (ui w) "comboAddress" = drop_chars 9 s →
     config_options c !! (s, "username") = inr <$> user →
     config_options c !! (s, "password") = inr <$> pass →
     let w' := (comboAddress_activated c w).1 in
     (comboAddress_activated c w).2 = Return ()
     ∧ text_of (ui w') "editUsername"
       = default (text_of (ui w) "editUsername") user
     ∧ text_of (ui w') "editPassword"
       = default (text_of (ui w) "editPassword") pass
     ∧ text_of (ui w') "comboAddress" = drop_chars 9 s)
  ∧ ("splunkd::" +:+ text_of (ui w) "comboAddress" ∉ config_sections c →
     comboAddress_activated c w = (w, Return ())).
Proof.
  split.
  - intros s user pass Hs Hprefix Haddress Huser Hpass w'.
    unfold w'. clear w'.
    remember (comboAddress_activated c w) as r eqn:Hr.
    unfold comboAddress_activated in Hr.
    unfold bind at 1, widget_text in Hr. cbv beta iota zeta in Hr.
    rewrite Haddress, <- Hprefix, take_drop_chars in Hr.
    unfold has_option, config_get, has_section in Hr.
    rewrite !(bool_decide_eq_true_2 _ Hs), Huser, Hpass in Hr.
    cbn [andb] in Hr.
    assert (∀ v : Exc + string, bool_decide (is_Some (Some v)) = true)
      as Hsome by (intros v; by apply bool_decide_eq_true_2).
    assert (bool_decide (is_Some (@None (Exc + string))) = false) as Hnone
      by (apply bool_decide_eq_false_2; by intros [? ?]).
    destruct user as [u|], pass as [p|];
      cbn [fmap option_fmap option_map] in Hr;
      rewrite ?Hsome, ?Hnone in Hr;
      unfold bind, of_sum, ret, gui in Hr; cbn [fst snd ui] in Hr;
      subst r; cbn [fst snd ui default];
      rewrite ?apply_ops_singleton; unfold text_of;
      rewrite ?text_apply_op_setText;
      (split; [done|]);
      rewrite ?(lookup_insert_ne _ "editPassword" "editUsername") by done;
      rewrite ?(lookup_insert_ne _ "editUsername" "editPassword") by done;
      rewrite ?(lookup_insert_ne _ "editPassword" "comboAddress") by done;
      rewrite ?(lookup_insert_ne _ "editUsername" "comboAddress") by done;
      rewrite ?lookup_insert_eq;
      fold (text_of (ui w) "comboAddress"); by rewrite Haddress.
  - intros Hnone. unfold comboAddress_activated, bind, widget_text.
    cbn [fst snd]. unfold has_option, has_section.
    rewrite !(bool_decide_eq_false_2 _ Hnone). by destruct w.
Qed.

Lemma comboAddress_saved_credentials_witness :
  let w := Sample.fresh {[ "comboAddress" := "idx1:8089";
                           "editUsername" := "someone" ]} in
  text_of (ui (comboAddress_activated sample_config w).1) "editUsername"
  = "admin".
Proof.
  intros w.
  refine (proj1 (proj2
            (proj1 (comboAddress_saved_credentials sample_config w)
               "splunkd::idx1:8089" (Some "admin") (Some "changeme")
               _ eq_refl eq_refl eq_refl eq_refl))).
  vm_compute. repeat constructor.
Defined.
